(** * perforce-utils: journal [db.storage] scanner, file-type decoder and
    versioned-file reconciliation

    A shallow embedding of the two Go programs of the repository,
    [p4_storage_to_csv] and [p4_find_missing_files], followed by the
    properties established about them.

    Conventions of the embedding:
    - a Go [string] is a [string] (a sequence of bytes);
    - a Go [int] / [uint64] is a [Z]; the programs only add small constants
      to lengths and mask parsed values, so no operation leaves the 64-bit
      range and no wrap-around is involved;
    - a Go computation that may stop with a run-time panic (index or slice
      bounds out of range) lives in the [go] monad;
    - a loop body that may execute [continue] returns [go (option _)],
      [None] standing for [continue];
    - [map[string]int] is a [gmap string Z];
    - a loop [for scanner.Scan() { line := scanner.Text() ... }] is a
      recursion over the list of lines the [bufio.Scanner] yields; what
      that list is, for a file of given content, is [GoBufio.scannerLines]
      and [OnDisk.view]. *)

From Stdlib Require Import ZArith String Ascii List Lia Bool.
From stdpp Require Import base gmap strings list.

Open Scope Z_scope.

(** ** Go run-time: panics, indexing and slicing *)

Module GoRuntime.

Inductive go (A : Type) : Type :=
| Ret (a : A)
| Panic.
Arguments Ret {A} a.
Arguments Panic {A}.

Definition bind {A B} (m : go A) (k : A -> go B) : go B :=
  match m with
  | Ret a => k a
  | Panic => Panic
  end.

(** [len(s)] for slices and for strings. *)
Definition len {A} (l : list A) : Z := Z.of_nat (length l).
Definition slen (s : string) : Z := Z.of_nat (String.length s).

(** [l[i]]: panics unless [0 <= i < len(l)]. *)
Definition index {A} (l : list A) (i : Z) : go A :=
  if (0 <=? i) && (i <? len l)
  then match nth_error l (Z.to_nat i) with
       | Some x => Ret x
       | None => Panic
       end
  else Panic.

(** [l[lo:hi]]: panics unless [0 <= lo <= hi <= cap(l)].  The only slice
    that is re-sliced in the programs is the result of [strings.Split],
    whose capacity equals its length. *)
Definition slice {A} (l : list A) (lo hi : Z) : go (list A) :=
  if (0 <=? lo) && (lo <=? hi) && (hi <=? len l)
  then Ret (firstn (Z.to_nat (hi - lo)) (skipn (Z.to_nat lo) l))
  else Panic.

(** [s[lo:hi]] on a string: panics unless [0 <= lo <= hi <= len(s)]. *)
Definition substr (s : string) (lo hi : Z) : go string :=
  if (0 <=? lo) && (lo <=? hi) && (hi <=? slen s)
  then Ret (String.substring (Z.to_nat lo) (Z.to_nat (hi - lo)) s)
  else Panic.

End GoRuntime.

Export GoRuntime.

#[global] Instance go_ret : MRet go := @Ret.
#[global] Instance go_bind : MBind go := fun A B k m => bind m k.

(** ** Go's [strings] package, as far as the programs use it *)

Module GoStrings.

(** [strings.Split(s, sep)] for a one-byte separator.  The result is never
    empty: the empty string splits into one empty token. *)
Fixpoint Split (s : string) (sep : ascii) : list string :=
  match s with
  | EmptyString => [EmptyString]
  | String c rest =>
      if Ascii.eqb c sep then EmptyString :: Split rest sep
      else match Split rest sep with
           | tok :: toks => String c tok :: toks
           | [] => [String c EmptyString]
           end
  end.

(** [strings.Join(elems, sep)]. *)
Fixpoint Join (elems : list string) (sep : string) : string :=
  match elems with
  | [] => EmptyString
  | [e] => e
  | e :: rest => e +:+ sep +:+ Join rest sep
  end.

(** [strings.TrimLeft(s, cutset)] for a one-byte cutset: every leading
    occurrence of the byte goes. *)
Fixpoint TrimLeft (s : string) (c : ascii) : string :=
  match s with
  | EmptyString => EmptyString
  | String a rest => if Ascii.eqb a c then TrimLeft rest c else s
  end.

(** [strings.TrimRight(s, cutset)] for a one-byte cutset. *)
Fixpoint TrimRight (s : string) (c : ascii) : string :=
  match s with
  | EmptyString => EmptyString
  | String a rest =>
      match TrimRight rest c with
      | EmptyString => if Ascii.eqb a c then EmptyString else String a EmptyString
      | r => String a r
      end
  end.

(** [strings.Trim(s, cutset)] for a one-byte cutset. *)
Definition Trim (s : string) (c : ascii) : string :=
  TrimRight (TrimLeft s c) c.

(** [strings.HasPrefix(s, prefix)]. *)
Definition HasPrefix (s pre : string) : bool := String.prefix pre s.

(** [strings.HasSuffix(s, suffix)]. *)
Definition HasSuffix (s suf : string) : bool :=
  let n := String.length s in
  let k := String.length suf in
  (k <=? n)%nat && String.eqb (String.substring (n - k) k s) suf.

(** [strings.ReplaceAll(s, old, new)] for one-byte [old] and [new]. *)
Fixpoint ReplaceAll (s : string) (old new : ascii) : string :=
  match s with
  | EmptyString => EmptyString
  | String a rest =>
      String (if Ascii.eqb a old then new else a) (ReplaceAll rest old new)
  end.

(** [strings.Replace(s, old, new, 1)] with an empty [new]: the first
    occurrence of [old] is removed; an empty [old] matches at the start and
    removes nothing. *)
Fixpoint RemoveFirst (s old : string) : string :=
  if String.prefix old s
  then String.substring (String.length old) (String.length s - String.length old) s
  else match s with
       | EmptyString => EmptyString
       | String a rest => String a (RemoveFirst rest old)
       end.

End GoStrings.

Export GoStrings.

(** ** Go's [strconv] package, as far as the programs use it

    All three parsers are called with base 10, where no underscore and no
    base prefix is accepted; [int] is 64 bits wide. *)

Module GoStrconv.

Definition digit (c : ascii) : option Z :=
  let n := Z.of_N (N_of_ascii c) - 48 in
  if (0 <=? n) && (n <=? 9) then Some n else None.

(** The value of a run of decimal digits, most significant first; [None]
    on any other byte. *)
Fixpoint digits (s : string) (acc : Z) : option Z :=
  match s with
  | EmptyString => Some acc
  | String c rest =>
      match digit c with
      | Some d => digits rest (acc * 10 + d)
      | None => None
      end
  end.

(** [strconv.ParseUint(s, 10, 64)]: [None] is a non-nil error (syntax or
    range). *)
Definition ParseUint (s : string) : option Z :=
  match s with
  | EmptyString => None
  | _ => match digits s 0 with
         | Some n => if n <? 2 ^ 64 then Some n else None
         | None => None
         end
  end.

(** [strconv.ParseInt(s, 10, 64)]: an optional sign, then an unsigned
    number; the result has to fit a signed 64-bit integer. *)
Definition ParseInt (s : string) : option Z :=
  match s with
  | EmptyString => None
  | String c rest =>
      let neg := Ascii.eqb c "-" in
      let body := if Ascii.eqb c "+" || neg then rest else s in
      match ParseUint body with
      | Some un =>
          if neg then (if un <=? 2 ^ 63 then Some (- un) else None)
          else (if un <? 2 ^ 63 then Some un else None)
      | None => None
      end
  end.

(** [strconv.Atoi(s)]: its fast path (fewer than 19 bytes) and its slow
    path ([ParseInt(s, 10, 0)]) accept the same strings with the same
    values. *)
Definition Atoi (s : string) : option Z := ParseInt s.

End GoStrconv.

Export GoStrconv.

(** ** Go's [bufio.Scanner], as the programs use it

    Every file the programs read is read through
    [bufio.NewScanner(file)], with no call of [Buffer] or [Split]: the
    split function is [bufio.ScanLines] and the buffer grows up to
    [MaxScanTokenSize] bytes.  A line is yielded when its bytes and the
    newline that ends it fit into the buffer; at a line that does not fit,
    [Scan] records [ErrTooLong] and returns false.  The programs never call
    [scanner.Err()]: to them the file ends there. *)

Module GoBufio.

Definition MaxScanTokenSize : Z := 64 * 1024.

(** [dropCR]: one trailing carriage return goes. *)
Fixpoint dropCR (data : string) : string :=
  match data with
  | EmptyString => EmptyString
  | String c EmptyString => if Ascii.eqb c "013" then EmptyString else data
  | String c rest => String c (dropCR rest)
  end.

(** The tokens successive calls of [Scan] yield, until it returns false;
    [pieces] is the content still to read, split at the newlines.  The
    last piece is what follows the last newline: it is a line of its own
    unless it is empty.  A piece of [MaxScanTokenSize] bytes or more fills
    the buffer before its end is seen, and the scan stops. *)
Fixpoint scanTokens (pieces : list string) : list string :=
  match pieces with
  | [] => []
  | [final] =>
      if (0 <? slen final) && (slen final <? MaxScanTokenSize)
      then [dropCR final] else []
  | piece :: rest =>
      if slen piece <? MaxScanTokenSize
      then dropCR piece :: scanTokens rest else []
  end.

(** What the loop [for scanner.Scan() { line := scanner.Text() ... }] sees
    of a file of the given content. *)
Definition scannerLines (content : string) : list string :=
  scanTokens (Split content "010").

End GoBufio.

Export GoBufio.

(** ** [p4_storage_to_csv]: the CSV-export tool *)

Module StorageToCsv.

Definition DbStorageFieldRev : Z := 3.
Definition DbStorageFieldType : Z := 4.
Definition DbStorageFieldRefCount : Z := 5.
Definition DbStorageFieldDigest : Z := 6.
Definition DbStorageFieldSize : Z := 7.
Definition DbStorageFieldServerSize : Z := 8.
Definition DbStorageFieldCompCksum : Z := 9.
Definition DbStorageFieldDate : Z := 10.

Definition DbStorageJournalFieldCount : Z := 12.
Definition DbStorageFieldFileMarker : Z := 3.

Definition FileTypeBitMaskServerStorageType : Z := 0xF.
Definition FileTypeBitMaskServerStorageTypeModifier : Z := 0xF0.
Definition FileTypeBitMaskRevisionsNumber : Z := 0xF00.
Definition FileTypeBitMaskClientStorageType : Z := 0x10D0000.
Definition FileTypeBitMaskClientStorageTypeModifier : Z := 0x720000.

(** The five sub-fields the loop body computes from [fileType]. *)
Record DecodedFileType : Type := mkDecoded {
  serverFileType : Z;
  serverFileTypeModifier : Z;
  revisionsNumber : Z;
  clientFileType : Z;
  clientFileTypeModifier : Z
}.

(** The five masking assignments of [processDbStorageEntries]. *)
Definition decodeFileType (fileType : Z) : DecodedFileType :=
  {| serverFileType := Z.land fileType FileTypeBitMaskServerStorageType;
     serverFileTypeModifier := Z.land fileType FileTypeBitMaskServerStorageTypeModifier;
     revisionsNumber := Z.land fileType FileTypeBitMaskRevisionsNumber;
     clientFileType := Z.land fileType FileTypeBitMaskClientStorageType;
     clientFileTypeModifier := Z.land fileType FileTypeBitMaskClientStorageTypeModifier |}.

(** One output row, before its fields are printed as text (the printing,
    [strconv.FormatInt] and the CSV writer, is not modelled). *)
Record Row : Type := mkRow {
  filename : string;
  revision : string;
  fileType : Z;
  decoded : DecodedFileType;
  refCount : Z;
  digest : string;
  size : Z;
  serverSize : Z;
  compCksum : string;
  date : Z
}.

(** The body of the scanning loop for one line: [Ret None] is [continue],
    [Ret (Some row)] is a row handed to the CSV writer. *)
Definition processLine (line : string) : go (option Row) :=
  let parts := Split line " " in
  if len parts <? 4 then mret None else
  p0 ← index parts 0;
  if negb (String.eqb p0 "@pv@") then mret None else
  p2 ← index parts 2;
  if negb (String.eqb p2 "@db.storage@") then mret None else
  let filenameExtraPartCount := len parts - DbStorageJournalFieldCount in
  fparts ← slice parts DbStorageFieldFileMarker
                 (DbStorageFieldFileMarker + filenameExtraPartCount);
  let filename := Join fparts " " in
  let filename := Trim filename "@" in
  revision ← index parts (DbStorageFieldRev + filenameExtraPartCount);
  tType ← index parts (DbStorageFieldType + filenameExtraPartCount);
  match ParseUint tType with
  | None => mret None
  | Some fileType =>
  tRefCount ← index parts (DbStorageFieldRefCount + filenameExtraPartCount);
  match Atoi tRefCount with
  | None => mret None
  | Some refCount =>
  digest ← index parts (DbStorageFieldDigest + filenameExtraPartCount);
  tSize ← index parts (DbStorageFieldSize + filenameExtraPartCount);
  match ParseInt tSize with
  | None => mret None
  | Some size =>
  tServerSize ← index parts (DbStorageFieldServerSize + filenameExtraPartCount);
  match ParseInt tServerSize with
  | None => mret None
  | Some serverSize =>
  compCksum ← index parts (DbStorageFieldCompCksum + filenameExtraPartCount);
  tDate ← index parts (DbStorageFieldDate + filenameExtraPartCount);
  match Atoi tDate with
  | None => mret None
  | Some date =>
      mret (Some {| filename := filename; revision := revision;
                    fileType := fileType; decoded := decodeFileType fileType;
                    refCount := refCount; digest := digest; size := size;
                    serverSize := serverSize; compCksum := compCksum;
                    date := date |})
  end end end end end.

(** The scanning loop over the lines [bufio.Scanner] yields: the rows
    written so far (latest first) and [fileCount]. *)
Fixpoint scanLines (lines : list string) (rows : list Row) (fileCount : Z)
  : go (list Row * Z) :=
  match lines with
  | [] => mret (rows, fileCount)
  | line :: rest =>
      r ← processLine line;
      match r with
      | None => scanLines rest rows fileCount
      | Some row => scanLines rest (row :: rows) (fileCount + 1)
      end
  end.

(** [processDbStorageEntries]: [journal] is [None] when the journal cannot
    be opened, and otherwise the lines its [bufio.Scanner] yields, that is
    [scannerLines] of its content: the lines of the file up to the first
    one of [MaxScanTokenSize] bytes or more, where the loop ends as at the
    end of the file ([scanner.Err()] is not looked at).  The result is the
    rows in output order and [fileCount], or the error. *)
Definition processDbStorageEntries (journal : option (list string))
  : go (option (list Row * Z)) :=
  match journal with
  | None => mret None
  | Some lines =>
      '(rows, fileCount) ← scanLines lines [] 0;
      mret (Some (rev rows, fileCount))
  end.

End StorageToCsv.

(** ** [p4_find_missing_files]: the verification tool *)

Module FindMissingFiles.

Definition RCSStorageType : Z := 0.
Definition BinaryStorageType : Z := 1.
Definition TinyStorageType : Z := 2.
Definition CompressedStorageType : Z := 3.
Definition TempObjStorageType : Z := 4.
Definition DetectTypeStorageType : Z := 5.
Definition CompressedTempObj : Z := 6.
Definition BinaryAccessStorageType : Z := 7.
Definition ExternalStorageType : Z := 8.

Definition DbStorageJournalFieldCount : Z := 12.

(** The errors the program builds with [fmt.Errorf], by origin. *)
Inductive error : Type :=
| ErrOpenRCS (filePath : string)
| ErrReadVersions (cause : error)
| ErrWalk (osPathname : string)
| ErrOpenJournal (journalPath : string).

(** What [godirwalk.Walk] meets while it traverses a tree, in order: an
    entry it hands to the callback, or an operating-system error (a
    directory that cannot be read, the root included). *)
Inductive walkEvent : Type :=
| Entry (osPathname : string) (isDir : bool)
| OsError (osPathname : string).

(** The disk as the program sees it: the lines [bufio.Scanner] yields for
    a file that can be opened ([None] when [os.OpenFile] fails), and what
    a walk from a given root meets.  The lines are [scannerLines] of the
    content of the file, not all its lines: the scan of a file ends at its
    first line of [MaxScanTokenSize] bytes or more, and the program, which
    does not look at [scanner.Err()], goes on as at the end of the file.
    [OnDisk.view] builds this record from the contents of the files. *)
Record Disk : Type := mkDisk {
  openLines : string -> option (list string);
  walkFrom : string -> list walkEvent
}.

(** The scanner record the loop of [processDbStorageEntries] has in hand
    once a line is parsed. *)
Record Scanned : Type := mkScanned {
  filename : string;
  revision : string;
  fileType : Z
}.

(** [fileCount] and [missingCount]. *)
Record Counters : Type := mkCounters {
  fileCount : Z;
  missingCount : Z
}.

(** The state of the loop of [readVersionsFromRCS]. *)
Record RcsState : Type := mkRcsState {
  circularBuffer : list string;
  bufferPosition : Z;
  rcsFilemap : gmap string Z
}.

(** How the process ends: its exit status and, when the journal was
    processed, the two counts it logged. *)
Record Report : Type := mkReport {
  exitCode : Z;
  logged : option Counters
}.

Section Program.

(** [strings.ToLower], [filepath.Join] and [filepath.Separator] are left
    abstract: the first is Unicode-aware, the other two depend on the
    operating system. *)
Variable ToLower : string -> string.
Variable filepath_Join : string -> string -> string.
Variable Separator : ascii.

Variable disk : Disk.

Definition registerExistingPath (filemap : gmap string Z) (value : string)
    (caseSensitive : bool) : gmap string Z :=
  let valueToAdd := if negb caseSensitive then ToLower value else value in
  <[valueToAdd := 1]> filemap.

Definition pathExistsOnDisk (filemap : gmap string Z) (value : string)
    (caseSensitive : bool) : bool :=
  if caseSensitive
  then bool_decide (is_Some (filemap !! value))
  else bool_decide (is_Some (filemap !! ToLower value)).

Definition sentinelBuffer : list string := ["text"; "@@"; "log"]%string.

(** The inner [for] loop of [readVersionsFromRCS]; [sentinel] is what is
    left of [sentinelBuffer] from [scanIndex] on.  It returns the final
    [scanIndex] and [testIndex]. *)
Fixpoint matchSentinel (circularBuffer sentinel : list string)
    (scanIndex testIndex : Z) : Z * Z :=
  match sentinel with
  | [] => (scanIndex, testIndex)
  | expected :: sentinel' =>
      if String.eqb (circularBuffer !!! Z.to_nat testIndex) expected
      then
        let scanIndex := scanIndex + 1 in
        let testIndex := testIndex - 1 in
        let testIndex :=
          if testIndex <? 0 then len circularBuffer - 1 else testIndex in
        matchSentinel circularBuffer sentinel' scanIndex testIndex
      else (scanIndex, testIndex)
  end.

(** One turn of the scanning loop of [readVersionsFromRCS]. *)
Definition rcsStep (normalizedPath : string) (caseSensitive : bool)
    (st : RcsState) (line : string) : RcsState :=
  let circularBuffer := <[Z.to_nat (bufferPosition st) := line]> (circularBuffer st) in
  let bufferPosition := (bufferPosition st + 1) `rem` len circularBuffer in
  if String.eqb line "text"
  then
    let testIndex := bufferPosition - 1 in
    let testIndex :=
      if testIndex <? 0 then len circularBuffer - 1 else testIndex in
    let '(scanIndex, testIndex) :=
      matchSentinel circularBuffer sentinelBuffer 0 testIndex in
    if scanIndex =? len sentinelBuffer
    then mkRcsState circularBuffer bufferPosition
           (registerExistingPath (rcsFilemap st)
              (normalizedPath +:+ "/" +:+ (circularBuffer !!! Z.to_nat testIndex))
              caseSensitive)
    else mkRcsState circularBuffer bufferPosition (rcsFilemap st)
  else mkRcsState circularBuffer bufferPosition (rcsFilemap st).

(** The loop of [readVersionsFromRCS] over the lines the scanner yields. *)
Definition rcsScan (normalizedPath : string) (caseSensitive : bool)
    (lines : list string) (filemap : gmap string Z) : gmap string Z :=
  rcsFilemap
    (fold_left (rcsStep normalizedPath caseSensitive) lines
       (mkRcsState [EmptyString; EmptyString; EmptyString; EmptyString] 0 filemap)).

(** [readVersionsFromRCS]: the map after the call and the returned
    error. *)
Definition readVersionsFromRCS (filePath normalizedPath : string)
    (filemap : gmap string Z) (caseSensitive : bool)
  : gmap string Z * option error :=
  match openLines disk filePath with
  | None => (filemap, Some (ErrOpenRCS filePath))
  | Some lines => (rcsScan normalizedPath caseSensitive lines filemap, None)
  end.

(** The value of [normalizedPath] in the callback below. *)
Definition normalize (depotPath osPathname : string) : string :=
  "//" +:+ Trim (ReplaceAll (RemoveFirst osPathname depotPath) "\" "/") "/".

(** The callback [listVersionedFiles] gives to the walker, for a file or
    directory entry. *)
Definition walkCallback (depotPath : string) (caseSensitive : bool)
    (osPathname : string) (isDir : bool) (filemap : gmap string Z)
  : gmap string Z * option error :=
  if isDir then (filemap, None) else
  let normalizedPath := normalize depotPath osPathname in
  if HasSuffix normalizedPath ",v"
  then
    match readVersionsFromRCS osPathname normalizedPath filemap caseSensitive with
    | (filemap, Some err) => (filemap, Some (ErrReadVersions err))
    | (filemap, None) => (filemap, None)
    end
  else (registerExistingPath filemap normalizedPath caseSensitive, None).

(** [godirwalk.Walk] with no [ErrorCallback]: the default one halts the
    walk on the first operating-system error and on the first error the
    callback returns, and [Walk] returns that error. *)
Fixpoint Walk (events : list walkEvent)
    (callback : string -> bool -> gmap string Z -> gmap string Z * option error)
    (filemap : gmap string Z) : gmap string Z * option error :=
  match events with
  | [] => (filemap, None)
  | OsError osPathname :: _ => (filemap, Some (ErrWalk osPathname))
  | Entry osPathname isDir :: events' =>
      match callback osPathname isDir filemap with
      | (filemap, Some err) => (filemap, Some err)
      | (filemap, None) => Walk events' callback filemap
      end
  end.

(** The value of [rootPath] in [listVersionedFiles]. *)
Definition rootPathOf (depotPath filter : string) : string :=
  if 0 <? slen filter
  then filepath_Join depotPath (ReplaceAll (Trim filter "/") "/" Separator)
  else depotPath.

Definition listVersionedFiles (depotPath filter : string)
    (caseSensitive : bool) : gmap string Z * option error :=
  let filemap : gmap string Z := ∅ in
  let rootPath := rootPathOf depotPath filter in
  Walk (walkFrom disk rootPath) (walkCallback depotPath caseSensitive) filemap.

(** The first half of the loop body of [processDbStorageEntries]: from
    the line to [filename], [revision] and [fileType]; [Ret None] is
    [continue]. *)
Definition scanLine (filter line : string) : go (option Scanned) :=
  let parts := Split line " " in
  if len parts <? 4 then mret None else
  p0 ← index parts 0;
  if negb (String.eqb p0 "@pv@") then mret None else
  p2 ← index parts 2;
  if negb (String.eqb p2 "@db.storage@") then mret None else
  let filenameExtraPartCount := len parts - DbStorageJournalFieldCount in
  fparts ← slice parts 3 (3 + filenameExtraPartCount);
  let filename := Join fparts " " in
  let filename := Trim filename "@" in
  if (0 <? slen filter) && negb (HasPrefix filename filter) then mret None else
  revision ← index parts (3 + filenameExtraPartCount);
  tType ← index parts (4 + filenameExtraPartCount);
  match Atoi tType with
  | None => mret None
  | Some fileType => mret (Some (mkScanned filename revision fileType))
  end.

(** The expected on-disk path of a scanned record. *)
Definition versionedFilePath (r : Scanned) : go string :=
  let serverFileType := Z.land (fileType r) 0xF in
  rev ← substr (revision r) 1 (slen (revision r) - 1);
  if serverFileType =? RCSStorageType
  then mret (filename r +:+ ",v/" +:+ rev)
  else mret (filename r +:+ ",d/" +:+ rev).

(** The second half of the loop body: the look-up and the counters. *)
Definition checkRecord (filemap : gmap string Z) (caseSensitive : bool)
    (st : Counters) (r : Scanned) : go Counters :=
  versionedFilePath ← versionedFilePath r;
  let exists_ := pathExistsOnDisk filemap versionedFilePath caseSensitive in
  let missingCount :=
    if negb exists_
    then
      let exists_ :=
        pathExistsOnDisk filemap (versionedFilePath +:+ ".gz") caseSensitive in
      if negb exists_ then missingCount st + 1 else missingCount st
    else missingCount st in
  mret (mkCounters (fileCount st + 1) missingCount).

Definition processLine (filemap : gmap string Z) (filter : string)
    (caseSensitive : bool) (st : Counters) (line : string) : go Counters :=
  r ← scanLine filter line;
  match r with
  | None => mret st
  | Some r => checkRecord filemap caseSensitive st r
  end.

Fixpoint processLines (filemap : gmap string Z) (filter : string)
    (caseSensitive : bool) (lines : list string) (st : Counters) : go Counters :=
  match lines with
  | [] => mret st
  | line :: rest =>
      st ← processLine filemap filter caseSensitive st line;
      processLines filemap filter caseSensitive rest st
  end.

(** [processDbStorageEntries]: the returned error, or the two counts it
    logs before it returns [nil]. *)
Definition processDbStorageEntries (journalPath : string)
    (filemap : gmap string Z) (filter : string) (caseSensitive : bool)
  : go (error + Counters) :=
  match openLines disk journalPath with
  | None => mret (inl (ErrOpenJournal journalPath))
  | Some lines =>
      st ← processLines filemap filter caseSensitive lines (mkCounters 0 0);
      mret (inr st)
  end.

(** [main], after flag parsing: [args] are the positional arguments. *)
Definition main (args : list string) (caseSensitive : bool) (filter : string)
  : go Report :=
  if len args <? 2 then mret (mkReport 1 None) else
  let '(filemap, _) :=
    listVersionedFiles (nth 1 args EmptyString) filter caseSensitive in
  r ← processDbStorageEntries (nth 0 args EmptyString) filemap filter caseSensitive;
  match r with
  | inl _ => mret (mkReport 1 None)
  | inr st => mret (mkReport 0 (Some st))
  end.

End Program.

End FindMissingFiles.

(** ** The journal line format, for stating the properties *)

Module JournalFormat.

(** The fields of one [db.storage] journal entry, as text: the journal
    version, then the nine columns of the table. *)
Record Fields : Type := mkFields {
  fVersion : string;
  fFile : string;
  fRev : string;
  fType : string;
  fRefCount : string;
  fDigest : string;
  fSize : string;
  fServerSize : string;
  fCompCksum : string;
  fDate : string
}.

(** The twelve fields of the entry; the file name sits between two [@]. *)
Definition tokens (r : Fields) : list string :=
  [ "@pv@"; fVersion r; "@db.storage@"; "@" +:+ fFile r +:+ "@"; fRev r;
    fType r; fRefCount r; fDigest r; fSize r; fServerSize r; fCompCksum r;
    fDate r ]%string.

(** The fields separated by single spaces, nothing after the last one:
    twelve tokens when the file name has no space. *)
Definition bareLine (r : Fields) : string := Join (tokens r) " ".

(** The fields each followed by a single space, the last one included:
    thirteen tokens when the file name has no space, the last one empty. *)
Definition journalLine (r : Fields) : string :=
  Join (tokens r ++ [EmptyString]) " ".

Fixpoint countSpaces (s : string) : nat :=
  match s with
  | EmptyString => 0
  | String c rest => (if Ascii.eqb c " " then 1 else 0) + countSpaces rest
  end.

(** No field other than the file name contains a space. *)
Definition spaceFree (r : Fields) : Prop :=
  Forall (fun s => countSpaces s = 0%nat)
    [ fVersion r; fRev r; fType r; fRefCount r; fDigest r; fSize r;
      fServerSize r; fCompCksum r; fDate r ].

(** The structural pre-filters of both scanners, on the tokens of a line. *)
Definition passesPreFilters (line : string) : bool :=
  let parts := Split line " " in
  (4 <=? len parts)
  && String.eqb (nth 0 parts EmptyString) "@pv@"
  && String.eqb (nth 2 parts EmptyString) "@db.storage@".

(** What the CSV-export scanner extracts, in the shape the verification
    scanner uses. *)
Definition scannedOfRow (row : StorageToCsv.Row) : FindMissingFiles.Scanned :=
  FindMissingFiles.mkScanned (StorageToCsv.filename row)
    (StorageToCsv.revision row) (StorageToCsv.fileType row).

End JournalFormat.

(** ** The RCS container format, for stating the properties *)

Module RcsFormat.

(** The list starts with the three sentinel lines [log], [@@], [text]. *)
Definition sentinelAt (lines : list string) : bool :=
  match lines with
  | a :: b :: c :: _ =>
      String.eqb a "log" && String.eqb b "@@" && String.eqb c "text"
  | _ => false
  end.

(** The number of places of the file where the three sentinel lines
    stand. *)
Fixpoint sentinelCount (lines : list string) : nat :=
  match lines with
  | [] => 0
  | _ :: rest => (if sentinelAt lines then 1 else 0) + sentinelCount rest
  end.

(** For each place where the three sentinel lines stand, the line just
    before them; [prev] is the line before the first line of [lines]. *)
Fixpoint revisionsOf (prev : string) (lines : list string) : list string :=
  match lines with
  | [] => []
  | x :: rest => (if sentinelAt lines then [prev] else []) ++ revisionsOf x rest
  end.

(** The same scan told with the last four lines read, [w0] the latest:
    on a line [text] that follows [@@] and [log], the line before [log]
    is a revision. *)
Fixpoint windowScan (w3 w2 w1 w0 : string) (lines : list string) : list string :=
  match lines with
  | [] => []
  | x :: rest =>
      (if String.eqb x "text" && String.eqb w0 "@@" && String.eqb w1 "log"
       then [w2] else [])
      ++ windowScan w2 w1 w0 x rest
  end.

(** The four most recent lines held by a state of the scanning loop, the
    oldest first; the slot about to be overwritten holds the oldest. *)
Inductive Window : FindMissingFiles.RcsState -> string -> string -> string -> string -> Prop :=
| Window0 m w3 w2 w1 w0 :
    Window (FindMissingFiles.mkRcsState [w3; w2; w1; w0] 0 m) w3 w2 w1 w0
| Window1 m w3 w2 w1 w0 :
    Window (FindMissingFiles.mkRcsState [w0; w3; w2; w1] 1 m) w3 w2 w1 w0
| Window2 m w3 w2 w1 w0 :
    Window (FindMissingFiles.mkRcsState [w1; w0; w3; w2] 2 m) w3 w2 w1 w0
| Window3 m w3 w2 w1 w0 :
    Window (FindMissingFiles.mkRcsState [w2; w1; w0; w3] 3 m) w3 w2 w1 w0.

(** What the scanning loop does to the map for one revision found. *)
Definition registerRevision (ToLower : string -> string)
    (normalizedPath : string) (caseSensitive : bool)
    (filemap : gmap string Z) (revision : string) : gmap string Z :=
  FindMissingFiles.registerExistingPath ToLower filemap
    (normalizedPath +:+ "/" +:+ revision) caseSensitive.

End RcsFormat.

(** ** The packed file type, for stating the round trip *)

Module FileTypeCodec.

Import StorageToCsv.

(** The integer formed from five sub-field values. *)
Definition encodeFileType (d : DecodedFileType) : Z :=
  Z.lor (serverFileType d)
    (Z.lor (serverFileTypeModifier d)
       (Z.lor (revisionsNumber d)
          (Z.lor (clientFileType d) (clientFileTypeModifier d)))).

(** A server storage kind between 0 and 8, and every other sub-field a
    combination of the bits of its mask. *)
Definition wellFormed (d : DecodedFileType) : Prop :=
  0 <= serverFileType d <= 8
  /\ Z.land (serverFileTypeModifier d) FileTypeBitMaskServerStorageTypeModifier
     = serverFileTypeModifier d
  /\ Z.land (revisionsNumber d) FileTypeBitMaskRevisionsNumber = revisionsNumber d
  /\ Z.land (clientFileType d) FileTypeBitMaskClientStorageType = clientFileType d
  /\ Z.land (clientFileTypeModifier d) FileTypeBitMaskClientStorageTypeModifier
     = clientFileTypeModifier d.

End FileTypeCodec.

(** ** Sample data for the closed examples *)

Module Samples.

Import JournalFormat.

(** An entry for file [f] with revision token [rev], of an RCS text file. *)
Definition entry (f rev : string) : Fields :=
  mkFields "3" f rev "0" "1" "ABC123" "100" "100" "XYZ" "1610000000".

(** The same entry with another reference count. *)
Definition entryWithRefCount (f rev rc : string) : Fields :=
  mkFields "3" f rev "0" rc "ABC123" "100" "100" "XYZ" "1610000000".

(** A record that stops after the file name. *)
Definition truncatedLine : string := "@pv@ 3 @db.storage@ @//depot/a.txt@".

(** [strings.ToLower] restricted to ASCII letters; on strings of ASCII
    bytes this is what the library function computes. *)
Definition lowerByte (c : ascii) : ascii :=
  let n := N_of_ascii c in
  if (65 <=? n)%N && (n <=? 90)%N then ascii_of_N (n + 32) else c.

Fixpoint lowerASCII (s : string) : string :=
  match s with
  | EmptyString => EmptyString
  | String c rest => String (lowerByte c) (lowerASCII rest)
  end.

(** [filepath.Join] on two clean relative pieces of a Unix path. *)
Definition unixJoin (a b : string) : string := a +:+ "/" +:+ b.

Fixpoint lookupFile (files : list (string * list string)) (path : string)
  : option (list string) :=
  match files with
  | [] => None
  | (p, lines) :: rest =>
      if String.eqb p path then Some lines else lookupFile rest path
  end.

(** A disk that holds the listed files, each with its lines, and on which
    every walk meets the listed events. *)
Definition diskOf (files : list (string * list string))
    (events : list FindMissingFiles.walkEvent) : FindMissingFiles.Disk :=
  FindMissingFiles.mkDisk (lookupFile files) (fun _ => events).

(** An entry for file [f] with revision token [rev], of a binary file
    stored as one file per revision. *)
Definition binaryEntry (f rev : string) : Fields :=
  mkFields "3" f rev "1" "1" "ABC123" "100" "100" "XYZ" "1610000000".

(** A journal of one entry, for revision 1.1 of [//a.bin]. *)
Definition oneEntryJournal : list string :=
  [journalLine (binaryEntry "//a.bin" "@1.1@")].

(** A depot whose root cannot be read. *)
Definition unreadableRoot : FindMissingFiles.Disk :=
  diskOf [("journal", oneEntryJournal)] [FindMissingFiles.OsError "/depot"].

(** A depot with an RCS container that cannot be opened, met before the
    file that holds revision 1.1 of [//a.bin]. *)
Definition lockedContainer : FindMissingFiles.Disk :=
  diskOf [("journal", oneEntryJournal)]
    [ FindMissingFiles.Entry "/depot" true;
      FindMissingFiles.Entry "/depot/b.txt,v" false;
      FindMissingFiles.Entry "/depot/a.bin,d" true;
      FindMissingFiles.Entry "/depot/a.bin,d/1.1" false ].

(** An RCS container with one revision block. *)
Definition oneBlock : list string :=
  ["head 1.1;"; "desc"; "@@"; "1.1"; "log"; "@@"; "text"; "@hello"; "@"].

(** An RCS container of three lines. *)
Definition threeLines : list string := ["log"; "@@"; "text"].

(** A depot that holds the three-line container as [/depot/a.txt,v]. *)
Definition threeLineDepot : FindMissingFiles.Disk :=
  diskOf [("/depot/a.txt,v", threeLines)]
    [ FindMissingFiles.Entry "/depot" true;
      FindMissingFiles.Entry "/depot/a.txt,v" false ].

(** A depot that holds what its journal lists: revision 1.1 of the binary
    file [//A.bin], compressed, and the container of [//r.txt] with its one
    revision. *)
Definition healthyDepot : FindMissingFiles.Disk :=
  diskOf [ ("journal", [ journalLine (binaryEntry "//A.bin" "@1.1@");
                         journalLine (entry "//r.txt" "@1.1@") ]);
           ("/depot/r.txt,v", oneBlock) ]
    [ FindMissingFiles.Entry "/depot" true;
      FindMissingFiles.Entry "/depot/A.bin,d" true;
      FindMissingFiles.Entry "/depot/A.bin,d/1.1.gz" false;
      FindMissingFiles.Entry "/depot/r.txt,v" false ].

(** The same journal, written with lower-case file names. *)
Definition lowerCaseJournal : FindMissingFiles.Disk :=
  diskOf [ ("journal", [ journalLine (binaryEntry "//a.bin" "@1.1@");
                         journalLine (entry "//r.txt" "@1.1@") ]);
           ("/depot/r.txt,v", oneBlock) ]
    [ FindMissingFiles.Entry "/depot" true;
      FindMissingFiles.Entry "/depot/A.bin,d" true;
      FindMissingFiles.Entry "/depot/A.bin,d/1.1.gz" false;
      FindMissingFiles.Entry "/depot/r.txt,v" false ].

End Samples.

(** ** Go's [strconv] formatting, as far as the CSV tool uses it *)

Module GoFormat.

(** The digit [d] of the table [0123456789abcdefghijklmnopqrstuvwxyz]. *)
Definition digitChar (d : Z) : ascii :=
  ascii_of_N (Z.to_N (if d <? 10 then 48 + d else 87 + d)).

(** The loop of [formatBits]: the digits of [u] in base [base], the most
    significant first.  Every turn divides [u] by [base], so 64 turns are
    enough for an unsigned 64-bit value. *)
Fixpoint formatBits (fuel : nat) (u base : Z) : string :=
  match fuel with
  | O => String (digitChar u) EmptyString
  | S fuel' =>
      if base <=? u
      then formatBits fuel' (u / base) base
           +:+ String (digitChar (u mod base)) EmptyString
      else String (digitChar u) EmptyString
  end.

(** [strconv.FormatUint(u, base)]. *)
Definition FormatUint (u base : Z) : string := formatBits 64 u base.

(** [strconv.FormatInt(i, base)]. *)
Definition FormatInt (i base : Z) : string :=
  if i <? 0 then String "-" (FormatUint (- i) base) else FormatUint i base.

End GoFormat.

Export GoFormat.

(** ** [p4_storage_to_csv]: what is handed to the CSV writer *)

Module CsvOutput.

Import StorageToCsv.

(** The first record written. *)
Definition header : list string :=
  [ "LibrarianFile"; "LibrarianRevision"; "FileType"; "ServerFileType";
    "ServerFileTypeModifier"; "RevisionsNumber"; "ClientFileType";
    "ServerFileModifier"; "ReferenceCount"; "MD5OfLibrarianFile"; "FileSize";
    "FileSizeOnServer"; "DigestOfCompressedFile"; "LastUpdateDate" ]%string.

(** The record written for one row: the file type, its five sub-fields and
    the reference count in base 16, the sizes and the date in base 10. *)
Definition formatRow (row : Row) : list string :=
  [ filename row;
    revision row;
    FormatUint (fileType row) 16;
    FormatInt (serverFileType (decoded row)) 16;
    FormatInt (serverFileTypeModifier (decoded row)) 16;
    FormatInt (revisionsNumber (decoded row)) 16;
    FormatInt (clientFileType (decoded row)) 16;
    FormatInt (clientFileTypeModifier (decoded row)) 16;
    FormatInt (refCount row) 16;
    digest row;
    FormatInt (size row) 10;
    FormatInt (serverSize row) 10;
    compCksum row;
    FormatInt (date row) 10 ].

(** The row the loop body hands to the writer for a line, if any. *)
Definition acceptedRow (line : string) : option Row :=
  match processLine line with
  | Ret (Some row) => Some row
  | _ => None
  end.

End CsvOutput.

(** ** The index, for stating its contents *)

Module IndexFormat.

Import FindMissingFiles.

(** The key under which a path is stored and looked up. *)
Definition keyOf (ToLower : string -> string) (caseSensitive : bool)
    (value : string) : string :=
  if caseSensitive then value else ToLower value.

(** The paths one event of the walk stands for: a plain file stands for its
    normalized path, an RCS container for one path per revision line that
    precedes the three sentinel lines, a directory for nothing. *)
Definition entryPaths (disk : Disk) (depotPath : string) (ev : walkEvent)
  : list string :=
  match ev with
  | Entry osPathname false =>
      let normalizedPath := normalize depotPath osPathname in
      if HasSuffix normalizedPath ",v"
      then match openLines disk osPathname with
           | Some lines =>
               map (fun revision => normalizedPath +:+ "/" +:+ revision)
                 (RcsFormat.revisionsOf EmptyString lines)
           | None => []
           end
      else [normalizedPath]
  | _ => []
  end.

(** The keys of a list of paths. *)
Definition keysOf (ToLower : string -> string) (caseSensitive : bool)
    (paths : list string) : gset string :=
  list_to_set (map (keyOf ToLower caseSensitive) paths).

(** Counts of two parts of a journal, added. *)
Definition addCounters (a b : Counters) : Counters :=
  mkCounters (fileCount a + fileCount b) (missingCount a + missingCount b).

End IndexFormat.

(** ** Text files, for stating the properties *)

Module TextFormat.

(** A file made of the given lines, each ended by a newline. *)
Fixpoint unlines (lines : list string) : string :=
  match lines with
  | [] => EmptyString
  | line :: rest => line +:+ String "010" (unlines rest)
  end.

Fixpoint countByte (c : ascii) (s : string) : nat :=
  match s with
  | EmptyString => 0
  | String a rest => (if Ascii.eqb a c then 1 else 0) + countByte c rest
  end.

(** The lines of a text file: what stands between its newlines, a
    carriage return before the newline left out; what follows the last
    newline is a line unless it is empty. *)
Fixpoint textLines (pieces : list string) : list string :=
  match pieces with
  | [] => []
  | [final] => if 0 <? slen final then [dropCR final] else []
  | piece :: rest => dropCR piece :: textLines rest
  end.

Definition linesOf (content : string) : list string :=
  textLines (Split content "010").

(** Every line of the file, the end-of-line carriage return included, is
    shorter than [MaxScanTokenSize] bytes. *)
Definition withinLimit (content : string) : Prop :=
  Forall (fun piece => slen piece < MaxScanTokenSize) (Split content "010").

(** A line that holds no newline, does not end with a carriage return and
    is shorter than [MaxScanTokenSize] bytes. *)
Definition plainLine (line : string) : Prop :=
  countByte "010" line = 0%nat
  /\ dropCR line = line
  /\ slen line < MaxScanTokenSize.

(** [n] times the byte [c]. *)
Fixpoint replicateByte (n : nat) (c : ascii) : string :=
  match n with
  | O => EmptyString
  | S n' => String c (replicateByte n' c)
  end.

End TextFormat.

(** ** The files on disk and what the programs see of them *)

Module OnDisk.

Import FindMissingFiles.

(** The content of every file that can be opened, and what a walk from a
    given root meets. *)
Record Files : Type := mkFiles {
  content : string -> option string;
  walk : string -> list walkEvent
}.

(** What [os.OpenFile] followed by [bufio.NewScanner] gives for a path. *)
Definition scan (fs : Files) (path : string) : option (list string) :=
  match content fs path with
  | Some bytes => Some (scannerLines bytes)
  | None => None
  end.

(** The disk as [p4_find_missing_files] sees it. *)
Definition view (fs : Files) : Disk := mkDisk (scan fs) (walk fs).

(** [processDbStorageEntries(journalPath)] of [p4_storage_to_csv]. *)
Definition exportJournal (fs : Files) (journalPath : string)
  : go (option (list StorageToCsv.Row * Z)) :=
  StorageToCsv.processDbStorageEntries (scan fs journalPath).

Fixpoint lookupContent (files : list (string * string)) (path : string)
  : option string :=
  match files with
  | [] => None
  | (p, bytes) :: rest =>
      if String.eqb p path then Some bytes else lookupContent rest path
  end.

(** The files listed, each with its content, on a disk where every walk
    meets the listed events. *)
Definition filesOf (files : list (string * string)) (events : list walkEvent)
  : Files :=
  mkFiles (lookupContent files) (fun _ => events).

End OnDisk.

(** ** Sample files for the closed examples *)

Module FileSamples.

Import JournalFormat TextFormat.

(** The one-block container of [Samples], as a file. *)
Definition oneBlockFile : string := unlines Samples.oneBlock.

(** A depot that holds the container [/depot/Dir/A.txt,v]. *)
Definition mixedCaseDepot : OnDisk.Files :=
  OnDisk.filesOf [("/depot/Dir/A.txt,v", oneBlockFile)]
    [ FindMissingFiles.Entry "/depot" true;
      FindMissingFiles.Entry "/depot/Dir" true;
      FindMissingFiles.Entry "/depot/Dir/A.txt,v" false ].

(** The healthy depot of [Samples], as files. *)
Definition healthyDepot : OnDisk.Files :=
  OnDisk.filesOf
    [ ("journal", unlines [ journalLine (Samples.binaryEntry "//A.bin" "@1.1@");
                            journalLine (Samples.entry "//r.txt" "@1.1@") ]);
      ("/depot/r.txt,v", oneBlockFile) ]
    [ FindMissingFiles.Entry "/depot" true;
      FindMissingFiles.Entry "/depot/A.bin,d" true;
      FindMissingFiles.Entry "/depot/A.bin,d/1.1.gz" false;
      FindMissingFiles.Entry "/depot/r.txt,v" false ].

(** A journal of three lines: an entry, a line of another table, an entry
    whose size is not a number. *)
Definition mixedJournal : list string :=
  [ journalLine (Samples.entry "//depot/a b.txt" "@1.1@");
    "@pv@ 0 @db.counters@ @change@ 5 "%string;
    journalLine (mkFields "3" "//depot/c.txt" "@1.1@" "0" "1" "ABC" "x"
                   "100" "XYZ" "1610000000") ].

(** The [db.storage] lines of [mixedJournal]. *)
Definition storageLines : list string :=
  [ journalLine (Samples.entry "//depot/a b.txt" "@1.1@");
    journalLine (mkFields "3" "//depot/c.txt" "@1.1@" "0" "1" "ABC" "x"
                   "100" "XYZ" "1610000000") ].

(** A disk with the journal of three lines and the journal of its
    [db.storage] lines. *)
Definition twoJournals : OnDisk.Files :=
  OnDisk.filesOf [ ("journal", unlines mixedJournal);
                   ("journal.storage", unlines storageLines) ] [].

(** A disk with a journal of two records and its two halves. *)
Definition splitJournal : OnDisk.Files :=
  OnDisk.filesOf
    [ ("journal.1", unlines [journalLine (Samples.entry "//r.txt" "@1.1@")]);
      ("journal.2", unlines [journalLine (Samples.entry "//r.txt" "@1.2@")]);
      ("journal", unlines [ journalLine (Samples.entry "//r.txt" "@1.1@");
                            journalLine (Samples.entry "//r.txt" "@1.2@") ]) ]
    [].

(** A line of 64 KiB. *)
Definition longLine : string := replicateByte (Z.to_nat MaxScanTokenSize) "x".

(** A journal of two records with a line of 64 KiB between them, and the
    same journal cut before that line. *)
Definition longLineJournal : OnDisk.Files :=
  OnDisk.filesOf
    [ ("journal",
       unlines [journalLine (Samples.entry "//r.txt" "@1.1@")]
       +:+ longLine
       +:+ String "010" (unlines [journalLine (Samples.entry "//r.txt" "@1.2@")]));
      ("journal.cut", unlines [journalLine (Samples.entry "//r.txt" "@1.1@")]) ]
    [].

End FileSamples.

Import JournalFormat.

(** ** The library functions on small inputs *)

Example Split_example :
  Split "@pv@ 3  x " " " = ["@pv@"; "3"; EmptyString; "x"; EmptyString]%string.
Proof. reflexivity. Qed.

Example Trim_example : Trim "@@//a@b@" "@" = "//a@b"%string.
Proof. reflexivity. Qed.

Example Atoi_example :
  Atoi "-12" = Some (-12) /\ Atoi "+" = None /\ ParseUint "-12" = None
  /\ Atoi "9223372036854775808" = None
  /\ ParseUint "9223372036854775808" = Some 9223372036854775808.
Proof. repeat split; reflexivity. Qed.

(** A whole run on a depot that holds every file of its journal: the
    compressed revision is found through the [.gz] look-up, the RCS
    revision through the scan of its container. *)
Example main_healthy_depot :
  map_to_list
    (FindMissingFiles.listVersionedFiles Samples.lowerASCII Samples.unixJoin "/"
       Samples.healthyDepot "/depot" EmptyString true).1
  = [("//A.bin,d/1.1.gz"%string, 1); ("//r.txt,v/1.1"%string, 1)]
  /\ FindMissingFiles.main Samples.lowerASCII Samples.unixJoin "/"
       Samples.healthyDepot ["journal"; "/depot"]%string true EmptyString
     = Ret (FindMissingFiles.mkReport 0 (Some (FindMissingFiles.mkCounters 2 0))).
Proof. split; vm_compute; reflexivity. Qed.

(** Case sensitivity: a journal that names [//a.bin] for the file stored as
    [A.bin] misses it with the flag on and finds it with the flag off. *)
Example main_case_sensitivity :
  FindMissingFiles.main Samples.lowerASCII Samples.unixJoin "/"
    Samples.lowerCaseJournal ["journal"; "/depot"]%string true EmptyString
  = Ret (FindMissingFiles.mkReport 0 (Some (FindMissingFiles.mkCounters 2 1)))
  /\ FindMissingFiles.main Samples.lowerASCII Samples.unixJoin "/"
       Samples.lowerCaseJournal ["journal"; "/depot"]%string false EmptyString
     = Ret (FindMissingFiles.mkReport 0 (Some (FindMissingFiles.mkCounters 2 0))).
Proof. split; vm_compute; reflexivity. Qed.

(** ** Facts about indexing and slicing *)

Lemma len_cons {A} (x : A) l : len (x :: l) = 1 + len l.
Proof. unfold len. simpl length. lia. Qed.

Lemma len_app {A} (l1 l2 : list A) : len (l1 ++ l2) = len l1 + len l2.
Proof. unfold len. rewrite length_app. lia. Qed.

Lemma len_nonneg {A} (l : list A) : 0 <= len l.
Proof. unfold len. lia. Qed.

Lemma index_nth {A} (l : list A) (i : Z) (n : nat) x :
  i = Z.of_nat n -> nth_error l n = Some x -> index l i = Ret x.
Proof.
  intros -> Hn. unfold index.
  assert (n < length l)%nat by (apply nth_error_Some; congruence).
  rewrite Nat2Z.id, Hn.
  replace (0 <=? Z.of_nat n) with true by (symmetry; apply Z.leb_le; lia).
  replace (Z.of_nat n <? len l) with true by (symmetry; apply Z.ltb_lt; unfold len; lia).
  reflexivity.
Qed.

Lemma index_layout {A} (a b c : A) P T (k : nat) i x :
  i = 3 + len P + Z.of_nat k -> nth_error T k = Some x ->
  index (a :: b :: c :: P ++ T) i = Ret x.
Proof.
  intros Hi Hk. apply index_nth with (n := (3 + length P + k)%nat).
  - unfold len in Hi. lia.
  - change (nth_error (P ++ T) (length P + k) = Some x).
    rewrite nth_error_app2 by lia.
    replace (length P + k - length P)%nat with k by lia. exact Hk.
Qed.

Lemma slice_layout {A} (a b c : A) P T hi :
  hi = 3 + len P ->
  slice (a :: b :: c :: P ++ T) 3 hi = Ret P.
Proof.
  intros ->. unfold slice.
  pose proof (len_nonneg P). pose proof (len_nonneg T).
  rewrite !len_cons, len_app.
  replace (0 <=? 3) with true by reflexivity.
  replace (3 <=? 3 + len P) with true by (symmetry; apply Z.leb_le; lia).
  replace (3 + len P <=? 1 + (1 + (1 + (len P + len T)))) with true
    by (symmetry; apply Z.leb_le; lia).
  cbn [andb]. f_equal.
  change (Z.to_nat 3) with 3%nat. cbn [skipn].
  replace (Z.to_nat (3 + len P - 3)) with (length P) by (unfold len; lia).
  rewrite drop_0. apply take_app_length.
Qed.

Lemma index_0 {A} (a : A) l : index (a :: l) 0 = Ret a.
Proof. apply index_nth with (n := 0%nat); reflexivity. Qed.

Lemma index_2 {A} (a b c : A) l : index (a :: b :: c :: l) 2 = Ret c.
Proof. apply index_nth with (n := 2%nat); reflexivity. Qed.

Ltac layout_index_at i n :=
  erewrite (index_layout _ _ _ _ _ n i); [ | lia | reflexivity ].

Ltac layout_index :=
  match goal with
  | |- context [index (_ :: _ :: _ :: _ ++ _) ?i] =>
      first [ layout_index_at i 0%nat | layout_index_at i 1%nat
            | layout_index_at i 2%nat | layout_index_at i 3%nat
            | layout_index_at i 4%nat | layout_index_at i 5%nat
            | layout_index_at i 6%nat | layout_index_at i 7%nat ]
  end.

Lemma go_bind_Ret {A B} (a : A) (k : A -> go B) : (Ret a ≫= k) = k a.
Proof. reflexivity. Qed.

Lemma layout_len {A} (a b c : A) P r0 r1 r2 r3 r4 r5 r6 r7 r8 :
  len (a :: b :: c :: P ++ [r0; r1; r2; r3; r4; r5; r6; r7; r8]) = 12 + len P.
Proof. rewrite !len_cons, len_app. unfold len at 2. simpl length. lia. Qed.

(** ** Facts about the [strings] functions *)

Section StringFacts.

Lemma Split_nonempty s sep : Split s sep <> [].
Proof.
  destruct s as [|c s]; simpl; [discriminate|].
  destruct (Ascii.eqb c sep); [discriminate|].
  destruct (Split s sep); discriminate.
Qed.

Lemma Split_app s1 s2 sep :
  Split (s1 +:+ String sep s2) sep = Split s1 sep ++ Split s2 sep.
Proof.
  induction s1 as [|c s1 IH]; simpl.
  - rewrite Ascii.eqb_refl. reflexivity.
  - destruct (Ascii.eqb c sep).
    + rewrite IH. reflexivity.
    + rewrite IH. pose proof (Split_nonempty s1 sep).
      destruct (Split s1 sep); [congruence | reflexivity].
Qed.

Lemma Join_cons e e' rest sep :
  Join (e :: e' :: rest) sep = e +:+ sep +:+ Join (e' :: rest) sep.
Proof. reflexivity. Qed.

Lemma Join_String c tok toks sep :
  Join (String c tok :: toks) sep = String c (Join (tok :: toks) sep).
Proof. destruct toks; reflexivity. Qed.

Lemma Join_Split s : Join (Split s " ") " " = s.
Proof.
  induction s as [|c s IH]; [reflexivity|]. simpl Split.
  pose proof (Split_nonempty s " ") as Hne.
  destruct (Ascii.eqb_spec c " ") as [->|Hc].
  - destruct (Split s " ") as [|tok toks]; [congruence|].
    rewrite Join_cons, IH. reflexivity.
  - destruct (Split s " ") as [|tok toks]; [congruence|].
    rewrite Join_String, IH. reflexivity.
Qed.

Lemma Split_no_space s : countSpaces s = 0%nat -> Split s " " = [s].
Proof.
  induction s as [|c s IH]; [reflexivity|]. simpl.
  destruct (Ascii.eqb c " "); [discriminate|].
  intros H. rewrite IH by exact H. reflexivity.
Qed.

Lemma Split_length s : length (Split s " ") = S (countSpaces s).
Proof.
  induction s as [|c s IH]; [reflexivity|]. simpl.
  destruct (Ascii.eqb c " "); simpl; [congruence|].
  pose proof (Split_nonempty s " ").
  destruct (Split s " "); [congruence | exact IH].
Qed.

Lemma countSpaces_app s1 s2 :
  countSpaces (s1 +:+ s2) = (countSpaces s1 + countSpaces s2)%nat.
Proof. induction s1 as [|c s1 IH]; simpl; [reflexivity | rewrite IH; lia]. Qed.

Lemma Split_Join toks :
  toks <> [] -> Split (Join toks " ") " " = flat_map (fun t => Split t " ") toks.
Proof.
  induction toks as [|e rest IH]; [congruence|]. intros _.
  destruct rest as [|e' rest].
  - simpl. symmetry. apply app_nil_r.
  - rewrite Join_cons. change (" " +:+ Join (e' :: rest) " ")
      with (String " " (Join (e' :: rest) " ")).
    rewrite Split_app, IH by discriminate. reflexivity.
Qed.

Lemma TrimRight_snoc s c : TrimRight (s +:+ String c EmptyString) c = TrimRight s c.
Proof.
  induction s as [|a s IH]; simpl.
  - rewrite Ascii.eqb_refl. reflexivity.
  - rewrite IH. reflexivity.
Qed.

Lemma Trim_snoc s c : Trim (s +:+ String c EmptyString) c = Trim s c.
Proof.
  unfold Trim. induction s as [|a s IH]; simpl.
  - rewrite Ascii.eqb_refl. reflexivity.
  - destruct (Ascii.eqb a c); [exact IH|].
    apply (TrimRight_snoc (String a s)).
Qed.

(** Trimming sees through the two delimiters put around a file name. *)
Lemma Trim_delimited s c :
  Trim (String c EmptyString +:+ s +:+ String c EmptyString) c = Trim s c.
Proof.
  rewrite <- (Trim_snoc s c). unfold Trim. simpl.
  rewrite Ascii.eqb_refl. reflexivity.
Qed.

End StringFacts.

(** ** The two line scanners on a line of known layout *)

Section Scanners.

Lemma Fmf_scanLine_layout filter line b P rev ty rc dg sz ssz ck dt last :
  Split line " " =
    "@pv@" :: b :: "@db.storage@" :: P ++ [rev; ty; rc; dg; sz; ssz; ck; dt; last] ->
  FindMissingFiles.scanLine filter line =
    let filename := Trim (Join P " ") "@" in
    if (0 <? slen filter) && negb (HasPrefix filename filter) then Ret None
    else match Atoi ty with
         | None => Ret None
         | Some t => Ret (Some (FindMissingFiles.mkScanned filename rev t))
         end.
Proof.
  intros Hs. unfold FindMissingFiles.scanLine. rewrite Hs.
  pose proof (len_nonneg P) as HP.
  rewrite layout_len.
  replace (12 + len P <? 4) with false by (symmetry; apply Z.ltb_ge; lia).
  rewrite index_0, go_bind_Ret, index_2, go_bind_Ret.
  cbn [String.eqb Ascii.eqb Bool.eqb negb].
  unfold FindMissingFiles.DbStorageJournalFieldCount.
  rewrite slice_layout by lia. rewrite go_bind_Ret.
  cbv zeta.
  destruct (_ && _); [reflexivity|].
  repeat layout_index. cbn [mbind go_bind bind].
  destruct (Atoi ty); reflexivity.
Qed.

Lemma Csv_processLine_layout line b P rev ty rc dg sz ssz ck dt last :
  Split line " " =
    "@pv@" :: b :: "@db.storage@" :: P ++ [rev; ty; rc; dg; sz; ssz; ck; dt; last] ->
  StorageToCsv.processLine line =
    match ParseUint ty, Atoi rc, ParseInt sz, ParseInt ssz, Atoi dt with
    | Some t, Some c, Some z, Some zz, Some d =>
        Ret (Some (StorageToCsv.mkRow (Trim (Join P " ") "@") rev t
                     (StorageToCsv.decodeFileType t) c dg z zz ck d))
    | _, _, _, _, _ => Ret None
    end.
Proof.
  intros Hs. unfold StorageToCsv.processLine. rewrite Hs.
  pose proof (len_nonneg P) as HP.
  rewrite layout_len.
  replace (12 + len P <? 4) with false by (symmetry; apply Z.ltb_ge; lia).
  rewrite index_0, go_bind_Ret, index_2, go_bind_Ret.
  cbn [String.eqb Ascii.eqb Bool.eqb negb].
  unfold StorageToCsv.DbStorageJournalFieldCount, StorageToCsv.DbStorageFieldFileMarker,
    StorageToCsv.DbStorageFieldRev, StorageToCsv.DbStorageFieldType,
    StorageToCsv.DbStorageFieldRefCount, StorageToCsv.DbStorageFieldDigest,
    StorageToCsv.DbStorageFieldSize, StorageToCsv.DbStorageFieldServerSize,
    StorageToCsv.DbStorageFieldCompCksum, StorageToCsv.DbStorageFieldDate.
  rewrite slice_layout by lia. rewrite go_bind_Ret.
  cbv zeta.
  repeat layout_index. cbn [mbind go_bind bind].
  destruct (ParseUint ty); [|reflexivity].
  repeat layout_index. cbn [mbind go_bind bind].
  destruct (Atoi rc); [|reflexivity].
  repeat layout_index. cbn [mbind go_bind bind].
  destruct (ParseInt sz); [|reflexivity].
  repeat layout_index. cbn [mbind go_bind bind].
  destruct (ParseInt ssz); [|reflexivity].
  repeat layout_index. cbn [mbind go_bind bind].
  destruct (Atoi dt); reflexivity.
Qed.

(** Any list of at least twelve tokens has the layout above, whatever its
    tokens are. *)
Lemma parts_layout (parts : list string) :
  12 <= len parts ->
  exists a b c P r0 r1 r2 r3 r4 r5 r6 r7 r8,
    parts = a :: b :: c :: P ++ [r0; r1; r2; r3; r4; r5; r6; r7; r8].
Proof.
  unfold len. intros H.
  destruct parts as [|a [|b [|c rest]]]; simpl in H; try lia.
  exists a, b, c, (take (length rest - 9) rest).
  assert (Hd : length (drop (length rest - 9) rest) = 9%nat)
    by (rewrite length_drop; lia).
  destruct (drop (length rest - 9) rest)
    as [|r0 [|r1 [|r2 [|r3 [|r4 [|r5 [|r6 [|r7 [|r8 [|r9 t]]]]]]]]]] eqn:E;
    simpl in Hd; try lia.
  exists r0, r1, r2, r3, r4, r5, r6, r7, r8.
  rewrite <- E, take_drop. reflexivity.
Qed.

Lemma parts_head (parts : list string) :
  4 <= len parts -> exists a b c d rest, parts = a :: b :: c :: d :: rest.
Proof.
  unfold len. intros H.
  destruct parts as [|a [|b [|c [|d rest]]]]; simpl in H; try lia.
  eauto 6.
Qed.

(** A line the pre-filters reject is skipped by both scanners. *)
Lemma prefilter_reject filter line :
  passesPreFilters line = false ->
  FindMissingFiles.scanLine filter line = Ret None
  /\ StorageToCsv.processLine line = Ret None.
Proof.
  unfold passesPreFilters, FindMissingFiles.scanLine, StorageToCsv.processLine.
  cbv zeta. intros H.
  destruct (Z.ltb_spec (len (Split line " ")) 4) as [|Hlen]; [split; reflexivity|].
  destruct (parts_head _ Hlen) as (a & b & c & d & rest & E).
  rewrite E in *. rewrite index_0, index_2, !go_bind_Ret.
  replace (4 <=? len (a :: b :: c :: d :: rest)) with true in H
    by (symmetry; apply Z.leb_le; exact Hlen).
  cbn [nth andb] in H.
  destruct (String.eqb a "@pv@"); [|split; reflexivity].
  cbn [andb negb] in *. rewrite H. split; reflexivity.
Qed.

(** A line that passes the pre-filters with fewer than twelve tokens makes
    the slice expression for the file name panic, in both scanners. *)
Lemma short_line_panics filter line :
  passesPreFilters line = true ->
  len (Split line " ") < 12 ->
  FindMissingFiles.scanLine filter line = Panic
  /\ StorageToCsv.processLine line = Panic.
Proof.
  unfold passesPreFilters, FindMissingFiles.scanLine, StorageToCsv.processLine.
  cbv zeta. intros H Hshort.
  apply andb_prop in H as [H H2]. apply andb_prop in H as [Hlen H0].
  apply Z.leb_le in Hlen.
  replace (len (Split line " ") <? 4) with false by (symmetry; apply Z.ltb_ge; lia).
  destruct (parts_head _ Hlen) as (a & b & c & d & rest & E).
  rewrite E in *. rewrite index_0, index_2, !go_bind_Ret.
  cbn [nth] in H0, H2. rewrite H0, H2. cbn [negb].
  unfold slice, FindMissingFiles.DbStorageJournalFieldCount,
    StorageToCsv.DbStorageJournalFieldCount, StorageToCsv.DbStorageFieldFileMarker.
  replace (3 <=? 3 + (len (a :: b :: c :: d :: rest) - 12)) with false
    by (symmetry; apply Z.leb_gt; lia).
  split; reflexivity.
Qed.

(** A line that passes the pre-filters with at least twelve tokens has the
    layout the scanners assume. *)
Lemma long_line_layout line :
  passesPreFilters line = true ->
  12 <= len (Split line " ") ->
  exists b P rev ty rc dg sz ssz ck dt last,
    Split line " " =
      "@pv@" :: b :: "@db.storage@" :: P ++ [rev; ty; rc; dg; sz; ssz; ck; dt; last].
Proof.
  unfold passesPreFilters. cbv zeta. intros H Hlen.
  apply andb_prop in H as [H H2]. apply andb_prop in H as [_ H0].
  destruct (parts_layout _ Hlen)
    as (a & b & c & P & r0 & r1 & r2 & r3 & r4 & r5 & r6 & r7 & r8 & E).
  rewrite E in *. cbn [nth] in H0, H2.
  apply String.eqb_eq in H0, H2. subst a c. eauto 12.
Qed.

End Scanners.

(** ** [strconv]: the signed and the unsigned parser on the same token *)

Section Parsers.

Lemma digit_not_sign c d :
  digit c = Some d -> Ascii.eqb c "+" = false /\ Ascii.eqb c "-" = false.
Proof.
  intros H. split.
  - destruct (Ascii.eqb_spec c "+") as [->|]; [discriminate | reflexivity].
  - destruct (Ascii.eqb_spec c "-") as [->|]; [discriminate | reflexivity].
Qed.

Lemma ParseUint_head s n :
  ParseUint s = Some n -> exists c rest d, s = String c rest /\ digit c = Some d.
Proof.
  destruct s as [|c rest]; [discriminate|]. unfold ParseUint. simpl.
  destruct (digit c) as [d|] eqn:Hd; [|discriminate].
  intros _. exists c, rest, d. split; [reflexivity | exact Hd].
Qed.

(** On a token the unsigned parser accepts, [Atoi] accepts exactly when the
    value fits a signed 64-bit integer, and then returns the same value. *)
Lemma Atoi_of_ParseUint s n :
  ParseUint s = Some n -> Atoi s = if n <? 2 ^ 63 then Some n else None.
Proof.
  intros H. destruct (ParseUint_head s n H) as (c & rest & d & -> & Hd).
  destruct (digit_not_sign c d Hd) as [Hp Hm].
  unfold Atoi, ParseInt. rewrite Hp, Hm. cbn [orb]. rewrite H. reflexivity.
Qed.

End Parsers.

(** ** File-name reassembly (C1) *)

Section Reassembly.

Lemma journalLine_parts r :
  spaceFree r ->
  Split (journalLine r) " " =
    "@pv@" :: fVersion r :: "@db.storage@"
    :: Split ("@" +:+ fFile r +:+ "@") " "
       ++ [fRev r; fType r; fRefCount r; fDigest r; fSize r; fServerSize r;
           fCompCksum r; fDate r; EmptyString].
Proof.
  unfold spaceFree. intros H.
  repeat match goal with
         | H : Forall _ (_ :: _) |- _ => apply Forall_cons_1 in H as [? H]
         end.
  unfold journalLine. rewrite Split_Join by discriminate.
  unfold tokens. cbn [app flat_map].
  repeat match goal with
         | H : countSpaces ?s = 0%nat |- _ =>
             rewrite (Split_no_space s H); clear H
         end.
  reflexivity.
Qed.

Lemma file_token_pieces f :
  len (Split ("@" +:+ f +:+ "@") " ") = Z.of_nat (countSpaces f) + 1.
Proof.
  unfold len. rewrite Split_length, !countSpaces_app. simpl. lia.
Qed.

End Reassembly.

(** C1 (as amended).  On a journal line in which every field, the last one
    included, is followed by one space, and whose file name holds [N] spaces
    (any [N], so 0, 1 and 3 too) and neither begins nor ends with [@]: the
    line splits into [13 + N] tokens, [filenameExtraPartCount] is
    [tokenCount - 12 = N + 1], the number of pieces of the file name, the
    slice [parts[3 : 3 + extra]] joined with single spaces and trimmed of
    [@] is the original file name, and both scanners yield that file name
    whenever the numeric fields they read parse. *)
Theorem filename_reassembly (r : Fields) (N : nat) :
  spaceFree r ->
  countSpaces (fFile r) = N ->
  Trim (fFile r) "@" = fFile r ->
  let parts := Split (journalLine r) " " in
  let extra := len parts - 12 in
  len parts = 13 + Z.of_nat N
  /\ extra = Z.of_nat N + 1
  /\ (exists fparts,
        slice parts 3 (3 + extra) = Ret fparts
        /\ Trim (Join fparts " ") "@" = fFile r)
  /\ FindMissingFiles.scanLine EmptyString (journalLine r) =
       match Atoi (fType r) with
       | Some t => Ret (Some (FindMissingFiles.mkScanned (fFile r) (fRev r) t))
       | None => Ret None
       end
  /\ StorageToCsv.processLine (journalLine r) =
       match ParseUint (fType r), Atoi (fRefCount r), ParseInt (fSize r),
             ParseInt (fServerSize r), Atoi (fDate r) with
       | Some t, Some c, Some z, Some zz, Some d =>
           Ret (Some (StorageToCsv.mkRow (fFile r) (fRev r) t
                        (StorageToCsv.decodeFileType t) c (fDigest r) z zz
                        (fCompCksum r) d))
       | _, _, _, _, _ => Ret None
       end.
Proof.
  intros Hsf HN Htrim. cbv zeta.
  pose proof (journalLine_parts r Hsf) as Hparts.
  pose proof (file_token_pieces (fFile r)) as Hpieces. rewrite HN in Hpieces.
  assert (Hname : Trim (Join (Split ("@" +:+ fFile r +:+ "@") " ") " ") "@" = fFile r).
  { rewrite Join_Split. rewrite (Trim_delimited (fFile r) "@"). exact Htrim. }
  assert (Hlen : len (Split (journalLine r) " ") = 13 + Z.of_nat N).
  { rewrite Hparts, layout_len. lia. }
  split; [exact Hlen|]. split; [lia|]. split; [|split].
  - exists (Split ("@" +:+ fFile r +:+ "@") " "). split; [|exact Hname].
    rewrite Hlen. rewrite Hparts. apply slice_layout. lia.
  - rewrite (Fmf_scanLine_layout _ _ _ _ _ _ _ _ _ _ _ _ _ Hparts).
    cbv zeta. rewrite Hname. reflexivity.
  - rewrite (Csv_processLine_layout _ _ _ _ _ _ _ _ _ _ _ _ Hparts).
    rewrite Hname. reflexivity.
Qed.

(** A file name with three spaces. *)
Lemma filename_reassembly_witness :
  FindMissingFiles.scanLine EmptyString
    (journalLine (Samples.entry "//depot/a b c d.txt" "@1.1@")) =
  Ret (Some (FindMissingFiles.mkScanned "//depot/a b c d.txt" "@1.1@" 0)).
Proof.
  refine (proj1 (proj2 (proj2 (proj2
    (filename_reassembly (Samples.entry "//depot/a b c d.txt" "@1.1@") 3 _ _ _))))).
  - unfold spaceFree. repeat constructor.
  - reflexivity.
  - reflexivity.
Defined.

(** C1 (as stated) fails on the line written without a separator after its
    last field, twelve tokens plus one per space of the file name: for a
    file name with one space, [extra] is 1, the slice [parts[3 : 4]] holds
    the first piece only, and neither scanner yields a record with the
    original file name. *)
Lemma filename_reassembly_counterexample :
  let r := Samples.entry "//depot/a file.txt" "#1" in
  let parts := Split (bareLine r) " " in
  spaceFree r
  /\ countSpaces (fFile r) = 1%nat
  /\ len parts - 12 = 1
  /\ slice parts 3 (3 + (len parts - 12)) = Ret ["@//depot/a"%string]
  /\ Trim (Join ["@//depot/a"%string] " ") "@" <> fFile r
  /\ ~ (exists rec, FindMissingFiles.scanLine EmptyString (bareLine r) = Ret (Some rec)
                    /\ FindMissingFiles.filename rec = fFile r)
  /\ ~ (exists row, StorageToCsv.processLine (bareLine r) = Ret (Some row)
                    /\ StorageToCsv.filename row = fFile r).
Proof.
  cbv zeta. split; [unfold spaceFree; repeat constructor|].
  split; [reflexivity|]. split; [reflexivity|]. split; [reflexivity|].
  split; [discriminate|].
  split; intros (x & Hx & _); vm_compute in Hx; discriminate.
Qed.

(** ** Lines with too few tokens (C2) *)

(** C2.  A line that passes the three pre-filters and stops after the file
    name (four tokens, so [filenameExtraPartCount] is [-8]) is not skipped:
    the slice expression [parts[3 : 3 - 8]] panics, in both tools, and the
    panic ends the whole run. *)
Theorem truncated_line_panics :
  passesPreFilters Samples.truncatedLine = true
  /\ len (Split Samples.truncatedLine " ") - 12 = -8
  /\ FindMissingFiles.scanLine EmptyString Samples.truncatedLine = Panic
  /\ StorageToCsv.processLine Samples.truncatedLine = Panic
  /\ StorageToCsv.processDbStorageEntries
       (Some [journalLine (Samples.entry "//depot/a.txt" "@1.1@");
              Samples.truncatedLine;
              journalLine (Samples.entry "//depot/b.txt" "@1.1@")]) = Panic
  /\ FindMissingFiles.processDbStorageEntries Samples.lowerASCII
       (Samples.diskOf [("journal",
          [journalLine (Samples.entry "//depot/a.txt" "@1.1@");
           Samples.truncatedLine;
           journalLine (Samples.entry "//depot/b.txt" "@1.1@")])] [])
       "journal" ∅ EmptyString true = Panic.
Proof. repeat split; vm_compute; reflexivity. Qed.

(** ** The two scanners compared (C10) *)

(** The loop body of the CSV tool and the scanning half of the loop body
    of the verification tool panic on the same lines. *)
Lemma scanners_panic_alike filter line :
  StorageToCsv.processLine line = Panic
  <-> FindMissingFiles.scanLine filter line = Panic.
Proof.
  destruct (passesPreFilters line) eqn:Hpre.
  - destruct (Z.lt_ge_cases (len (Split line " ")) 12) as [Hlen|Hlen].
    + destruct (short_line_panics filter line Hpre Hlen) as [-> ->]. tauto.
    + destruct (long_line_layout line Hpre Hlen)
        as (b & P & rev & ty & rc & dg & sz & ssz & ck & dt & last & E).
      rewrite (Fmf_scanLine_layout filter _ _ _ _ _ _ _ _ _ _ _ _ E).
      rewrite (Csv_processLine_layout _ _ _ _ _ _ _ _ _ _ _ _ E). cbv zeta.
      split; intros H; exfalso.
      * destruct (ParseUint ty), (Atoi rc), (ParseInt sz), (ParseInt ssz), (Atoi dt);
          discriminate.
      * destruct (_ && _); [discriminate|]. destruct (Atoi ty); discriminate.
  - destruct (prefilter_reject filter line Hpre) as [-> ->].
    split; discriminate.
Qed.

(** C10 (as amended).  A line the CSV-export scanner accepts is accepted by
    the verification scanner with the same file name, revision token and
    file type, provided the file type is below [2^63] and the prefix filter
    is empty or a prefix of the file name; and whenever both accept a line,
    they extract the same three values. *)
Theorem scanners_agree (filter line : string) (row : StorageToCsv.Row) :
  StorageToCsv.processLine line = Ret (Some row) ->
  (forall r, FindMissingFiles.scanLine filter line = Ret (Some r) ->
             r = scannedOfRow row)
  /\ (slen filter = 0 \/ HasPrefix (StorageToCsv.filename row) filter = true ->
      StorageToCsv.fileType row < 2 ^ 63 ->
      FindMissingFiles.scanLine filter line = Ret (Some (scannedOfRow row))).
Proof.
  intros Hcsv.
  destruct (passesPreFilters line) eqn:Hpre;
    [|destruct (prefilter_reject filter line Hpre) as [_ H];
      rewrite H in Hcsv; discriminate].
  destruct (Z.lt_ge_cases (len (Split line " ")) 12) as [Hlen|Hlen];
    [destruct (short_line_panics filter line Hpre Hlen) as [_ H];
     rewrite H in Hcsv; discriminate|].
  destruct (long_line_layout line Hpre Hlen)
    as (b & P & rev & ty & rc & dg & sz & ssz & ck & dt & last & E).
  rewrite (Fmf_scanLine_layout filter _ _ _ _ _ _ _ _ _ _ _ _ E).
  rewrite (Csv_processLine_layout _ _ _ _ _ _ _ _ _ _ _ _ E) in Hcsv.
  cbv zeta.
  destruct (ParseUint ty) as [t|] eqn:Ht; [|discriminate].
  destruct (Atoi rc), (ParseInt sz), (ParseInt ssz), (Atoi dt); try discriminate.
  injection Hcsv as <-. unfold scannedOfRow. cbn [StorageToCsv.filename
    StorageToCsv.revision StorageToCsv.fileType].
  rewrite (Atoi_of_ParseUint ty t Ht).
  split.
  - intros r. destruct (_ && _); [discriminate|].
    destruct (t <? 2 ^ 63); [|discriminate]. intros H. injection H as <-. reflexivity.
  - intros Hf Hrange.
    replace (t <? 2 ^ 63) with true by (symmetry; apply Z.ltb_lt; exact Hrange).
    destruct Hf as [Hf|Hf].
    + rewrite Hf. reflexivity.
    + rewrite Hf. cbn [negb]. rewrite andb_false_r. reflexivity.
Qed.

(** A line both scanners accept, under a prefix filter. *)
Lemma scanners_agree_witness :
  FindMissingFiles.scanLine "//depot"
    (journalLine (Samples.entry "//depot/a file.txt" "@1.1@")) =
  Ret (Some (FindMissingFiles.mkScanned "//depot/a file.txt" "@1.1@" 0)).
Proof.
  refine (proj2 (scanners_agree "//depot"
    (journalLine (Samples.entry "//depot/a file.txt" "@1.1@"))
    (StorageToCsv.mkRow "//depot/a file.txt" "@1.1@" 0
       (StorageToCsv.mkDecoded 0 0 0 0 0) 1 "ABC123" 100 100 "XYZ" 1610000000)
    _) _ _).
  - vm_compute. reflexivity.
  - right. vm_compute. reflexivity.
  - vm_compute. reflexivity.
Defined.

(** C10 (as stated) fails: a line whose reference count is not a number is a
    record for the verification scanner, which never reads that field, and
    is skipped by the CSV-export scanner. *)
Lemma scanners_differ_counterexample :
  let line := journalLine (Samples.entryWithRefCount "//depot/a.txt" "@1.1@" "x") in
  FindMissingFiles.scanLine EmptyString line =
    Ret (Some (FindMissingFiles.mkScanned "//depot/a.txt" "@1.1@" 0))
  /\ StorageToCsv.processLine line = Ret None.
Proof. split; vm_compute; reflexivity. Qed.

(** ** The expected path and the look-up (C3, C9) *)

Section Verification.

Variable ToLower : string -> string.

Lemma slen_delimited a s z :
  slen (String a (s +:+ String z EmptyString)) = Z.of_nat (String.length s) + 2.
Proof.
  unfold slen. simpl. induction s as [|c s IH]; simpl in *; lia.
Qed.

Lemma substring_prefix s t : String.substring 0 (String.length s) (s +:+ t) = s.
Proof.
  induction s as [|c s IH]; simpl.
  - destruct t; reflexivity.
  - rewrite IH. reflexivity.
Qed.

(** Between two one-byte delimiters, the slice expression
    [revision[1 : len(revision)-1]] is what the delimiters enclose. *)
Lemma substr_delimited a s z :
  let token := String a (s +:+ String z EmptyString) in
  substr token 1 (slen token - 1) = Ret s.
Proof.
  cbv zeta. unfold substr. rewrite slen_delimited.
  replace (0 <=? 1) with true by reflexivity.
  replace (1 <=? Z.of_nat (String.length s) + 2 - 1) with true
    by (symmetry; apply Z.leb_le; lia).
  replace (Z.of_nat (String.length s) + 2 - 1 <=? Z.of_nat (String.length s) + 2)
    with true by (symmetry; apply Z.leb_le; lia).
  cbn [andb]. f_equal.
  replace (Z.to_nat (Z.of_nat (String.length s) + 2 - 1 - 1)) with (String.length s)
    by lia.
  change (Z.to_nat 1) with 1%nat. simpl. apply substring_prefix.
Qed.

Lemma string_snoc c s :
  exists s' z, String c s = s' +:+ String z EmptyString.
Proof.
  revert c. induction s as [|c' s IH]; intros c.
  - exists EmptyString, c. reflexivity.
  - destruct (IH c') as (s' & z & E). exists (String c s'), z.
    rewrite E. reflexivity.
Qed.

(** Every token of two bytes or more is some text between two bytes. *)
Lemma delimited_token s :
  2 <= slen s -> exists a rev z, s = String a (rev +:+ String z EmptyString).
Proof.
  unfold slen. destruct s as [|a [|c s]]; simpl; try lia. intros _.
  destruct (string_snoc c s) as (rev & z & E). exists a, rev, z.
  rewrite E. reflexivity.
Qed.

(** A revision token of fewer than two bytes makes the slice expression
    panic. *)
Lemma versionedFilePath_short r :
  slen (FindMissingFiles.revision r) < 2 ->
  FindMissingFiles.versionedFilePath r = Panic.
Proof.
  intros H. unfold FindMissingFiles.versionedFilePath, substr.
  replace (1 <=? slen (FindMissingFiles.revision r) - 1) with false
    by (symmetry; apply Z.leb_gt; lia).
  reflexivity.
Qed.

(** With case sensitivity on, a path exists when it is a key of the map;
    with case sensitivity off, when its lower-cased form is. *)
Lemma pathExistsOnDisk_spec (filemap : gmap string Z) value caseSensitive :
  FindMissingFiles.pathExistsOnDisk ToLower filemap value caseSensitive = true
  <-> (if caseSensitive then value else ToLower value) ∈ dom filemap.
Proof.
  unfold FindMissingFiles.pathExistsOnDisk.
  destruct caseSensitive; rewrite bool_decide_eq_true, elem_of_dom; reflexivity.
Qed.

(** A path just registered exists, under the same case-sensitivity flag. *)
Lemma registered_exists (filemap : gmap string Z) value caseSensitive :
  FindMissingFiles.pathExistsOnDisk ToLower
    (FindMissingFiles.registerExistingPath ToLower filemap value caseSensitive)
    value caseSensitive = true.
Proof.
  apply pathExistsOnDisk_spec. unfold FindMissingFiles.registerExistingPath.
  destruct caseSensitive; cbn [negb]; rewrite dom_insert_L; set_solver.
Qed.

End Verification.

(** C3.  For a scanned record whose revision token is [rev] between two
    delimiter bytes, the expected path is [filename,v/rev] when
    [fileType & 0xF] is the RCS kind and [filename,d/rev] otherwise; the
    record is counted, and it is counted as missing exactly when neither
    that path nor the path followed by [.gz] is present in the index: when
    neither of the two keys is a key of the map, the key of a path being
    the path itself with case sensitivity on and its lower-cased form with
    case sensitivity off, as it is when a path is registered. *)
Theorem expected_path_and_lookup (ToLower : string -> string)
    (filemap : gmap string Z) (caseSensitive : bool)
    (st : FindMissingFiles.Counters) (filename rev : string) (a z : ascii)
    (fileType : Z) :
  let r := FindMissingFiles.mkScanned filename
             (String a (rev +:+ String z EmptyString)) fileType in
  let path :=
    if Z.land fileType 0xF =? FindMissingFiles.RCSStorageType
    then filename +:+ ",v/" +:+ rev else filename +:+ ",d/" +:+ rev in
  let key := fun value : string => if caseSensitive then value else ToLower value in
  FindMissingFiles.versionedFilePath r = Ret path
  /\ exists st',
       FindMissingFiles.checkRecord ToLower filemap caseSensitive st r = Ret st'
       /\ FindMissingFiles.fileCount st' = FindMissingFiles.fileCount st + 1
       /\ (FindMissingFiles.missingCount st' = FindMissingFiles.missingCount st + 1
           <-> (key path ∉ dom filemap) /\ (key (path +:+ ".gz") ∉ dom filemap))
       /\ (FindMissingFiles.missingCount st' = FindMissingFiles.missingCount st
           <-> key path ∈ dom filemap \/ key (path +:+ ".gz") ∈ dom filemap).
Proof.
  cbv zeta.
  assert (Hpath : FindMissingFiles.versionedFilePath
            (FindMissingFiles.mkScanned filename
               (String a (rev +:+ String z EmptyString)) fileType)
          = Ret (if Z.land fileType 0xF =? FindMissingFiles.RCSStorageType
                 then filename +:+ ",v/" +:+ rev else filename +:+ ",d/" +:+ rev)).
  { unfold FindMissingFiles.versionedFilePath.
    cbn [FindMissingFiles.revision FindMissingFiles.fileType FindMissingFiles.filename].
    rewrite (substr_delimited a rev z). cbn [mbind go_bind bind].
    destruct (_ =? _); reflexivity. }
  split; [exact Hpath|].
  unfold FindMissingFiles.checkRecord. rewrite Hpath. cbn [mbind go_bind bind].
  eexists. split; [reflexivity|].
  cbn [FindMissingFiles.fileCount FindMissingFiles.missingCount].
  split; [reflexivity|].
  set (path := if Z.land fileType 0xF =? FindMissingFiles.RCSStorageType
               then filename +:+ ",v/" +:+ rev else filename +:+ ",d/" +:+ rev).
  pose proof (pathExistsOnDisk_spec ToLower filemap path caseSensitive) as Hfound.
  pose proof (pathExistsOnDisk_spec ToLower filemap (path +:+ ".gz") caseSensitive)
    as HfoundGz.
  destruct (FindMissingFiles.pathExistsOnDisk ToLower filemap path caseSensitive);
    cbn [negb];
    [|destruct (FindMissingFiles.pathExistsOnDisk ToLower filemap (path +:+ ".gz")
                  caseSensitive); cbn [negb]].
  - assert (Hin : (if caseSensitive then path else ToLower path) ∈ dom filemap)
      by (apply Hfound; reflexivity).
    split; split; intros H; try lia; tauto.
  - assert (Hin : (if caseSensitive then path +:+ ".gz" else ToLower (path +:+ ".gz"))
                  ∈ dom filemap) by (apply HfoundGz; reflexivity).
    split; split; intros H; try lia; tauto.
  - assert (Hout : (if caseSensitive then path else ToLower path) ∉ dom filemap)
      by (intros Hin; apply Hfound in Hin; discriminate).
    assert (HoutGz : (if caseSensitive then path +:+ ".gz" else ToLower (path +:+ ".gz"))
                     ∉ dom filemap)
      by (intros Hin; apply HfoundGz in Hin; discriminate).
    split; split; intros H; try lia; tauto.
Qed.

(** C9.  A revision token of one byte, or an empty one, does not give a
    corrupted path: the slice expression [revision[1 : len(revision)-1]]
    panics and the run stops there, the records after it unread. *)
Theorem short_revision_token_panics :
  FindMissingFiles.versionedFilePath
    (FindMissingFiles.mkScanned "//depot/a.txt" "#" 0) = Panic
  /\ FindMissingFiles.versionedFilePath
       (FindMissingFiles.mkScanned "//depot/a.txt" EmptyString 0) = Panic
  /\ FindMissingFiles.scanLine EmptyString (journalLine (Samples.entry "//depot/a.txt" "#"))
     = Ret (Some (FindMissingFiles.mkScanned "//depot/a.txt" "#" 0))
  /\ FindMissingFiles.processDbStorageEntries Samples.lowerASCII
       (Samples.diskOf [("journal",
          [journalLine (Samples.entry "//depot/a.txt" "#");
           journalLine (Samples.entry "//depot/b.txt" "@1.1@")])] [])
       "journal" ∅ EmptyString false = Panic
  /\ FindMissingFiles.processDbStorageEntries Samples.lowerASCII
       (Samples.diskOf [("journal",
          [journalLine (Samples.entry "//depot/a.txt" EmptyString);
           journalLine (Samples.entry "//depot/b.txt" "@1.1@")])] [])
       "journal" ∅ EmptyString false = Panic.
Proof. repeat split; vm_compute; reflexivity. Qed.

(** ** The RCS revision scan (C5, C6) *)

Section RcsScan.

Import RcsFormat.

Variable ToLower : string -> string.
Variable normalizedPath : string.
Variable caseSensitive : bool.

Local Abbreviation register := (registerRevision ToLower normalizedPath caseSensitive).

(** One turn of the loop shifts the window by the line read, and registers
    the oldest but one line of the old window when the line read is
    [text] and the two lines before it are [log] and [@@]. *)
Lemma rcsStep_window st w3 w2 w1 w0 line :
  Window st w3 w2 w1 w0 ->
  let st' := FindMissingFiles.rcsStep ToLower normalizedPath caseSensitive st line in
  Window st' w2 w1 w0 line
  /\ FindMissingFiles.rcsFilemap st' =
       fold_left register
         (if String.eqb line "text" && String.eqb w0 "@@" && String.eqb w1 "log"
          then [w2] else [])
         (FindMissingFiles.rcsFilemap st).
Proof.
  intros W. cbv zeta.
  destruct W; unfold FindMissingFiles.rcsStep;
    cbv -[String.eqb FindMissingFiles.registerExistingPath String.append registerRevision];
    destruct (String.eqb line "text") eqn:E0; try (split; [constructor | reflexivity]);
    destruct (String.eqb w0 "@@"); try (split; [constructor | reflexivity]);
    destruct (String.eqb w1 "log"); split; try constructor; reflexivity.
Qed.

Lemma rcsLoop_window lines : forall st w3 w2 w1 w0,
  Window st w3 w2 w1 w0 ->
  FindMissingFiles.rcsFilemap
    (fold_left (FindMissingFiles.rcsStep ToLower normalizedPath caseSensitive) lines st)
  = fold_left register (windowScan w3 w2 w1 w0 lines) (FindMissingFiles.rcsFilemap st).
Proof.
  induction lines as [|line lines IH]; intros st w3 w2 w1 w0 W; [reflexivity|].
  destruct (rcsStep_window st w3 w2 w1 w0 line W) as [W' Hm].
  cbn [fold_left windowScan]. rewrite (IH _ _ _ _ _ W'), Hm.
  rewrite fold_left_app. reflexivity.
Qed.

Lemma sentinelAt_three a b c rest :
  sentinelAt (a :: b :: c :: rest)
  = String.eqb c "text" && String.eqb b "@@" && String.eqb a "log".
Proof.
  unfold sentinelAt.
  destruct (String.eqb a "log"), (String.eqb b "@@"), (String.eqb c "text");
    reflexivity.
Qed.

(** The window scan lags the list scan by the three lines it holds. *)
Lemma revisionsOf_window rest : forall w3 w2 w1 w0,
  revisionsOf w3 (w2 :: w1 :: w0 :: rest)
  = (if sentinelAt [w2; w1; w0] then [w3] else []) ++ windowScan w3 w2 w1 w0 rest.
Proof.
  induction rest as [|x rest IH]; intros w3 w2 w1 w0.
  - cbn [revisionsOf windowScan].
    replace (sentinelAt [w1; w0]) with false by reflexivity.
    replace (sentinelAt [w0]) with false by reflexivity.
    reflexivity.
  - change (revisionsOf w3 (w2 :: w1 :: w0 :: x :: rest))
      with ((if sentinelAt (w2 :: w1 :: w0 :: x :: rest) then [w3] else [])
            ++ revisionsOf w2 (w1 :: w0 :: x :: rest)).
    rewrite IH. cbn [windowScan]. rewrite !sentinelAt_three. reflexivity.
Qed.

Lemma revisionsOf_blank lines :
  revisionsOf EmptyString (EmptyString :: lines) = revisionsOf EmptyString lines.
Proof. destruct lines as [|a [|b l]]; reflexivity. Qed.

(** The loop of [readVersionsFromRCS] registers, in order, the line before
    each place where [log], [@@], [text] stand; before the first line of
    the file stands the empty string, the initial content of the buffer. *)
Lemma rcsScan_revisionsOf lines (filemap : gmap string Z) :
  FindMissingFiles.rcsScan ToLower normalizedPath caseSensitive lines filemap
  = fold_left register (revisionsOf EmptyString lines) filemap.
Proof.
  unfold FindMissingFiles.rcsScan.
  rewrite (rcsLoop_window lines _ _ _ _ _
             (Window0 filemap EmptyString EmptyString EmptyString EmptyString)).
  cbn [FindMissingFiles.rcsFilemap]. f_equal.
  rewrite <- (revisionsOf_blank lines), <- (revisionsOf_blank (EmptyString :: lines)),
    <- (revisionsOf_blank (EmptyString :: EmptyString :: lines)).
  rewrite revisionsOf_window. reflexivity.
Qed.

Lemma revisionsOf_length lines : forall prev,
  length (revisionsOf prev lines) = sentinelCount lines.
Proof.
  induction lines as [|x rest IH]; intros prev; [reflexivity|].
  cbn [revisionsOf sentinelCount]. rewrite length_app, IH.
  destruct (sentinelAt (x :: rest)); reflexivity.
Qed.

Lemma revisionsOf_block pre : forall prev rev post,
  In rev (revisionsOf prev (pre ++ rev :: "log" :: "@@" :: "text" :: post)).
Proof.
  induction pre as [|x pre IH]; intros prev rev post.
  - cbn [app revisionsOf]. apply in_or_app. right.
    apply in_or_app. left. simpl. left. reflexivity.
  - change ((x :: pre) ++ rev :: "log" :: "@@" :: "text" :: post)
      with (x :: (pre ++ rev :: "log" :: "@@" :: "text" :: post)).
    cbn [revisionsOf]. apply in_or_app. right. apply IH.
Qed.

Lemma revisionsOf_single pre rev post :
  sentinelCount (pre ++ rev :: "log" :: "@@" :: "text" :: post) = 1%nat ->
  revisionsOf EmptyString (pre ++ rev :: "log" :: "@@" :: "text" :: post) = [rev].
Proof.
  intros H. pose proof (revisionsOf_block pre EmptyString rev post) as Hin.
  rewrite <- (revisionsOf_length _ EmptyString) in H.
  destruct (revisionsOf EmptyString _) as [|r [|r' l]]; simpl in H; try lia.
  destruct Hin as [->|[]]. reflexivity.
Qed.

Lemma revisionsOf_none lines :
  sentinelCount lines = 0%nat -> revisionsOf EmptyString lines = [].
Proof.
  intros H. rewrite <- (revisionsOf_length _ EmptyString) in H.
  destruct (revisionsOf EmptyString lines); [reflexivity | discriminate].
Qed.

End RcsScan.

Lemma append_assoc (a b c : string) : (a +:+ b) +:+ c = a +:+ (b +:+ c).
Proof.
  induction a as [|x a IH]; [reflexivity|].
  change (String x ((a +:+ b) +:+ c) = String x (a +:+ (b +:+ c))).
  rewrite IH. reflexivity.
Qed.

(** ** What the scanner yields of a file *)

Section ScannerFacts.

Import TextFormat.

Lemma Split_no_byte c s : countByte c s = 0%nat -> Split s c = [s].
Proof.
  induction s as [|a s IH]; [reflexivity|]. cbn [countByte Split].
  destruct (Ascii.eqb a c); [discriminate|].
  intros H. rewrite IH by exact H. reflexivity.
Qed.

Lemma unlines_cons_append line rest x :
  unlines (line :: rest) +:+ x = line +:+ String "010" (unlines rest +:+ x).
Proof. cbn [unlines]. rewrite append_assoc. reflexivity. Qed.

(** A file made of lines splits at the newlines into those lines, and then
    into what follows them. *)
Lemma Split_unlines_append lines x :
  Forall (fun line => countByte "010" line = 0%nat) lines ->
  Split (unlines lines +:+ x) "010" = lines ++ Split x "010".
Proof.
  induction lines as [|line lines IH]; intros Hall; [reflexivity|].
  apply Forall_cons_1 in Hall as [Hline Hall].
  rewrite unlines_cons_append, Split_app, (Split_no_byte _ _ Hline), (IH Hall).
  reflexivity.
Qed.

Lemma append_empty s : s +:+ EmptyString = s.
Proof.
  induction s as [|a s IH]; [reflexivity|].
  change (String a (s +:+ EmptyString) = String a s). rewrite IH. reflexivity.
Qed.

Lemma Split_unlines lines :
  Forall (fun line => countByte "010" line = 0%nat) lines ->
  Split (unlines lines) "010" = lines ++ [EmptyString].
Proof.
  intros Hall. rewrite <- (append_empty (unlines lines)).
  apply (Split_unlines_append lines EmptyString Hall).
Qed.

(** Below the limit of the buffer, the scanner yields the lines of the
    file. *)
Lemma scanTokens_textLines pieces :
  Forall (fun piece => slen piece < MaxScanTokenSize) pieces ->
  scanTokens pieces = textLines pieces.
Proof.
  induction pieces as [|piece pieces IH]; intros Hall; [reflexivity|].
  apply Forall_cons_1 in Hall as [Hpiece Hall].
  apply Z.ltb_lt in Hpiece.
  destruct pieces as [|piece' pieces].
  - cbn [scanTokens textLines]. rewrite Hpiece, andb_true_r. reflexivity.
  - change (scanTokens (piece :: piece' :: pieces))
      with (if slen piece <? MaxScanTokenSize
            then dropCR piece :: scanTokens (piece' :: pieces) else []).
    rewrite Hpiece, (IH Hall). reflexivity.
Qed.

Lemma scannerLines_within content :
  withinLimit content -> scannerLines content = linesOf content.
Proof. apply scanTokens_textLines. Qed.

(** The limit, checked by computation. *)
Lemma withinLimit_check content :
  forallb (fun piece => slen piece <? MaxScanTokenSize) (Split content "010") = true ->
  withinLimit content.
Proof.
  unfold withinLimit. induction (Split content "010") as [|piece pieces IH];
    cbn [forallb]; intros H; [constructor|].
  apply andb_prop in H as [Hpiece Hrest].
  constructor; [apply Z.ltb_lt, Hpiece | apply IH, Hrest].
Qed.

Lemma textLines_plain lines :
  Forall plainLine lines -> textLines (lines ++ [EmptyString]) = lines.
Proof.
  induction lines as [|line lines IH]; intros Hall; [reflexivity|].
  apply Forall_cons_1 in Hall as [(_ & Hcr & _) Hall].
  change ((line :: lines) ++ [EmptyString]) with (line :: (lines ++ [EmptyString])).
  destruct (lines ++ [EmptyString]) as [|piece pieces] eqn:E.
  - destruct lines; discriminate.
  - change (textLines (line :: piece :: pieces))
      with (dropCR line :: textLines (piece :: pieces)).
    rewrite Hcr, (IH Hall). reflexivity.
Qed.

Lemma plainLine_no_newline lines :
  Forall plainLine lines -> Forall (fun line => countByte "010" line = 0%nat) lines.
Proof.
  intros Hall. eapply Forall_impl; [exact Hall|]. intros line (H & _). exact H.
Qed.

Lemma linesOf_unlines lines : Forall plainLine lines -> linesOf (unlines lines) = lines.
Proof.
  intros Hall. unfold linesOf.
  rewrite (Split_unlines lines (plainLine_no_newline lines Hall)).
  apply textLines_plain, Hall.
Qed.

Lemma withinLimit_unlines lines : Forall plainLine lines -> withinLimit (unlines lines).
Proof.
  intros Hall. unfold withinLimit.
  rewrite (Split_unlines lines (plainLine_no_newline lines Hall)).
  apply Forall_app. split.
  - eapply Forall_impl; [exact Hall|]. intros line (_ & _ & H). exact H.
  - constructor; [reflexivity | constructor].
Qed.

Lemma scannerLines_unlines lines :
  Forall plainLine lines -> scannerLines (unlines lines) = lines.
Proof.
  intros Hall. rewrite (scannerLines_within _ (withinLimit_unlines lines Hall)).
  apply linesOf_unlines, Hall.
Qed.

(** The scan stops before the first piece that does not fit the buffer. *)
Lemma scanTokens_long before long rest :
  Forall plainLine before ->
  MaxScanTokenSize <= slen long ->
  scanTokens (before ++ long :: rest) = before.
Proof.
  intros Hall Hlong. apply Z.ltb_ge in Hlong.
  induction before as [|line before IH].
  - cbn [app]. destruct rest as [|piece rest].
    + cbn [scanTokens]. rewrite Hlong, andb_false_r. reflexivity.
    + change (scanTokens (long :: piece :: rest))
        with (if slen long <? MaxScanTokenSize
              then dropCR long :: scanTokens (piece :: rest) else []).
      rewrite Hlong. reflexivity.
  - apply Forall_cons_1 in Hall as [(_ & Hcr & Hlen) Hall].
    apply Z.ltb_lt in Hlen.
    change ((line :: before) ++ long :: rest) with (line :: (before ++ long :: rest)).
    destruct (before ++ long :: rest) as [|piece pieces] eqn:E.
    + destruct before; discriminate.
    + change (scanTokens (line :: piece :: pieces))
        with (if slen line <? MaxScanTokenSize
              then dropCR line :: scanTokens (piece :: pieces) else []).
      rewrite Hlen, Hcr, (IH Hall). reflexivity.
Qed.

Lemma scannerLines_long before long rest :
  Forall plainLine before ->
  countByte "010" long = 0%nat ->
  MaxScanTokenSize <= slen long ->
  scannerLines (unlines before +:+ long +:+ String "010" rest) = before.
Proof.
  intros Hall Hnl Hlong. unfold scannerLines.
  rewrite (Split_unlines_append before _ (plainLine_no_newline before Hall)).
  rewrite Split_app, (Split_no_byte _ _ Hnl).
  change ([long] ++ Split rest "010") with (long :: Split rest "010").
  apply scanTokens_long; assumption.
Qed.

Lemma slen_replicateByte n c : slen (replicateByte n c) = Z.of_nat n.
Proof.
  unfold slen. f_equal. induction n as [|n IH]; [reflexivity|].
  cbn. rewrite IH. reflexivity.
Qed.

Lemma countByte_replicateByte n c c' :
  c <> c' -> countByte c' (replicateByte n c) = 0%nat.
Proof.
  intros Hc. induction n as [|n IH]; [reflexivity|]. cbn [replicateByte countByte].
  destruct (Ascii.eqb_spec c c'); [contradiction | exact IH].
Qed.

End ScannerFacts.

(** One revision block: the scan sets one key. *)
Lemma rcsScan_single_block (ToLower : string -> string) (base : string)
    (caseSensitive : bool) (pre post : list string) (rev : string)
    (filemap : gmap string Z) :
  RcsFormat.sentinelCount (pre ++ rev :: "log" :: "@@" :: "text" :: post) = 1%nat ->
  FindMissingFiles.rcsScan ToLower (base +:+ ",v") caseSensitive
    (pre ++ rev :: "log" :: "@@" :: "text" :: post) filemap
  = <[(if caseSensitive then base +:+ ",v/" +:+ rev
       else ToLower (base +:+ ",v/" +:+ rev)) := 1]> filemap.
Proof.
  intros Hcount.
  rewrite rcsScan_revisionsOf, (revisionsOf_single pre rev post Hcount).
  cbn [fold_left]. unfold RcsFormat.registerRevision,
    FindMissingFiles.registerExistingPath.
  rewrite append_assoc. destruct caseSensitive; reflexivity.
Qed.

Lemma view_readVersionsFromRCS (ToLower : string -> string) (fs : OnDisk.Files)
    (filePath normalizedPath bytes : string) (filemap : gmap string Z)
    (caseSensitive : bool) :
  OnDisk.content fs filePath = Some bytes ->
  FindMissingFiles.readVersionsFromRCS ToLower (OnDisk.view fs) filePath
    normalizedPath filemap caseSensitive
  = (FindMissingFiles.rcsScan ToLower normalizedPath caseSensitive
       (scannerLines bytes) filemap, None).
Proof.
  intros Hopen. unfold FindMissingFiles.readVersionsFromRCS, OnDisk.view, OnDisk.scan.
  cbn [FindMissingFiles.openLines]. rewrite Hopen. reflexivity.
Qed.

Lemma view_openLines (fs : OnDisk.Files) (path bytes : string) :
  OnDisk.content fs path = Some bytes ->
  TextFormat.withinLimit bytes ->
  FindMissingFiles.openLines (OnDisk.view fs) path = Some (TextFormat.linesOf bytes).
Proof.
  intros Hopen Hlimit. unfold OnDisk.view, OnDisk.scan.
  cbn [FindMissingFiles.openLines]. rewrite Hopen, (scannerLines_within bytes Hlimit).
  reflexivity.
Qed.

(** C5.  Scanning an RCS container [base,v] that can be opened and whose
    lines are each shorter than 64 KiB: when the three sentinel lines
    [log], [@@], [text] stand at one place only of the file, after the
    revision line [rev], the scan sets exactly one key of the map, to 1,
    and leaves the others as they were; the key is [base,v/rev] with case
    sensitivity on and the lower-cased [base,v/rev] with case sensitivity
    off.  When the sentinel lines stand nowhere (say, the [@@] line is
    missing), the map is left as it was.  No error is returned. *)
Theorem rcs_single_revision_block (ToLower : string -> string)
    (fs : OnDisk.Files) (filePath base bytes : string)
    (caseSensitive : bool) (filemap : gmap string Z) :
  OnDisk.content fs filePath = Some bytes ->
  TextFormat.withinLimit bytes ->
  let scanned :=
    FindMissingFiles.readVersionsFromRCS ToLower (OnDisk.view fs) filePath
      (base +:+ ",v") filemap caseSensitive in
  let key := fun value : string => if caseSensitive then value else ToLower value in
  (forall pre rev post,
     TextFormat.linesOf bytes = pre ++ rev :: "log" :: "@@" :: "text" :: post ->
     RcsFormat.sentinelCount (TextFormat.linesOf bytes) = 1%nat ->
     scanned = (<[key (base +:+ ",v/" +:+ rev) := 1]> filemap, None))
  /\ (RcsFormat.sentinelCount (TextFormat.linesOf bytes) = 0%nat ->
      scanned = (filemap, None)).
Proof.
  intros Hopen Hlimit. cbv zeta.
  rewrite (view_readVersionsFromRCS ToLower fs filePath _ bytes filemap _ Hopen).
  rewrite (scannerLines_within bytes Hlimit). split.
  - intros pre rev post Hlines Hcount. rewrite Hlines in Hcount |- *.
    rewrite (rcsScan_single_block ToLower base caseSensitive pre post rev filemap Hcount).
    reflexivity.
  - intros Hcount. rewrite rcsScan_revisionsOf, (revisionsOf_none _ Hcount).
    reflexivity.
Qed.

(** The container of the samples: one block, revision 1.1. *)
Lemma rcs_single_revision_block_witness :
  FindMissingFiles.readVersionsFromRCS Samples.lowerASCII
    (OnDisk.view FileSamples.mixedCaseDepot) "/depot/Dir/A.txt,v"
    ("//Dir/A.txt" +:+ ",v") ∅ true
  = (<[("//Dir/A.txt" +:+ ",v/" +:+ "1.1") := 1]> ∅, None).
Proof.
  refine (proj1 (rcs_single_revision_block Samples.lowerASCII
    FileSamples.mixedCaseDepot "/depot/Dir/A.txt,v" "//Dir/A.txt"
    FileSamples.oneBlockFile true ∅ _ _)
    ["head 1.1;"; "desc"; "@@"]%string "1.1"%string ["@hello"; "@"]%string _ _).
  - reflexivity.
  - apply withinLimit_check. vm_compute. reflexivity.
  - vm_compute. reflexivity.
  - vm_compute. reflexivity.
Defined.

(** With case sensitivity off, the default, the container
    [/depot/Dir/A.txt,v] of one block is registered under
    [//dir/a.txt,v/1.1]: the index has no key [//Dir/A.txt,v/1.1]. *)
Lemma rcs_single_revision_block_counterexample :
  let scanned :=
    FindMissingFiles.readVersionsFromRCS Samples.lowerASCII
      (OnDisk.view FileSamples.mixedCaseDepot) "/depot/Dir/A.txt,v"
      (FindMissingFiles.normalize "/depot" "/depot/Dir/A.txt,v") ∅ false in
  FindMissingFiles.normalize "/depot" "/depot/Dir/A.txt,v" = "//Dir/A.txt,v"%string
  /\ RcsFormat.sentinelCount (TextFormat.linesOf FileSamples.oneBlockFile) = 1%nat
  /\ scanned.2 = None
  /\ map_to_list scanned.1 = [("//dir/a.txt,v/1.1"%string, 1)]
  /\ scanned.1 !! "//Dir/A.txt,v/1.1"%string = None
  /\ map_to_list
       (FindMissingFiles.listVersionedFiles Samples.lowerASCII Samples.unixJoin "/"
          (OnDisk.view FileSamples.mixedCaseDepot) "/depot" EmptyString false).1
     = [("//dir/a.txt,v/1.1"%string, 1)].
Proof. repeat split; vm_compute; reflexivity. Qed.

(** The revision the scan registers is the one the verification looks up
    for an RCS record of the same file and revision. *)
Lemma rcs_revision_is_found (ToLower : string -> string) (base : string)
    (caseSensitive : bool) (pre post : list string) (rev : string)
    (filemap : gmap string Z) :
  let lines := pre ++ rev :: "log" :: "@@" :: "text" :: post in
  RcsFormat.sentinelCount lines = 1%nat ->
  FindMissingFiles.pathExistsOnDisk ToLower
    (FindMissingFiles.rcsScan ToLower (base +:+ ",v") caseSensitive lines filemap)
    (base +:+ ",v/" +:+ rev) caseSensitive = true.
Proof.
  cbv zeta. intros Hcount.
  rewrite rcsScan_revisionsOf, (revisionsOf_single pre rev post Hcount).
  cbn [fold_left]. unfold RcsFormat.registerRevision.
  rewrite append_assoc. apply registered_exists.
Qed.

(** A container whose [@@] line is missing. *)
Example rcs_broken_sentinel :
  FindMissingFiles.rcsScan Samples.lowerASCII "//a.txt,v" true
    ["head 1.1;"; "1.1"; "log"; "text"; "@hello"; "@"]%string ∅ = ∅.
Proof. vm_compute. reflexivity. Qed.

(** Where the three sentinel lines stand nowhere, and so in every file of
    fewer than three lines, the scan registers nothing. *)
Lemma rcs_no_sentinel (ToLower : string -> string) (normalizedPath : string)
    (caseSensitive : bool) (lines : list string) (filemap : gmap string Z) :
  (length lines < 3)%nat \/ RcsFormat.sentinelCount lines = 0%nat ->
  FindMissingFiles.rcsScan ToLower normalizedPath caseSensitive lines filemap = filemap.
Proof.
  intros H. rewrite rcsScan_revisionsOf.
  rewrite revisionsOf_none; [reflexivity|].
  destruct H as [H|H]; [|exact H].
  destruct lines as [|a [|b [|c l]]]; simpl in H; try lia; reflexivity.
Qed.

(** C6.  A container of the three lines [log], [@@], [text], fewer than
    four lines, does not yield zero revisions: the scan reads the slot of
    the buffer that no line has been written to and registers a revision
    with an empty name. *)
Theorem three_line_container_registers :
  length Samples.threeLines = 3%nat
  /\ map_to_list
       (FindMissingFiles.rcsScan Samples.lowerASCII "//a.txt,v" true
          Samples.threeLines ∅)
     = [("//a.txt,v/"%string, 1)]
  /\ map_to_list
       (FindMissingFiles.listVersionedFiles Samples.lowerASCII Samples.unixJoin "/"
          Samples.threeLineDepot "/depot" EmptyString true).1
     = [("//a.txt,v/"%string, 1)]
  /\ (FindMissingFiles.listVersionedFiles Samples.lowerASCII Samples.unixJoin "/"
        Samples.threeLineDepot "/depot" EmptyString true).2 = None.
Proof. repeat split; vm_compute; reflexivity. Qed.

(** ** Building the index (C4, C7) *)

Section Index.

Variable ToLower : string -> string.
Variable filepath_Join : string -> string -> string.
Variable Separator : ascii.
Variable disk : FindMissingFiles.Disk.

Lemma Walk_app before after callback : forall (filemap : gmap string Z),
  FindMissingFiles.Walk (before ++ after) callback filemap
  = match FindMissingFiles.Walk before callback filemap with
    | (filemap', None) => FindMissingFiles.Walk after callback filemap'
    | (filemap', Some err) => (filemap', Some err)
    end.
Proof.
  induction before as [|ev before IH]; intros filemap; [reflexivity|].
  cbn [app FindMissingFiles.Walk]. destruct ev as [p d|p]; [|reflexivity].
  destruct (callback p d filemap) as [filemap' [err|]]; [reflexivity | apply IH].
Qed.

(** When the root cannot be read, the index is empty and the walk error
    is returned. *)
Lemma unreadable_root_index depotPath filter caseSensitive p events :
  FindMissingFiles.walkFrom disk
    (FindMissingFiles.rootPathOf filepath_Join Separator depotPath filter)
  = FindMissingFiles.OsError p :: events ->
  FindMissingFiles.listVersionedFiles ToLower filepath_Join Separator disk
    depotPath filter caseSensitive
  = (∅, Some (FindMissingFiles.ErrWalk p)).
Proof.
  intros H. unfold FindMissingFiles.listVersionedFiles. cbv zeta.
  rewrite H. reflexivity.
Qed.

(** [main] goes on with whatever index it was given, error or not. *)
Lemma main_discards_index_error journalPath depotPath caseSensitive filter :
  FindMissingFiles.main ToLower filepath_Join Separator disk
    [journalPath; depotPath] caseSensitive filter
  = (r ← FindMissingFiles.processDbStorageEntries ToLower disk journalPath
           (FindMissingFiles.listVersionedFiles ToLower filepath_Join Separator
              disk depotPath filter caseSensitive).1
           filter caseSensitive;
     match r with
     | inl _ => mret (FindMissingFiles.mkReport 1 None)
     | inr st => mret (FindMissingFiles.mkReport 0 (Some st))
     end).
Proof.
  unfold FindMissingFiles.main. cbn [len length nth].
  destruct (FindMissingFiles.listVersionedFiles _ _ _ _ _ _ _) as [filemap err].
  reflexivity.
Qed.

End Index.

(** C4.  With a depot root that cannot be read, the index builder returns
    the empty index and an error, and [main] drops the error: the journal is
    verified against the empty index, its record is logged as missing, and
    the process ends with status 0. *)
Theorem unreadable_root_not_fatal :
  FindMissingFiles.listVersionedFiles Samples.lowerASCII Samples.unixJoin "/"
    Samples.unreadableRoot "/depot" EmptyString true
  = (∅, Some (FindMissingFiles.ErrWalk "/depot"))
  /\ FindMissingFiles.main Samples.lowerASCII Samples.unixJoin "/"
       Samples.unreadableRoot ["journal"; "/depot"]%string true EmptyString
     = Ret (FindMissingFiles.mkReport 0
              (Some (FindMissingFiles.mkCounters 1 1))).
Proof. split; vm_compute; reflexivity. Qed.

(** C7 (as amended).  An RCS container that cannot be opened stops the
    walk: the index builder returns the index of the entries met before the
    container, together with an error that wraps the failure to open it;
    no entry met after the container is indexed. *)
Theorem unopenable_container_halts_walk (ToLower : string -> string)
    (filepath_Join : string -> string -> string) (Separator : ascii)
    (disk : FindMissingFiles.Disk) (depotPath filter : string)
    (caseSensitive : bool) (before after : list FindMissingFiles.walkEvent)
    (osPathname : string) (filemap : gmap string Z) :
  FindMissingFiles.walkFrom disk
    (FindMissingFiles.rootPathOf filepath_Join Separator depotPath filter)
  = before ++ FindMissingFiles.Entry osPathname false :: after ->
  HasSuffix (FindMissingFiles.normalize depotPath osPathname) ",v" = true ->
  FindMissingFiles.openLines disk osPathname = None ->
  FindMissingFiles.Walk before
    (FindMissingFiles.walkCallback ToLower disk depotPath caseSensitive) ∅
  = (filemap, None) ->
  FindMissingFiles.listVersionedFiles ToLower filepath_Join Separator disk
    depotPath filter caseSensitive
  = (filemap,
     Some (FindMissingFiles.ErrReadVersions (FindMissingFiles.ErrOpenRCS osPathname))).
Proof.
  intros Hwalk Hsuffix Hopen Hbefore.
  unfold FindMissingFiles.listVersionedFiles. cbv zeta.
  rewrite Hwalk, Walk_app, Hbefore.
  cbn [FindMissingFiles.Walk]. unfold FindMissingFiles.walkCallback.
  cbv zeta. rewrite Hsuffix.
  unfold FindMissingFiles.readVersionsFromRCS. rewrite Hopen. reflexivity.
Qed.

(** The depot of the samples: the walk stops at [b.txt,v]. *)
Lemma unopenable_container_halts_walk_witness :
  FindMissingFiles.listVersionedFiles Samples.lowerASCII Samples.unixJoin "/"
    Samples.lockedContainer "/depot" EmptyString true
  = (∅, Some (FindMissingFiles.ErrReadVersions
                (FindMissingFiles.ErrOpenRCS "/depot/b.txt,v"))).
Proof.
  refine (unopenable_container_halts_walk Samples.lowerASCII Samples.unixJoin "/"
    Samples.lockedContainer "/depot" EmptyString true
    [FindMissingFiles.Entry "/depot" true]
    [FindMissingFiles.Entry "/depot/a.bin,d" true;
     FindMissingFiles.Entry "/depot/a.bin,d/1.1" false]
    "/depot/b.txt,v" ∅ _ _ _ _); reflexivity.
Defined.

(** C7 (as stated) fails: the container [b.txt,v] cannot be opened, and the
    file that holds revision 1.1 of [//a.bin], met after it, is not
    indexed although it is on disk; the verification that follows reports
    it missing. *)
Lemma unopenable_container_counterexample :
  let index :=
    (FindMissingFiles.listVersionedFiles Samples.lowerASCII Samples.unixJoin "/"
       Samples.lockedContainer "/depot" EmptyString true).1 in
  In (FindMissingFiles.Entry "/depot/a.bin,d/1.1" false)
     (FindMissingFiles.walkFrom Samples.lockedContainer "/depot")
  /\ FindMissingFiles.normalize "/depot" "/depot/a.bin,d/1.1" = "//a.bin,d/1.1"%string
  /\ FindMissingFiles.pathExistsOnDisk Samples.lowerASCII index "//a.bin,d/1.1" true
     = false
  /\ FindMissingFiles.main Samples.lowerASCII Samples.unixJoin "/"
       Samples.lockedContainer ["journal"; "/depot"]%string true EmptyString
     = Ret (FindMissingFiles.mkReport 0
              (Some (FindMissingFiles.mkCounters 1 1))).
Proof.
  cbv zeta. split; [simpl; tauto|]. repeat split; vm_compute; reflexivity.
Qed.

(** ** The file-type decoder (C8) *)

Section Decoder.

Import StorageToCsv FileTypeCodec.

(** A value within a mask, seen through another mask, is seen through
    what the two masks share. *)
Lemma land_within x m m' : Z.land x m = x -> Z.land x m' = Z.land x (Z.land m m').
Proof. intros H. rewrite <- H at 1. rewrite <- Z.land_assoc. reflexivity. Qed.

Lemma land_apart x m m' : Z.land x m = x -> Z.land m m' = 0 -> Z.land x m' = 0.
Proof.
  intros H H0. rewrite (land_within x m m' H), H0. apply Z.land_0_r.
Qed.

Lemma kind_within k : 0 <= k <= 8 -> Z.land k FileTypeBitMaskServerStorageType = k.
Proof.
  intros H.
  assert (k = 0 \/ k = 1 \/ k = 2 \/ k = 3 \/ k = 4 \/ k = 5 \/ k = 6 \/ k = 7 \/ k = 8)
    as Hk by lia.
  repeat (destruct Hk as [->|Hk]; [reflexivity|]). subst k. reflexivity.
Qed.

(** The five masks share no bit. *)
Lemma masks_disjoint :
  let masks := [ FileTypeBitMaskServerStorageType;
                 FileTypeBitMaskServerStorageTypeModifier;
                 FileTypeBitMaskRevisionsNumber;
                 FileTypeBitMaskClientStorageType;
                 FileTypeBitMaskClientStorageTypeModifier ] in
  forall i j m m', (i < j)%nat -> masks !! i = Some m -> masks !! j = Some m' ->
                   Z.land m m' = 0.
Proof.
  cbv zeta. intros i j m m' Hij Hi Hj.
  destruct i as [|[|[|[|[|i]]]]]; destruct j as [|[|[|[|[|j]]]]];
    try lia; simpl in Hi, Hj; try discriminate;
    injection Hi as <-; injection Hj as <-; reflexivity.
Qed.

End Decoder.

(** C8.  Decoding is a total function of the integer, and it inverts the
    packing: for a server storage kind between 0 and 8 and any combination
    of the bits of the other four masks, decoding the integer formed from
    the five values gives them back. *)
Theorem decodeFileType_encodeFileType (d : StorageToCsv.DecodedFileType) :
  FileTypeCodec.wellFormed d ->
  StorageToCsv.decodeFileType (FileTypeCodec.encodeFileType d) = d.
Proof.
  destruct d as [k sm rn ct cm].
  unfold FileTypeCodec.wellFormed, FileTypeCodec.encodeFileType,
    StorageToCsv.decodeFileType.
  cbn [StorageToCsv.serverFileType StorageToCsv.serverFileTypeModifier
       StorageToCsv.revisionsNumber StorageToCsv.clientFileType
       StorageToCsv.clientFileTypeModifier].
  intros (Hk & Hsm & Hrn & Hct & Hcm). apply kind_within in Hk.
  rewrite !Z.land_lor_distr_l.
  f_equal;
    repeat match goal with
           | H : Z.land ?x ?m = ?x |- context [Z.land ?x ?m'] =>
               first [ rewrite H | rewrite (land_apart x m m' H eq_refl) ]
           end;
    rewrite ?Z.lor_0_r, ?Z.lor_0_l; reflexivity.
Qed.

(** A compressed file, exclusive open, sixteen revisions kept, every client
    bit set. *)
Lemma decodeFileType_encodeFileType_witness :
  StorageToCsv.decodeFileType
    (FileTypeCodec.encodeFileType (StorageToCsv.mkDecoded 3 0x40 0xA00 0x10D0000 0x720000))
  = StorageToCsv.mkDecoded 3 0x40 0xA00 0x10D0000 0x720000.
Proof.
  apply decodeFileType_encodeFileType. unfold FileTypeCodec.wellFormed.
  repeat split; try reflexivity; cbn; lia.
Defined.

(** * Further properties of the two programs *)

(** ** Registering and looking up paths *)

Section Registry.

Import IndexFormat.

Variable ToLower : string -> string.

Lemma dom_registerExistingPath (filemap : gmap string Z) value caseSensitive :
  dom (FindMissingFiles.registerExistingPath ToLower filemap value caseSensitive)
  = {[ keyOf ToLower caseSensitive value ]} ∪ dom filemap.
Proof.
  unfold FindMissingFiles.registerExistingPath, keyOf.
  destruct caseSensitive; cbn [negb]; apply dom_insert_L.
Qed.

Lemma pathExistsOnDisk_dom (filemap : gmap string Z) value caseSensitive :
  FindMissingFiles.pathExistsOnDisk ToLower filemap value caseSensitive
  = bool_decide (keyOf ToLower caseSensitive value ∈ dom filemap).
Proof.
  unfold FindMissingFiles.pathExistsOnDisk, keyOf.
  destruct caseSensitive; apply bool_decide_ext; rewrite elem_of_dom; reflexivity.
Qed.

Lemma dom_fold_register normalizedPath caseSensitive revisions :
  forall filemap : gmap string Z,
  dom (fold_left (RcsFormat.registerRevision ToLower normalizedPath caseSensitive)
         revisions filemap)
  = dom filemap
    ∪ keysOf ToLower caseSensitive
        (map (fun revision => normalizedPath +:+ "/" +:+ revision) revisions).
Proof.
  unfold keysOf.
  induction revisions as [|r revisions IH]; intros filemap; cbn [fold_left map].
  - cbn [list_to_set]. rewrite union_empty_r_L. reflexivity.
  - rewrite IH. unfold RcsFormat.registerRevision.
    rewrite dom_registerExistingPath. cbn [list_to_set].
    rewrite (union_comm_L {[ _ ]} (dom filemap)), <- union_assoc_L. reflexivity.
Qed.

Lemma rcs_scan_contents_aux normalizedPath caseSensitive lines
    (filemap : gmap string Z) :
  dom (FindMissingFiles.rcsScan ToLower normalizedPath caseSensitive lines filemap)
  = dom filemap
    ∪ keysOf ToLower caseSensitive
        (map (fun revision => normalizedPath +:+ "/" +:+ revision)
           (RcsFormat.revisionsOf EmptyString lines)).
Proof. rewrite rcsScan_revisionsOf. apply dom_fold_register. Qed.

End Registry.

(** X1.  Looking a path up after another path was registered, under the
    same case-sensitivity flag: it is found when the two paths have the
    same key (the paths themselves with the flag on, their lower-cased
    forms with the flag off), and otherwise exactly when it was found
    before. *)
Theorem lookup_after_register (ToLower : string -> string)
    (filemap : gmap string Z) (value value' : string) (caseSensitive : bool) :
  FindMissingFiles.pathExistsOnDisk ToLower
    (FindMissingFiles.registerExistingPath ToLower filemap value caseSensitive)
    value' caseSensitive
  = String.eqb (IndexFormat.keyOf ToLower caseSensitive value')
               (IndexFormat.keyOf ToLower caseSensitive value)
    || FindMissingFiles.pathExistsOnDisk ToLower filemap value' caseSensitive.
Proof.
  rewrite !pathExistsOnDisk_dom, dom_registerExistingPath.
  destruct (String.eqb_spec (IndexFormat.keyOf ToLower caseSensitive value')
                            (IndexFormat.keyOf ToLower caseSensitive value)) as [->|Hne].
  - cbn [orb]. apply bool_decide_eq_true, elem_of_union_l, elem_of_singleton.
    reflexivity.
  - cbn [orb]. apply bool_decide_ext.
    rewrite elem_of_union, elem_of_singleton. tauto.
Qed.

(** X2.  The keys after the scan of an RCS container that can be opened
    are the keys before it and, for every place among the lines the
    scanner yields from the file (its lines up to the first one of 64 KiB
    or more) where [log], [@@], [text] stand, the key of
    [normalizedPath/line], the line being the one just before that place
    (the empty string at the head of the file); nothing else is added,
    nothing is removed, and no error is returned.  A container that cannot
    be opened leaves the map as it was and gives the error of the
    opening. *)
Theorem rcs_scan_contents (ToLower : string -> string) (fs : OnDisk.Files)
    (filePath normalizedPath : string) (caseSensitive : bool)
    (filemap : gmap string Z) :
  let scanned :=
    FindMissingFiles.readVersionsFromRCS ToLower (OnDisk.view fs) filePath
      normalizedPath filemap caseSensitive in
  match OnDisk.content fs filePath with
  | Some bytes =>
      dom scanned.1
      = dom filemap
        ∪ IndexFormat.keysOf ToLower caseSensitive
            (map (fun line => normalizedPath +:+ "/" +:+ line)
               (RcsFormat.revisionsOf EmptyString (scannerLines bytes)))
      /\ scanned.2 = None
  | None => scanned = (filemap, Some (FindMissingFiles.ErrOpenRCS filePath))
  end.
Proof.
  cbv zeta. destruct (OnDisk.content fs filePath) as [bytes|] eqn:Hopen.
  - rewrite (view_readVersionsFromRCS ToLower fs filePath _ bytes filemap _ Hopen).
    cbn [fst snd]. split; [apply rcs_scan_contents_aux | reflexivity].
  - unfold FindMissingFiles.readVersionsFromRCS, OnDisk.view, OnDisk.scan.
    cbn [FindMissingFiles.openLines]. rewrite Hopen. reflexivity.
Qed.

(** ** The contents of the index *)

Section IndexContents.

Import IndexFormat.

Variable ToLower : string -> string.
Variable disk : FindMissingFiles.Disk.
Variable depotPath : string.
Variable caseSensitive : bool.

Lemma keysOf_app paths paths' :
  keysOf ToLower caseSensitive (paths ++ paths')
  = keysOf ToLower caseSensitive paths ∪ keysOf ToLower caseSensitive paths'.
Proof. unfold keysOf. rewrite map_app. apply list_to_set_app_L. Qed.

Lemma keysOf_In path paths :
  In path paths -> keyOf ToLower caseSensitive path ∈ keysOf ToLower caseSensitive paths.
Proof.
  intros H. unfold keysOf. apply elem_of_list_to_set, list_elem_of_In, in_map, H.
Qed.

(** Whatever the callback returns, its map has gained the keys of the paths
    the entry stands for, and nothing else. *)
Lemma walkCallback_contents osPathname isDir (filemap : gmap string Z) :
  dom (FindMissingFiles.walkCallback ToLower disk depotPath caseSensitive
         osPathname isDir filemap).1
  = dom filemap
    ∪ keysOf ToLower caseSensitive
        (entryPaths disk depotPath (FindMissingFiles.Entry osPathname isDir)).
Proof.
  unfold FindMissingFiles.walkCallback, entryPaths. cbv zeta.
  destruct isDir; [cbn; rewrite union_empty_r_L; reflexivity|].
  destruct (HasSuffix _ _).
  - unfold FindMissingFiles.readVersionsFromRCS.
    destruct (FindMissingFiles.openLines disk osPathname) as [lines|]; cbn [fst].
    + apply rcs_scan_contents_aux.
    + cbn. rewrite union_empty_r_L. reflexivity.
  - cbn [fst]. rewrite dom_registerExistingPath. unfold keysOf. cbn [map list_to_set].
    rewrite union_empty_r_L. apply union_comm_L.
Qed.

(** The walk has handled a prefix of its events, all of them when it
    returns no error, and its map has gained the keys of the paths those
    events stand for. *)
Lemma Walk_contents events : forall filemap : gmap string Z,
  exists handled rest,
    events = handled ++ rest
    /\ dom (FindMissingFiles.Walk events
              (FindMissingFiles.walkCallback ToLower disk depotPath caseSensitive)
              filemap).1
       = dom filemap
         ∪ keysOf ToLower caseSensitive (flat_map (entryPaths disk depotPath) handled)
    /\ ((FindMissingFiles.Walk events
           (FindMissingFiles.walkCallback ToLower disk depotPath caseSensitive)
           filemap).2 = None -> rest = []).
Proof.
  induction events as [|ev events IH]; intros filemap.
  - exists [], []. cbn. rewrite union_empty_r_L. auto.
  - destruct ev as [osPathname isDir|osPathname].
    + cbn [FindMissingFiles.Walk].
      pose proof (walkCallback_contents osPathname isDir filemap) as Hcb.
      destruct (FindMissingFiles.walkCallback ToLower disk depotPath caseSensitive
                  osPathname isDir filemap) as [filemap' [err|]]; cbn [fst] in Hcb.
      * exists [FindMissingFiles.Entry osPathname isDir], events.
        cbn [flat_map fst snd]. rewrite app_nil_r. split; [reflexivity|].
        split; [exact Hcb | discriminate].
      * destruct (IH filemap') as (handled & rest & E & Hdom & Hrest).
        exists (FindMissingFiles.Entry osPathname isDir :: handled), rest.
        split; [cbn [app]; f_equal; exact E|]. split; [|exact Hrest].
        rewrite Hdom, Hcb. cbn [flat_map]. rewrite keysOf_app.
        symmetry. apply union_assoc_L.
    + exists [], (FindMissingFiles.OsError osPathname :: events).
      cbn. rewrite union_empty_r_L. split; [reflexivity|]. split; [reflexivity|].
      discriminate.
Qed.

End IndexContents.

Section Origins.

Import RcsFormat.

Lemma sentinelAt_true lines :
  sentinelAt lines = true -> exists post, lines = "log"%string :: "@@"%string :: "text"%string :: post.
Proof.
  destruct lines as [|a [|b [|c post]]]; try discriminate. cbn [sentinelAt].
  intros H. apply andb_prop in H as [H Hc]. apply andb_prop in H as [Ha Hb].
  apply String.eqb_eq in Ha, Hb, Hc. subst. exists post. reflexivity.
Qed.

(** Every revision the scan finds is the line before a run [log], [@@],
    [text], or, when the run is at the head, the line before the first. *)
Lemma revisionsOf_In line lines : forall prev,
  In line (revisionsOf prev lines) ->
  (line = prev /\ sentinelAt lines = true)
  \/ exists pre post, lines = pre ++ line :: "log"%string :: "@@"%string :: "text"%string :: post.
Proof.
  induction lines as [|x rest IH]; intros prev; [intros []|].
  cbn [revisionsOf]. intros Hin. apply in_app_or in Hin as [Hin|Hin].
  - destruct (sentinelAt (x :: rest)) eqn:E; [|destruct Hin].
    destruct Hin as [<-|[]]. left. split; reflexivity.
  - right. destruct (IH x Hin) as [[-> Hat]|(pre & post & ->)].
    + destruct (sentinelAt_true rest Hat) as (post & ->). exists [], post. reflexivity.
    + exists (x :: pre), post. reflexivity.
Qed.

End Origins.

(** X3.  When the index builder returns no error, the keys of the index are
    exactly the keys of the paths the events of the walk stand for: the
    normalized path of every plain file, and [container/line] for every
    revision line found among the lines the scanner yields from every RCS
    container (the lines of the container up to the first one of 64 KiB
    or more); directories add nothing. *)
Theorem index_contents (ToLower : string -> string)
    (filepath_Join : string -> string -> string) (Separator : ascii)
    (fs : OnDisk.Files) (depotPath filter : string) (caseSensitive : bool) :
  let built := FindMissingFiles.listVersionedFiles ToLower filepath_Join Separator
                 (OnDisk.view fs) depotPath filter caseSensitive in
  built.2 = None ->
  dom built.1
  = IndexFormat.keysOf ToLower caseSensitive
      (flat_map (IndexFormat.entryPaths (OnDisk.view fs) depotPath)
         (OnDisk.walk fs
            (FindMissingFiles.rootPathOf filepath_Join Separator depotPath filter))).
Proof.
  cbv zeta. unfold FindMissingFiles.listVersionedFiles. cbv zeta. intros Hok.
  destruct (Walk_contents ToLower (OnDisk.view fs) depotPath caseSensitive
              (FindMissingFiles.walkFrom (OnDisk.view fs)
                 (FindMissingFiles.rootPathOf filepath_Join Separator depotPath filter))
              ∅) as (handled & rest & E & Hdom & Hrest).
  rewrite (Hrest Hok), app_nil_r in E. rewrite Hdom, <- E, dom_empty_L.
  apply union_empty_l_L.
Qed.

(** The depot of the samples that holds every file of its journal. *)
Lemma index_contents_witness :
  dom (FindMissingFiles.listVersionedFiles Samples.lowerASCII Samples.unixJoin "/"
         (OnDisk.view FileSamples.healthyDepot) "/depot" EmptyString false).1
  = IndexFormat.keysOf Samples.lowerASCII false
      (flat_map (IndexFormat.entryPaths (OnDisk.view FileSamples.healthyDepot) "/depot")
         (OnDisk.walk FileSamples.healthyDepot
            (FindMissingFiles.rootPathOf Samples.unixJoin "/" "/depot" EmptyString))).
Proof.
  apply (index_contents Samples.lowerASCII Samples.unixJoin "/"
           FileSamples.healthyDepot "/depot" EmptyString false).
  vm_compute. reflexivity.
Defined.

(** X4.  Whether the walk succeeds or stops on an error, every key of the
    index it returns comes from a file the walk met: it is the key of the
    normalized path of a plain file, or the key of [container/line] for a
    container the walk met and that can be opened, [line] being a line the
    scanner yields from it just before the lines [log], [@@], [text], or
    the empty string when these three are the first lines it yields.
    Directories, and files the walk did not meet, give no key. *)
Theorem index_within_disk (ToLower : string -> string)
    (filepath_Join : string -> string -> string) (Separator : ascii)
    (fs : OnDisk.Files) (depotPath filter : string) (caseSensitive : bool)
    (key : string) :
  key ∈ dom (FindMissingFiles.listVersionedFiles ToLower filepath_Join Separator
               (OnDisk.view fs) depotPath filter caseSensitive).1 ->
  exists osPathname,
    In (FindMissingFiles.Entry osPathname false)
       (OnDisk.walk fs
          (FindMissingFiles.rootPathOf filepath_Join Separator depotPath filter))
    /\ let normalizedPath := FindMissingFiles.normalize depotPath osPathname in
       (HasSuffix normalizedPath ",v" = false
        /\ key = IndexFormat.keyOf ToLower caseSensitive normalizedPath)
       \/ (HasSuffix normalizedPath ",v" = true
           /\ exists bytes line,
                OnDisk.content fs osPathname = Some bytes
                /\ key = IndexFormat.keyOf ToLower caseSensitive
                           (normalizedPath +:+ "/" +:+ line)
                /\ ((line = EmptyString
                     /\ RcsFormat.sentinelAt (scannerLines bytes) = true)
                    \/ exists pre post,
                         scannerLines bytes
                         = pre ++ line :: "log"%string :: "@@"%string
                                  :: "text"%string :: post)).
Proof.
  unfold FindMissingFiles.listVersionedFiles. cbv zeta.
  destruct (Walk_contents ToLower (OnDisk.view fs) depotPath caseSensitive
              (FindMissingFiles.walkFrom (OnDisk.view fs)
                 (FindMissingFiles.rootPathOf filepath_Join Separator depotPath filter))
              ∅) as (handled & rest & E & Hdom & _).
  rewrite Hdom, dom_empty_L, union_empty_l_L. unfold IndexFormat.keysOf.
  rewrite elem_of_list_to_set, list_elem_of_In, in_map_iff.
  intros (path & <- & Hpath). apply in_flat_map in Hpath as (ev & Hev & Hpath).
  assert (Hmet : In ev (OnDisk.walk fs
            (FindMissingFiles.rootPathOf filepath_Join Separator depotPath filter))).
  { change (OnDisk.walk fs) with (FindMissingFiles.walkFrom (OnDisk.view fs)).
    rewrite E. apply in_or_app. left. exact Hev. }
  destruct ev as [osPathname [|]|osPathname]; try destruct Hpath.
  exists osPathname. split; [exact Hmet|]. cbv zeta.
  unfold IndexFormat.entryPaths in Hpath. cbv zeta in Hpath.
  destruct (HasSuffix (FindMissingFiles.normalize depotPath osPathname) ",v").
  - right. split; [reflexivity|].
    unfold OnDisk.view, OnDisk.scan in Hpath. cbn [FindMissingFiles.openLines] in Hpath.
    destruct (OnDisk.content fs osPathname) as [bytes|]; [|destruct Hpath].
    apply in_map_iff in Hpath as (line & <- & Hline).
    exists bytes, line. split; [reflexivity|]. split; [reflexivity|].
    apply revisionsOf_In in Hline. exact Hline.
  - left. split; [reflexivity|]. destruct Hpath as [<-|[]]. reflexivity.
Qed.

(** The key of revision 1.1 of [//r.txt] comes from its container. *)
Lemma index_within_disk_witness :
  exists osPathname,
    In (FindMissingFiles.Entry osPathname false)
       (OnDisk.walk FileSamples.healthyDepot
          (FindMissingFiles.rootPathOf Samples.unixJoin "/" "/depot" EmptyString))
    /\ let normalizedPath := FindMissingFiles.normalize "/depot" osPathname in
       (HasSuffix normalizedPath ",v" = false
        /\ "//r.txt,v/1.1"%string
           = IndexFormat.keyOf Samples.lowerASCII false normalizedPath)
       \/ (HasSuffix normalizedPath ",v" = true
           /\ exists bytes line,
                OnDisk.content FileSamples.healthyDepot osPathname = Some bytes
                /\ "//r.txt,v/1.1"%string
                   = IndexFormat.keyOf Samples.lowerASCII false
                       (normalizedPath +:+ "/" +:+ line)
                /\ ((line = EmptyString
                     /\ RcsFormat.sentinelAt (scannerLines bytes) = true)
                    \/ exists pre post,
                         scannerLines bytes
                         = pre ++ line :: "log"%string :: "@@"%string
                                  :: "text"%string :: post)).
Proof.
  apply (index_within_disk Samples.lowerASCII Samples.unixJoin "/"
           FileSamples.healthyDepot "/depot" EmptyString false "//r.txt,v/1.1").
  vm_compute. reflexivity.
Defined.

(** ** From the disk to the verdict *)

Section Verdict.

Variable ToLower : string -> string.

Lemma substring_skip s t n :
  String.substring (String.length s) n (s +:+ t) = String.substring 0 n t.
Proof. induction s as [|c s IH]; [reflexivity | exact IH]. Qed.

Lemma substring_all t : String.substring 0 (String.length t) t = t.
Proof. induction t as [|c t IH]; [reflexivity|]. simpl. rewrite IH. reflexivity. Qed.

Lemma length_append s t :
  String.length (s +:+ t) = (String.length s + String.length t)%nat.
Proof. induction s as [|c s IH]; [reflexivity|]. simpl. rewrite IH. reflexivity. Qed.

Lemma HasSuffix_append s suffix : HasSuffix (s +:+ suffix) suffix = true.
Proof.
  unfold HasSuffix. rewrite length_append.
  replace (String.length suffix <=? String.length s + String.length suffix)%nat
    with true by (symmetry; apply Nat.leb_le; lia).
  replace (String.length s + String.length suffix - String.length suffix)%nat
    with (String.length s) by lia.
  rewrite substring_skip, substring_all. cbn [andb]. apply String.eqb_refl.
Qed.

(** A record whose path, or whose path followed by [.gz], exists in the
    index is counted and not counted as missing. *)
Lemma checkRecord_found (filemap : gmap string Z) caseSensitive st r path :
  FindMissingFiles.versionedFilePath r = Ret path ->
  FindMissingFiles.pathExistsOnDisk ToLower filemap path caseSensitive = true
  \/ FindMissingFiles.pathExistsOnDisk ToLower filemap (path +:+ ".gz") caseSensitive
     = true ->
  FindMissingFiles.checkRecord ToLower filemap caseSensitive st r
  = Ret (FindMissingFiles.mkCounters (FindMissingFiles.fileCount st + 1)
           (FindMissingFiles.missingCount st)).
Proof.
  intros Hpath Hfound. unfold FindMissingFiles.checkRecord.
  rewrite Hpath. cbn [mbind go_bind bind].
  destruct (FindMissingFiles.pathExistsOnDisk ToLower filemap path caseSensitive);
    [reflexivity|].
  destruct Hfound as [Hfound|Hfound]; [discriminate|]. rewrite Hfound. reflexivity.
Qed.

Lemma versionedFilePath_delimited filename rev a z fileType :
  FindMissingFiles.versionedFilePath
    (FindMissingFiles.mkScanned filename (String a (rev +:+ String z EmptyString))
       fileType)
  = Ret (if Z.land fileType 0xF =? FindMissingFiles.RCSStorageType
         then filename +:+ ",v/" +:+ rev else filename +:+ ",d/" +:+ rev).
Proof.
  unfold FindMissingFiles.versionedFilePath.
  cbn [FindMissingFiles.revision FindMissingFiles.fileType FindMissingFiles.filename].
  rewrite (substr_delimited a rev z). cbn [mbind go_bind bind].
  destruct (_ =? _); reflexivity.
Qed.

End Verdict.

(** X5.  No false alarm for a file stored as one file per revision: when
    the index was built without error, the walk met a plain file whose
    normalized path is [filename,d/rev] or [filename,d/rev.gz], and the
    journal records revision [rev] of [filename] with a storage kind other
    than RCS, the record is counted and not counted as missing. *)
Theorem stored_revision_not_missing (ToLower : string -> string)
    (filepath_Join : string -> string -> string) (Separator : ascii)
    (disk : FindMissingFiles.Disk) (depotPath filter : string)
    (caseSensitive : bool) (osPathname filename rev : string) (a z : ascii)
    (fileType : Z) (st : FindMissingFiles.Counters) :
  let built := FindMissingFiles.listVersionedFiles ToLower filepath_Join Separator
                 disk depotPath filter caseSensitive in
  built.2 = None ->
  In (FindMissingFiles.Entry osPathname false)
     (FindMissingFiles.walkFrom disk
        (FindMissingFiles.rootPathOf filepath_Join Separator depotPath filter)) ->
  HasSuffix (FindMissingFiles.normalize depotPath osPathname) ",v" = false ->
  FindMissingFiles.normalize depotPath osPathname = filename +:+ ",d/" +:+ rev
  \/ FindMissingFiles.normalize depotPath osPathname
     = (filename +:+ ",d/" +:+ rev) +:+ ".gz" ->
  Z.land fileType 0xF <> FindMissingFiles.RCSStorageType ->
  FindMissingFiles.checkRecord ToLower built.1 caseSensitive st
    (FindMissingFiles.mkScanned filename (String a (rev +:+ String z EmptyString))
       fileType)
  = Ret (FindMissingFiles.mkCounters (FindMissingFiles.fileCount st + 1)
           (FindMissingFiles.missingCount st)).
Proof.
  cbv zeta. intros Hok Hin Hplain Hname Hkind.
  assert (Hkey : IndexFormat.keyOf ToLower caseSensitive
                   (FindMissingFiles.normalize depotPath osPathname)
                 ∈ dom (FindMissingFiles.listVersionedFiles ToLower filepath_Join
                          Separator disk depotPath filter caseSensitive).1).
  { unfold FindMissingFiles.listVersionedFiles in *. cbv zeta in *.
    destruct (Walk_contents ToLower disk depotPath caseSensitive
                (FindMissingFiles.walkFrom disk
                   (FindMissingFiles.rootPathOf filepath_Join Separator depotPath filter))
                ∅) as (handled & rest & E & Hdom & Hrest).
    rewrite (Hrest Hok), app_nil_r in E. rewrite Hdom, <- E.
    apply elem_of_union_r, keysOf_In, in_flat_map.
    exists (FindMissingFiles.Entry osPathname false). split; [exact Hin|].
    unfold IndexFormat.entryPaths. cbv zeta. rewrite Hplain. left. reflexivity. }
  apply (checkRecord_found ToLower _ _ _ _ (filename +:+ ",d/" +:+ rev)).
  - rewrite versionedFilePath_delimited.
    destruct (Z.eqb_spec (Z.land fileType 0xF) FindMissingFiles.RCSStorageType);
      [contradiction | reflexivity].
  - rewrite !pathExistsOnDisk_dom.
    destruct Hname as [Hname|Hname]; rewrite <- Hname;
      [left | right]; apply bool_decide_eq_true; exact Hkey.
Qed.

(** Revision 1.1 of [//A.bin], stored compressed. *)
Lemma stored_revision_not_missing_witness :
  FindMissingFiles.checkRecord Samples.lowerASCII
    (FindMissingFiles.listVersionedFiles Samples.lowerASCII Samples.unixJoin "/"
       Samples.healthyDepot "/depot" EmptyString true).1 true
    (FindMissingFiles.mkCounters 0 0)
    (FindMissingFiles.mkScanned "//A.bin" "@1.1@" 1)
  = Ret (FindMissingFiles.mkCounters 1 0).
Proof.
  refine (stored_revision_not_missing Samples.lowerASCII Samples.unixJoin "/"
    Samples.healthyDepot "/depot" EmptyString true "/depot/A.bin,d/1.1.gz"
    "//A.bin" "1.1" "@" "@" 1 (FindMissingFiles.mkCounters 0 0) _ _ _ _ _).
  - vm_compute. reflexivity.
  - simpl. tauto.
  - vm_compute. reflexivity.
  - right. vm_compute. reflexivity.
  - vm_compute. discriminate.
Defined.

(** A revision line the scanner yields from a container the walk met,
    followed by [log], [@@], [text], is found by the look-up of an RCS
    record of that file and revision. *)
Lemma indexed_revision_not_missing (ToLower : string -> string)
    (filepath_Join : string -> string -> string) (Separator : ascii)
    (disk : FindMissingFiles.Disk) (depotPath filter : string)
    (caseSensitive : bool) (osPathname filename rev : string)
    (pre post : list string) (a z : ascii)
    (fileType : Z) (st : FindMissingFiles.Counters) :
  let built := FindMissingFiles.listVersionedFiles ToLower filepath_Join Separator
                 disk depotPath filter caseSensitive in
  built.2 = None ->
  In (FindMissingFiles.Entry osPathname false)
     (FindMissingFiles.walkFrom disk
        (FindMissingFiles.rootPathOf filepath_Join Separator depotPath filter)) ->
  FindMissingFiles.normalize depotPath osPathname = filename +:+ ",v" ->
  FindMissingFiles.openLines disk osPathname
  = Some (pre ++ rev :: "log" :: "@@" :: "text" :: post) ->
  Z.land fileType 0xF = FindMissingFiles.RCSStorageType ->
  FindMissingFiles.checkRecord ToLower built.1 caseSensitive st
    (FindMissingFiles.mkScanned filename (String a (rev +:+ String z EmptyString))
       fileType)
  = Ret (FindMissingFiles.mkCounters (FindMissingFiles.fileCount st + 1)
           (FindMissingFiles.missingCount st)).
Proof.
  cbv zeta. intros Hok Hin Hname Hopen Hkind.
  assert (Hkey : IndexFormat.keyOf ToLower caseSensitive (filename +:+ ",v/" +:+ rev)
                 ∈ dom (FindMissingFiles.listVersionedFiles ToLower filepath_Join
                          Separator disk depotPath filter caseSensitive).1).
  { unfold FindMissingFiles.listVersionedFiles in *. cbv zeta in *.
    destruct (Walk_contents ToLower disk depotPath caseSensitive
                (FindMissingFiles.walkFrom disk
                   (FindMissingFiles.rootPathOf filepath_Join Separator depotPath filter))
                ∅) as (handled & rest & E & Hdom & Hrest).
    rewrite (Hrest Hok), app_nil_r in E. rewrite Hdom, <- E.
    apply elem_of_union_r, keysOf_In, in_flat_map.
    exists (FindMissingFiles.Entry osPathname false). split; [exact Hin|].
    unfold IndexFormat.entryPaths. cbv zeta.
    rewrite Hname, HasSuffix_append, Hopen.
    apply in_map_iff. exists rev. split; [rewrite append_assoc; reflexivity|].
    apply revisionsOf_block. }
  apply (checkRecord_found ToLower _ _ _ _ (filename +:+ ",v/" +:+ rev)).
  - rewrite versionedFilePath_delimited, Hkind. reflexivity.
  - left. rewrite pathExistsOnDisk_dom. apply bool_decide_eq_true. exact Hkey.
Qed.

(** X6.  No false alarm for a revision kept in an RCS container: when the
    index was built without error, the walk met the container
    [filename,v], the container can be opened, its lines are each shorter
    than 64 KiB and hold the revision line [rev] followed by [log], [@@],
    [text], and the journal records revision [rev] of [filename] with the
    RCS storage kind, the record is counted and not counted as missing. *)
Theorem rcs_revision_not_missing (ToLower : string -> string)
    (filepath_Join : string -> string -> string) (Separator : ascii)
    (fs : OnDisk.Files) (depotPath filter : string)
    (caseSensitive : bool) (osPathname filename rev bytes : string)
    (pre post : list string) (a z : ascii)
    (fileType : Z) (st : FindMissingFiles.Counters) :
  let built := FindMissingFiles.listVersionedFiles ToLower filepath_Join Separator
                 (OnDisk.view fs) depotPath filter caseSensitive in
  built.2 = None ->
  In (FindMissingFiles.Entry osPathname false)
     (OnDisk.walk fs
        (FindMissingFiles.rootPathOf filepath_Join Separator depotPath filter)) ->
  FindMissingFiles.normalize depotPath osPathname = filename +:+ ",v" ->
  OnDisk.content fs osPathname = Some bytes ->
  TextFormat.withinLimit bytes ->
  TextFormat.linesOf bytes = pre ++ rev :: "log" :: "@@" :: "text" :: post ->
  Z.land fileType 0xF = FindMissingFiles.RCSStorageType ->
  FindMissingFiles.checkRecord ToLower built.1 caseSensitive st
    (FindMissingFiles.mkScanned filename (String a (rev +:+ String z EmptyString))
       fileType)
  = Ret (FindMissingFiles.mkCounters (FindMissingFiles.fileCount st + 1)
           (FindMissingFiles.missingCount st)).
Proof.
  cbv zeta. intros Hok Hin Hname Hopen Hlimit Hlines Hkind.
  apply (indexed_revision_not_missing ToLower filepath_Join Separator
           (OnDisk.view fs) depotPath filter caseSensitive osPathname filename rev
           pre post a z fileType st Hok Hin Hname); [|exact Hkind].
  rewrite (view_openLines fs osPathname bytes Hopen Hlimit), Hlines. reflexivity.
Qed.

(** Revision 1.1 of [//r.txt], in its container. *)
Lemma rcs_revision_not_missing_witness :
  FindMissingFiles.checkRecord Samples.lowerASCII
    (FindMissingFiles.listVersionedFiles Samples.lowerASCII Samples.unixJoin "/"
       (OnDisk.view FileSamples.healthyDepot) "/depot" EmptyString false).1 false
    (FindMissingFiles.mkCounters 0 0)
    (FindMissingFiles.mkScanned "//r.txt" "@1.1@" 0)
  = Ret (FindMissingFiles.mkCounters 1 0).
Proof.
  refine (rcs_revision_not_missing Samples.lowerASCII Samples.unixJoin "/"
    FileSamples.healthyDepot "/depot" EmptyString false "/depot/r.txt,v"
    "//r.txt" "1.1" FileSamples.oneBlockFile
    ["head 1.1;"; "desc"; "@@"]%string ["@hello"; "@"]%string
    "@" "@" 0 (FindMissingFiles.mkCounters 0 0) _ _ _ _ _ _ _).
  - vm_compute. reflexivity.
  - simpl. tauto.
  - vm_compute. reflexivity.
  - reflexivity.
  - apply withinLimit_check. vm_compute. reflexivity.
  - vm_compute. reflexivity.
  - vm_compute. reflexivity.
Defined.

(** ** The scanning loops *)

(** The scanning half of the verification loop and the loop body of the
    CSV tool panic on a line exactly when the line passes the three
    pre-filters and has fewer than twelve tokens. *)
Lemma scanners_panic_on (filter line : string) :
  (FindMissingFiles.scanLine filter line = Panic
   <-> passesPreFilters line = true /\ len (Split line " ") < 12)
  /\ (StorageToCsv.processLine line = Panic
      <-> passesPreFilters line = true /\ len (Split line " ") < 12).
Proof.
  destruct (passesPreFilters line) eqn:Hpre.
  - destruct (Z.lt_ge_cases (len (Split line " ")) 12) as [Hlen|Hlen].
    + destruct (short_line_panics filter line Hpre Hlen) as [-> ->]. tauto.
    + destruct (long_line_layout line Hpre Hlen)
        as (b & P & rev & ty & rc & dg & sz & ssz & ck & dt & last & E).
      rewrite (Fmf_scanLine_layout filter _ _ _ _ _ _ _ _ _ _ _ _ E).
      rewrite (Csv_processLine_layout _ _ _ _ _ _ _ _ _ _ _ _ E). cbv zeta.
      split; (split; [intros H; exfalso | intros [_ H]; lia]).
      * destruct (_ && _); [discriminate|]. destruct (Atoi ty); discriminate.
      * destruct (ParseUint ty), (Atoi rc), (ParseInt sz), (ParseInt ssz), (Atoi dt);
          discriminate.
  - destruct (prefilter_reject filter line Hpre) as [-> ->].
    split; (split; [discriminate | intros [H _]; discriminate]).
Qed.

(** The slice expression [revision[1 : len(revision)-1]] panics exactly on
    a revision token of fewer than two bytes. *)
Lemma versionedFilePath_panics (r : FindMissingFiles.Scanned) :
  FindMissingFiles.versionedFilePath r = Panic
  <-> slen (FindMissingFiles.revision r) < 2.
Proof.
  split; [|apply versionedFilePath_short].
  intros H. destruct (Z.lt_ge_cases (slen (FindMissingFiles.revision r)) 2)
    as [Hlt|Hlen]; [exact Hlt|].
  exfalso. destruct r as [f rv t]. cbn [FindMissingFiles.revision] in Hlen.
  destruct (delimited_token rv) as (a & rev & z & ->); [lia|].
  rewrite versionedFilePath_delimited in H. destruct (_ =? _); discriminate.
Qed.

(** X7.  Where the loop bodies panic.  The scanning half of the loop body
    of the verification tool, from the line to the file name, the
    revision token and the file type, and the whole loop body of the CSV
    tool panic on a line exactly when the line passes the three
    pre-filters and has fewer than twelve tokens.  The whole loop body of
    the verification tool panics on those lines and on the lines from
    which it scans a record whose revision token has fewer than two
    bytes, and on no other line. *)
Theorem scanners_panic_exactly (ToLower : string -> string)
    (filemap : gmap string Z) (filter : string) (caseSensitive : bool)
    (st : FindMissingFiles.Counters) (line : string) :
  (FindMissingFiles.scanLine filter line = Panic
   <-> passesPreFilters line = true /\ len (Split line " ") < 12)
  /\ (StorageToCsv.processLine line = Panic
      <-> passesPreFilters line = true /\ len (Split line " ") < 12)
  /\ (FindMissingFiles.processLine ToLower filemap filter caseSensitive st line
      = Panic
      <-> (passesPreFilters line = true /\ len (Split line " ") < 12)
          \/ exists r,
               FindMissingFiles.scanLine filter line = Ret (Some r)
               /\ slen (FindMissingFiles.revision r) < 2).
Proof.
  destruct (scanners_panic_on filter line) as [Hscan Hcsv].
  split; [exact Hscan|]. split; [exact Hcsv|].
  unfold FindMissingFiles.processLine.
  destruct (FindMissingFiles.scanLine filter line) as [[r|]|] eqn:E;
    cbn [mbind go_bind bind].
  - unfold FindMissingFiles.checkRecord.
    pose proof (versionedFilePath_panics r) as Hpath.
    destruct (FindMissingFiles.versionedFilePath r) as [path|];
      cbn [mbind go_bind bind].
    + split; [discriminate|]. intros [Hshort|(r' & Hr & Hlen)].
      * apply Hscan in Hshort. discriminate.
      * injection Hr as <-. apply Hpath in Hlen. discriminate.
    + split; [|reflexivity]. intros _. right. exists r.
      split; [reflexivity | apply Hpath; reflexivity].
  - split; [discriminate|]. intros [Hshort|(r' & Hr & _)].
    + apply Hscan in Hshort. discriminate.
    + discriminate.
  - split; [|reflexivity]. intros _. left. apply Hscan. reflexivity.
Qed.

(** X8.  The prefix filter of the verification tool only drops records:
    scanning a line under a filter gives what scanning it without a filter
    gives, except that a record whose file name does not start with the
    filter becomes [continue]; a panic stays a panic and no record is
    altered. *)
Theorem filter_only_drops (filter line : string) :
  FindMissingFiles.scanLine filter line
  = match FindMissingFiles.scanLine EmptyString line with
    | Ret (Some r) =>
        if (0 <? slen filter)
           && negb (HasPrefix (FindMissingFiles.filename r) filter)
        then Ret None else Ret (Some r)
    | other => other
    end.
Proof.
  destruct (passesPreFilters line) eqn:Hpre.
  - destruct (Z.lt_ge_cases (len (Split line " ")) 12) as [Hlen|Hlen].
    + destruct (short_line_panics filter line Hpre Hlen) as [-> _].
      destruct (short_line_panics EmptyString line Hpre Hlen) as [-> _]. reflexivity.
    + destruct (long_line_layout line Hpre Hlen)
        as (b & P & rev & ty & rc & dg & sz & ssz & ck & dt & last & E).
      rewrite !(Fmf_scanLine_layout _ _ _ _ _ _ _ _ _ _ _ _ _ E). cbv zeta.
      change (0 <? slen EmptyString) with false. cbn [andb].
      destruct (Atoi ty) as [t|]; cbn [FindMissingFiles.filename].
      * reflexivity.
      * destruct (_ && _); reflexivity.
  - destruct (prefilter_reject filter line Hpre) as [-> _].
    destruct (prefilter_reject EmptyString line Hpre) as [-> _]. reflexivity.
Qed.

Section Counting.

Import IndexFormat.

Variable ToLower : string -> string.
Variable filemap : gmap string Z.
Variable filter : string.
Variable caseSensitive : bool.

Local Abbreviation zero := (FindMissingFiles.mkCounters 0 0).

(** What one line adds to the two counts does not depend on the counts. *)
Lemma processLine_shift st line :
  FindMissingFiles.processLine ToLower filemap filter caseSensitive st line
  = c ← FindMissingFiles.processLine ToLower filemap filter caseSensitive zero line;
    mret (addCounters st c).
Proof.
  unfold FindMissingFiles.processLine, addCounters.
  destruct (FindMissingFiles.scanLine filter line) as [[r|]|];
    cbn [mbind go_bind bind mret go_ret FindMissingFiles.fileCount
         FindMissingFiles.missingCount].
  - unfold FindMissingFiles.checkRecord.
    destruct (FindMissingFiles.versionedFilePath r) as [path|];
      cbn [mbind go_bind bind mret go_ret FindMissingFiles.fileCount
           FindMissingFiles.missingCount]; [|reflexivity].
    destruct (negb _); [destruct (negb _)|]; f_equal; f_equal; lia.
  - destruct st as [fc mc].
    cbn [FindMissingFiles.fileCount FindMissingFiles.missingCount].
    rewrite !Z.add_0_r. reflexivity.
  - reflexivity.
Qed.

Lemma addCounters_assoc a b c :
  addCounters (addCounters a b) c = addCounters a (addCounters b c).
Proof. unfold addCounters. cbn. f_equal; lia. Qed.

Lemma addCounters_zero a : addCounters a zero = a.
Proof. destruct a. unfold addCounters. cbn. f_equal; lia. Qed.

Lemma processLines_shift lines : forall st,
  FindMissingFiles.processLines ToLower filemap filter caseSensitive lines st
  = c ← FindMissingFiles.processLines ToLower filemap filter caseSensitive lines zero;
    mret (addCounters st c).
Proof.
  induction lines as [|line lines IH]; intros st.
  - cbn. rewrite addCounters_zero. reflexivity.
  - cbn [FindMissingFiles.processLines].
    rewrite (processLine_shift st line).
    destruct (FindMissingFiles.processLine ToLower filemap filter caseSensitive
                zero line) as [c|]; cbn [mbind go_bind bind mret go_ret]; [|reflexivity].
    rewrite (IH (addCounters st c)), (IH c).
    destruct (FindMissingFiles.processLines ToLower filemap filter caseSensitive
                lines zero) as [c'|]; cbn [mbind go_bind bind mret go_ret];
      [|reflexivity].
    rewrite addCounters_assoc. reflexivity.
Qed.

Lemma processLines_app lines lines' : forall st,
  FindMissingFiles.processLines ToLower filemap filter caseSensitive
    (lines ++ lines') st
  = st' ← FindMissingFiles.processLines ToLower filemap filter caseSensitive lines st;
    FindMissingFiles.processLines ToLower filemap filter caseSensitive lines' st'.
Proof.
  induction lines as [|line lines IH]; intros st; [reflexivity|].
  cbn [app FindMissingFiles.processLines].
  destruct (FindMissingFiles.processLine ToLower filemap filter caseSensitive st line)
    as [st1|]; cbn [mbind go_bind bind]; [apply IH | reflexivity].
Qed.

(** One line adds at most one to the count of records, and to the count of
    missing records no more than to the count of records. *)
Lemma processLine_counts st line st' :
  FindMissingFiles.processLine ToLower filemap filter caseSensitive st line = Ret st' ->
  0 <= FindMissingFiles.missingCount st' - FindMissingFiles.missingCount st
    <= FindMissingFiles.fileCount st' - FindMissingFiles.fileCount st
  /\ FindMissingFiles.fileCount st' - FindMissingFiles.fileCount st <= 1.
Proof.
  unfold FindMissingFiles.processLine.
  destruct (FindMissingFiles.scanLine filter line) as [[r|]|];
    cbn [mbind go_bind bind mret go_ret]; [| |discriminate].
  - unfold FindMissingFiles.checkRecord.
    destruct (FindMissingFiles.versionedFilePath r) as [path|];
      cbn [mbind go_bind bind mret go_ret]; [|discriminate].
    intros H. injection H as <-.
    cbn [FindMissingFiles.fileCount FindMissingFiles.missingCount].
    destruct (negb _); [destruct (negb _)|]; lia.
  - intros H. injection H as <-. lia.
Qed.

Lemma processLines_counts lines : forall st st',
  FindMissingFiles.processLines ToLower filemap filter caseSensitive lines st = Ret st' ->
  0 <= FindMissingFiles.missingCount st' - FindMissingFiles.missingCount st
    <= FindMissingFiles.fileCount st' - FindMissingFiles.fileCount st
  /\ FindMissingFiles.fileCount st' - FindMissingFiles.fileCount st <= len lines.
Proof.
  induction lines as [|line lines IH]; intros st st'.
  - cbn. intros H. injection H as <-. unfold len. cbn. lia.
  - cbn [FindMissingFiles.processLines].
    destruct (FindMissingFiles.processLine ToLower filemap filter caseSensitive st line)
      as [st1|] eqn:E1; cbn [mbind go_bind bind]; [|discriminate].
    intros H. apply IH in H. apply processLine_counts in E1.
    rewrite len_cons. lia.
Qed.

End Counting.

(** X9.  When the verification of a journal returns, the counts it logs
    satisfy [0 <= missing <= processed <= number of lines]. *)
Theorem logged_counts_bounds (ToLower : string -> string)
    (disk : FindMissingFiles.Disk) (journalPath : string)
    (filemap : gmap string Z) (filter : string) (caseSensitive : bool)
    (lines : list string) (st : FindMissingFiles.Counters) :
  FindMissingFiles.openLines disk journalPath = Some lines ->
  FindMissingFiles.processDbStorageEntries ToLower disk journalPath filemap
    filter caseSensitive = Ret (inr st) ->
  0 <= FindMissingFiles.missingCount st <= FindMissingFiles.fileCount st
  /\ FindMissingFiles.fileCount st <= len lines.
Proof.
  intros Hopen. unfold FindMissingFiles.processDbStorageEntries. rewrite Hopen.
  destruct (FindMissingFiles.processLines ToLower filemap filter caseSensitive lines
              (FindMissingFiles.mkCounters 0 0)) as [st0|] eqn:E;
    cbn [mbind go_bind bind mret go_ret]; [|discriminate].
  intros H. injection H as <-.
  apply processLines_counts in E.
  cbn [FindMissingFiles.fileCount FindMissingFiles.missingCount] in E. lia.
Qed.

(** The journal of the samples whose file names are in lower case, read
    with case sensitivity on: two records, one missing. *)
Lemma logged_counts_bounds_witness :
  let st := FindMissingFiles.mkCounters 2 1 in
  0 <= FindMissingFiles.missingCount st <= FindMissingFiles.fileCount st
  /\ FindMissingFiles.fileCount st
     <= len [ journalLine (Samples.binaryEntry "//a.bin" "@1.1@");
              journalLine (Samples.entry "//r.txt" "@1.1@") ].
Proof.
  refine (logged_counts_bounds Samples.lowerASCII Samples.lowerCaseJournal "journal"
    (FindMissingFiles.listVersionedFiles Samples.lowerASCII Samples.unixJoin "/"
       Samples.lowerCaseJournal "/depot" EmptyString true).1
    EmptyString true
    [ journalLine (Samples.binaryEntry "//a.bin" "@1.1@");
      journalLine (Samples.entry "//r.txt" "@1.1@") ]
    (FindMissingFiles.mkCounters 2 1) _ _).
  - reflexivity.
  - vm_compute. reflexivity.
Defined.

(** Dropping the lines that fail the pre-filters changes nothing to what
    the verification loop returns. *)
Lemma processLines_other_lines (ToLower : string -> string)
    (filemap : gmap string Z) (filter : string) (caseSensitive : bool)
    (lines : list string) (st : FindMissingFiles.Counters) :
  FindMissingFiles.processLines ToLower filemap filter caseSensitive
    (List.filter passesPreFilters lines) st
  = FindMissingFiles.processLines ToLower filemap filter caseSensitive lines st.
Proof.
  revert st. induction lines as [|line lines IH]; intros st; [reflexivity|].
  cbn [List.filter]. destruct (passesPreFilters line) eqn:Hpre.
  - cbn [FindMissingFiles.processLines].
    destruct (FindMissingFiles.processLine ToLower filemap filter caseSensitive st line);
      cbn [mbind go_bind bind]; [apply IH | reflexivity].
  - rewrite IH. cbn [FindMissingFiles.processLines].
    unfold FindMissingFiles.processLine.
    destruct (prefilter_reject filter line Hpre) as [-> _]. reflexivity.
Qed.

(** The counts of two lists of lines add up. *)
Lemma processLines_add (ToLower : string -> string)
    (filemap : gmap string Z) (filter : string) (caseSensitive : bool)
    (lines lines' : list string) (c c' : FindMissingFiles.Counters) :
  FindMissingFiles.processLines ToLower filemap filter caseSensitive lines
    (FindMissingFiles.mkCounters 0 0) = Ret c ->
  FindMissingFiles.processLines ToLower filemap filter caseSensitive lines'
    (FindMissingFiles.mkCounters 0 0) = Ret c' ->
  FindMissingFiles.processLines ToLower filemap filter caseSensitive
    (lines ++ lines') (FindMissingFiles.mkCounters 0 0)
  = Ret (IndexFormat.addCounters c c').
Proof.
  intros H H'. rewrite processLines_app, H. cbn [mbind go_bind bind].
  rewrite processLines_shift, H'. reflexivity.
Qed.

Lemma view_processDbStorageEntries (ToLower : string -> string)
    (fs : OnDisk.Files) (journalPath bytes : string) (filemap : gmap string Z)
    (filter : string) (caseSensitive : bool) :
  OnDisk.content fs journalPath = Some bytes ->
  TextFormat.withinLimit bytes ->
  FindMissingFiles.processDbStorageEntries ToLower (OnDisk.view fs) journalPath
    filemap filter caseSensitive
  = (st ← FindMissingFiles.processLines ToLower filemap filter caseSensitive
            (TextFormat.linesOf bytes) (FindMissingFiles.mkCounters 0 0);
     mret (inr st)).
Proof.
  intros Hopen Hlimit. unfold FindMissingFiles.processDbStorageEntries.
  rewrite (view_openLines fs journalPath bytes Hopen Hlimit). reflexivity.
Qed.

(** X10.  Lines that are not [db.storage] entries do not count: for two
    journals whose lines are each shorter than 64 KiB, the lines of the
    second being the lines of the first that pass the three pre-filters,
    in the same order, the verification returns the same for both, counts
    or panic. *)
Theorem verification_ignores_other_lines (ToLower : string -> string)
    (fs : OnDisk.Files) (journalPath journalPath' bytes bytes' : string)
    (filemap : gmap string Z) (filter : string) (caseSensitive : bool) :
  OnDisk.content fs journalPath = Some bytes ->
  OnDisk.content fs journalPath' = Some bytes' ->
  TextFormat.withinLimit bytes ->
  TextFormat.withinLimit bytes' ->
  TextFormat.linesOf bytes' = List.filter passesPreFilters (TextFormat.linesOf bytes) ->
  FindMissingFiles.processDbStorageEntries ToLower (OnDisk.view fs) journalPath'
    filemap filter caseSensitive
  = FindMissingFiles.processDbStorageEntries ToLower (OnDisk.view fs) journalPath
      filemap filter caseSensitive.
Proof.
  intros Hopen Hopen' Hlimit Hlimit' Hlines.
  rewrite (view_processDbStorageEntries ToLower fs journalPath bytes _ _ _ Hopen Hlimit).
  rewrite (view_processDbStorageEntries ToLower fs journalPath' bytes' _ _ _
             Hopen' Hlimit').
  rewrite Hlines, processLines_other_lines. reflexivity.
Qed.

(** The journal of three lines of the samples and its two [db.storage]
    lines. *)
Lemma verification_ignores_other_lines_witness :
  FindMissingFiles.processDbStorageEntries Samples.lowerASCII
    (OnDisk.view FileSamples.twoJournals) "journal.storage" ∅ EmptyString false
  = FindMissingFiles.processDbStorageEntries Samples.lowerASCII
      (OnDisk.view FileSamples.twoJournals) "journal" ∅ EmptyString false.
Proof.
  refine (verification_ignores_other_lines Samples.lowerASCII FileSamples.twoJournals
    "journal" "journal.storage" (TextFormat.unlines FileSamples.mixedJournal)
    (TextFormat.unlines FileSamples.storageLines) ∅ EmptyString false _ _ _ _ _).
  - reflexivity.
  - reflexivity.
  - apply withinLimit_check. vm_compute. reflexivity.
  - apply withinLimit_check. vm_compute. reflexivity.
  - vm_compute. reflexivity.
Defined.

(** X11.  Counts add up over the parts of a journal: for three journals
    whose lines are each shorter than 64 KiB, the lines of the third being
    the lines of the first followed by the lines of the second, when the
    verification of the first and of the second returns, the verification
    of the third returns the sums of the two pairs of counts. *)
Theorem counts_add_up (ToLower : string -> string) (fs : OnDisk.Files)
    (path1 path2 path12 bytes1 bytes2 bytes12 : string)
    (filemap : gmap string Z) (filter : string) (caseSensitive : bool)
    (c1 c2 : FindMissingFiles.Counters) :
  OnDisk.content fs path1 = Some bytes1 ->
  OnDisk.content fs path2 = Some bytes2 ->
  OnDisk.content fs path12 = Some bytes12 ->
  TextFormat.withinLimit bytes1 ->
  TextFormat.withinLimit bytes2 ->
  TextFormat.withinLimit bytes12 ->
  TextFormat.linesOf bytes12 = TextFormat.linesOf bytes1 ++ TextFormat.linesOf bytes2 ->
  FindMissingFiles.processDbStorageEntries ToLower (OnDisk.view fs) path1
    filemap filter caseSensitive = Ret (inr c1) ->
  FindMissingFiles.processDbStorageEntries ToLower (OnDisk.view fs) path2
    filemap filter caseSensitive = Ret (inr c2) ->
  FindMissingFiles.processDbStorageEntries ToLower (OnDisk.view fs) path12
    filemap filter caseSensitive
  = Ret (inr (IndexFormat.addCounters c1 c2)).
Proof.
  intros Hopen1 Hopen2 Hopen12 Hlimit1 Hlimit2 Hlimit12 Hlines.
  rewrite (view_processDbStorageEntries ToLower fs path1 bytes1 _ _ _ Hopen1 Hlimit1).
  rewrite (view_processDbStorageEntries ToLower fs path2 bytes2 _ _ _ Hopen2 Hlimit2).
  rewrite (view_processDbStorageEntries ToLower fs path12 bytes12 _ _ _
             Hopen12 Hlimit12).
  rewrite Hlines.
  destruct (FindMissingFiles.processLines ToLower filemap filter caseSensitive
              (TextFormat.linesOf bytes1) (FindMissingFiles.mkCounters 0 0))
    as [st1|] eqn:E1; cbn [mbind go_bind bind mret go_ret]; [|discriminate].
  destruct (FindMissingFiles.processLines ToLower filemap filter caseSensitive
              (TextFormat.linesOf bytes2) (FindMissingFiles.mkCounters 0 0))
    as [st2|] eqn:E2; cbn [mbind go_bind bind mret go_ret]; [|discriminate].
  intros H1 H2. injection H1 as <-. injection H2 as <-.
  rewrite (processLines_add ToLower filemap filter caseSensitive _ _ st1 st2 E1 E2).
  reflexivity.
Qed.

(** Two journals of one record each, the second one missing, and the
    journal made of the two. *)
Lemma counts_add_up_witness :
  FindMissingFiles.processDbStorageEntries Samples.lowerASCII
    (OnDisk.view FileSamples.splitJournal) "journal"
    (FindMissingFiles.listVersionedFiles Samples.lowerASCII Samples.unixJoin "/"
       Samples.healthyDepot "/depot" EmptyString true).1
    EmptyString true
  = Ret (inr (IndexFormat.addCounters (FindMissingFiles.mkCounters 1 0)
                (FindMissingFiles.mkCounters 1 1))).
Proof.
  refine (counts_add_up Samples.lowerASCII FileSamples.splitJournal
    "journal.1" "journal.2" "journal"
    (TextFormat.unlines [journalLine (Samples.entry "//r.txt" "@1.1@")])
    (TextFormat.unlines [journalLine (Samples.entry "//r.txt" "@1.2@")])
    (TextFormat.unlines [journalLine (Samples.entry "//r.txt" "@1.1@");
                         journalLine (Samples.entry "//r.txt" "@1.2@")])
    _ EmptyString true
    (FindMissingFiles.mkCounters 1 0) (FindMissingFiles.mkCounters 1 1)
    _ _ _ _ _ _ _ _ _).
  - reflexivity.
  - reflexivity.
  - reflexivity.
  - apply withinLimit_check. vm_compute. reflexivity.
  - apply withinLimit_check. vm_compute. reflexivity.
  - apply withinLimit_check. vm_compute. reflexivity.
  - vm_compute. reflexivity.
  - vm_compute. reflexivity.
  - vm_compute. reflexivity.
Defined.

(** X12.  When [main] returns, its exit status is 0 exactly when it was
    given two arguments or more and the journal could be opened, and 1
    otherwise: neither missing files nor a failure of the index build
    shows in the exit status. *)
Theorem exit_status (ToLower : string -> string)
    (filepath_Join : string -> string -> string) (Separator : ascii)
    (disk : FindMissingFiles.Disk) (args : list string)
    (caseSensitive : bool) (filter : string) (report : FindMissingFiles.Report) :
  FindMissingFiles.main ToLower filepath_Join Separator disk args caseSensitive
    filter = Ret report ->
  (FindMissingFiles.exitCode report = 0 \/ FindMissingFiles.exitCode report = 1)
  /\ (FindMissingFiles.exitCode report = 0
      <-> 2 <= len args
          /\ FindMissingFiles.openLines disk (nth 0 args EmptyString) <> None)
  /\ (FindMissingFiles.exitCode report = 0
      <-> FindMissingFiles.logged report <> None).
Proof.
  unfold FindMissingFiles.main.
  destruct (Z.ltb_spec (len args) 2) as [Hlen|Hlen].
  - intros H. injection H as <-. cbn. split; [auto|]. split; split; try lia;
      try discriminate; try tauto.
  - destruct (FindMissingFiles.listVersionedFiles _ _ _ _ _ _ _) as [filemap err].
    unfold FindMissingFiles.processDbStorageEntries.
    destruct (FindMissingFiles.openLines disk (nth 0 args EmptyString)) as [lines|].
    + destruct (FindMissingFiles.processLines _ _ _ _ _ _) as [st|];
        cbn [mbind go_bind bind mret go_ret]; [|discriminate].
      intros H. injection H as <-. cbn. split; [auto|].
      split; split; intros _; try reflexivity; try discriminate.
      split; [exact Hlen | discriminate].
    + cbn [mbind go_bind bind mret go_ret]. intros H. injection H as <-. cbn.
      split; [auto|]. split; split; try discriminate; tauto.
Qed.

(** A run that reports one of its two records missing ends with status 0. *)
Lemma exit_status_witness :
  let report := FindMissingFiles.mkReport 0 (Some (FindMissingFiles.mkCounters 2 1)) in
  (FindMissingFiles.exitCode report = 0 \/ FindMissingFiles.exitCode report = 1)
  /\ (FindMissingFiles.exitCode report = 0
      <-> 2 <= len ["journal"; "/depot"]%string
          /\ FindMissingFiles.openLines Samples.lowerCaseJournal
               (nth 0 ["journal"; "/depot"]%string EmptyString) <> None)
  /\ (FindMissingFiles.exitCode report = 0
      <-> FindMissingFiles.logged report <> None).
Proof.
  apply (exit_status Samples.lowerASCII Samples.unixJoin "/"
           Samples.lowerCaseJournal ["journal"; "/depot"]%string true EmptyString).
  vm_compute. reflexivity.
Defined.

(** ** Normalized paths *)

Section Normalize.

Lemma prefix_append d x : String.prefix d (d +:+ x) = true.
Proof.
  induction d as [|c d IH]; [destruct x; reflexivity|].
  change (String c d +:+ x) with (String c (d +:+ x)). cbn [String.prefix].
  destruct (ascii_dec c c); [exact IH | contradiction].
Qed.

Lemma RemoveFirst_unfold s old :
  RemoveFirst s old
  = if String.prefix old s
    then String.substring (String.length old) (String.length s - String.length old) s
    else match s with
         | EmptyString => EmptyString
         | String a rest => String a (RemoveFirst rest old)
         end.
Proof. destruct s; reflexivity. Qed.

(** Removing the first occurrence of a string from what starts with it
    leaves the rest. *)
Lemma RemoveFirst_prefix d x : RemoveFirst (d +:+ x) d = x.
Proof.
  rewrite RemoveFirst_unfold, prefix_append, length_append.
  replace (String.length d + String.length x - String.length d)%nat
    with (String.length x) by lia.
  rewrite substring_skip. apply substring_all.
Qed.

Lemma ReplaceAll_back s :
  ReplaceAll s "\" "/" = s -> ReplaceAll (ReplaceAll s "/" "\") "\" "/" = s.
Proof.
  induction s as [|a s IH]; [reflexivity|]. cbn [ReplaceAll].
  intros H. injection H as Ha Hs. rewrite (IH Hs). f_equal.
  destruct (Ascii.eqb_spec a "/") as [->|_]; [reflexivity|].
  exact Ha.
Qed.

Lemma Trim_cons c s : Trim (String c s) c = Trim s c.
Proof. unfold Trim. cbn [TrimLeft]. rewrite Ascii.eqb_refl. reflexivity. Qed.

End Normalize.

(** X13.  A file met under the depot root gets the same depot-absolute
    path whether the operating system separates path elements with [/] or
    with a backslash: for a relative path [rel] written with [/], without
    backslash and without [/] at either end, both [depotPath/rel] and
    [depotPath\rel'], [rel'] being [rel] written with backslashes, are
    normalized to [//rel]. *)
Theorem normalize_under_root (depotPath rel : string) :
  ReplaceAll rel "\" "/" = rel ->
  Trim rel "/" = rel ->
  FindMissingFiles.normalize depotPath (depotPath +:+ "/" +:+ rel) = "//" +:+ rel
  /\ FindMissingFiles.normalize depotPath
       (depotPath +:+ "\" +:+ ReplaceAll rel "/" "\") = "//" +:+ rel.
Proof.
  intros Hback Htrim. unfold FindMissingFiles.normalize.
  rewrite !RemoveFirst_prefix. split.
  - change ("/" +:+ rel) with (String "/" rel). cbn [ReplaceAll].
    rewrite Hback. change (if Ascii.eqb "/" "\" then "/"%char else "/"%char)
      with "/"%char.
    rewrite Trim_cons, Htrim. reflexivity.
  - change ("\" +:+ ReplaceAll rel "/" "\") with (String "\" (ReplaceAll rel "/" "\")).
    cbn [ReplaceAll]. rewrite (ReplaceAll_back rel Hback).
    change (if Ascii.eqb "\" "\" then "/"%char else "\"%char) with "/"%char.
    rewrite Trim_cons, Htrim. reflexivity.
Qed.

(** A revision file of a binary file, two directories down. *)
Lemma normalize_under_root_witness :
  FindMissingFiles.normalize "C:\p4root"
    ("C:\p4root" +:+ "/" +:+ "depot/path1/data1.dat,d/1.2.gz")
  = "//" +:+ "depot/path1/data1.dat,d/1.2.gz"
  /\ FindMissingFiles.normalize "C:\p4root"
       ("C:\p4root" +:+ "\" +:+ ReplaceAll "depot/path1/data1.dat,d/1.2.gz" "/" "\")
     = "//" +:+ "depot/path1/data1.dat,d/1.2.gz".
Proof.
  apply normalize_under_root; reflexivity.
Defined.

(** ** The CSV export *)

Section CsvRows.

Import CsvOutput.

(** On a line that does not make the slice expression panic, the loop body
    of the CSV tool returns. *)
Lemma Csv_processLine_returns line :
  (passesPreFilters line = true -> 12 <= len (Split line " ")) ->
  StorageToCsv.processLine line = Ret (acceptedRow line).
Proof.
  intros Hlong. unfold acceptedRow.
  destruct (passesPreFilters line) eqn:Hpre.
  - destruct (long_line_layout line Hpre (Hlong eq_refl))
      as (b & P & rev & ty & rc & dg & sz & ssz & ck & dt & last & E).
    rewrite (Csv_processLine_layout _ _ _ _ _ _ _ _ _ _ _ _ E).
    destruct (ParseUint ty), (Atoi rc), (ParseInt sz), (ParseInt ssz), (Atoi dt);
      reflexivity.
  - destruct (prefilter_reject EmptyString line Hpre) as [_ ->]. reflexivity.
Qed.

Lemma scanLines_rows lines : forall rows fileCount,
  Forall (fun line => passesPreFilters line = true -> 12 <= len (Split line " "))
    lines ->
  StorageToCsv.scanLines lines rows fileCount
  = Ret (rev (omap acceptedRow lines) ++ rows,
         fileCount + len (omap acceptedRow lines)).
Proof.
  induction lines as [|line lines IH]; intros rows fileCount Hall.
  - cbn. unfold len. cbn. rewrite Z.add_0_r. reflexivity.
  - apply Forall_cons_1 in Hall as [Hline Hall].
    cbn [StorageToCsv.scanLines]. rewrite (Csv_processLine_returns line Hline).
    cbn [mbind go_bind bind]. cbn [omap list_omap].
    destruct (acceptedRow line) as [row|].
    + rewrite (IH _ _ Hall). cbn [rev]. rewrite <- app_assoc, len_cons.
      cbn [app]. do 2 f_equal. lia.
    + apply (IH _ _ Hall).
Qed.

Lemma scanLines_other_lines lines : forall rows fileCount,
  StorageToCsv.scanLines (List.filter passesPreFilters lines) rows fileCount
  = StorageToCsv.scanLines lines rows fileCount.
Proof.
  induction lines as [|line lines IH]; intros rows fileCount; [reflexivity|].
  cbn [List.filter]. destruct (passesPreFilters line) eqn:Hpre.
  - cbn [StorageToCsv.scanLines].
    destruct (StorageToCsv.processLine line) as [[row|]|];
      cbn [mbind go_bind bind]; [apply IH | apply IH | reflexivity].
  - rewrite IH. cbn [StorageToCsv.scanLines].
    destruct (prefilter_reject EmptyString line Hpre) as [_ ->]. reflexivity.
Qed.

End CsvRows.

Lemma exportJournal_lines (fs : OnDisk.Files) (journalPath bytes : string) :
  OnDisk.content fs journalPath = Some bytes ->
  TextFormat.withinLimit bytes ->
  OnDisk.exportJournal fs journalPath
  = StorageToCsv.processDbStorageEntries (Some (TextFormat.linesOf bytes)).
Proof.
  intros Hopen Hlimit. unfold OnDisk.exportJournal, OnDisk.scan.
  rewrite Hopen, (scannerLines_within bytes Hlimit). reflexivity.
Qed.

(** X14.  On a journal whose lines are each shorter than 64 KiB and none of
    whose lines passes the pre-filters with fewer than twelve tokens, the
    CSV export returns: it hands to the writer the rows of the lines it
    accepts, one row per accepted line in the order of the journal, and
    the count it logs is the number of rows. *)
Theorem csv_rows_in_order (fs : OnDisk.Files) (journalPath bytes : string) :
  OnDisk.content fs journalPath = Some bytes ->
  TextFormat.withinLimit bytes ->
  Forall (fun line => passesPreFilters line = true -> 12 <= len (Split line " "))
    (TextFormat.linesOf bytes) ->
  OnDisk.exportJournal fs journalPath
  = Ret (Some (omap CsvOutput.acceptedRow (TextFormat.linesOf bytes),
               len (omap CsvOutput.acceptedRow (TextFormat.linesOf bytes)))).
Proof.
  intros Hopen Hlimit Hall.
  rewrite (exportJournal_lines fs journalPath bytes Hopen Hlimit).
  unfold StorageToCsv.processDbStorageEntries.
  rewrite (scanLines_rows _ [] 0 Hall). cbn [mbind go_bind bind mret go_ret].
  rewrite app_nil_r, rev_involutive. reflexivity.
Qed.

(** The journal of three lines of the samples: an entry, a line of another
    table, an entry whose size is not a number. *)
Lemma csv_rows_in_order_witness :
  OnDisk.exportJournal FileSamples.twoJournals "journal"
  = Ret (Some (omap CsvOutput.acceptedRow
                 (TextFormat.linesOf (TextFormat.unlines FileSamples.mixedJournal)),
               len (omap CsvOutput.acceptedRow
                 (TextFormat.linesOf (TextFormat.unlines FileSamples.mixedJournal))))).
Proof.
  apply csv_rows_in_order.
  - reflexivity.
  - apply withinLimit_check. vm_compute. reflexivity.
  - replace (TextFormat.linesOf (TextFormat.unlines FileSamples.mixedJournal))
      with FileSamples.mixedJournal by (vm_compute; reflexivity).
    constructor; [intros _; vm_compute; discriminate|].
    constructor; [intros H; vm_compute in H; discriminate|].
    constructor; [intros _; vm_compute; discriminate|].
    constructor.
Defined.

(** X15.  The CSV export of a journal is the CSV export of its
    [db.storage] lines: for two journals whose lines are each shorter than
    64 KiB, the lines of the second being the lines of the first that pass
    the three pre-filters, in the same order, the export returns the same
    for both, rows and count or panic. *)
Theorem csv_ignores_other_lines (fs : OnDisk.Files)
    (journalPath journalPath' bytes bytes' : string) :
  OnDisk.content fs journalPath = Some bytes ->
  OnDisk.content fs journalPath' = Some bytes' ->
  TextFormat.withinLimit bytes ->
  TextFormat.withinLimit bytes' ->
  TextFormat.linesOf bytes' = List.filter passesPreFilters (TextFormat.linesOf bytes) ->
  OnDisk.exportJournal fs journalPath' = OnDisk.exportJournal fs journalPath.
Proof.
  intros Hopen Hopen' Hlimit Hlimit' Hlines.
  rewrite (exportJournal_lines fs journalPath bytes Hopen Hlimit).
  rewrite (exportJournal_lines fs journalPath' bytes' Hopen' Hlimit').
  rewrite Hlines. unfold StorageToCsv.processDbStorageEntries.
  rewrite scanLines_other_lines. reflexivity.
Qed.

(** The journal of three lines of the samples and its two [db.storage]
    lines. *)
Lemma csv_ignores_other_lines_witness :
  OnDisk.exportJournal FileSamples.twoJournals "journal.storage"
  = OnDisk.exportJournal FileSamples.twoJournals "journal".
Proof.
  refine (csv_ignores_other_lines FileSamples.twoJournals
    "journal" "journal.storage" (TextFormat.unlines FileSamples.mixedJournal)
    (TextFormat.unlines FileSamples.storageLines) _ _ _ _ _).
  - reflexivity.
  - reflexivity.
  - apply withinLimit_check. vm_compute. reflexivity.
  - apply withinLimit_check. vm_compute. reflexivity.
  - vm_compute. reflexivity.
Defined.

(** X16.  The five sub-fields keep the bits of the file type that lie in
    [0x17F0FFF], the union of the five masks, and no other: packing the
    decoded sub-fields again gives the file type masked with [0x17F0FFF],
    and two file types that agree on those bits decode alike. *)
Theorem decoded_bits (fileType : Z) :
  FileTypeCodec.encodeFileType (StorageToCsv.decodeFileType fileType)
  = Z.land fileType 0x17F0FFF
  /\ StorageToCsv.decodeFileType (Z.land fileType 0x17F0FFF)
     = StorageToCsv.decodeFileType fileType.
Proof.
  unfold FileTypeCodec.encodeFileType, StorageToCsv.decodeFileType.
  cbn [StorageToCsv.serverFileType StorageToCsv.serverFileTypeModifier
       StorageToCsv.revisionsNumber StorageToCsv.clientFileType
       StorageToCsv.clientFileTypeModifier].
  split.
  - rewrite <- !Z.land_lor_distr_r. reflexivity.
  - rewrite <- !Z.land_assoc. reflexivity.
Qed.

(** ** Printing and parsing numbers *)

Section Numbers.

Lemma digit_range c d : digit c = Some d -> 0 <= d <= 9.
Proof.
  unfold digit. cbv zeta. intros Hd.
  destruct (_ && _) eqn:E; [|discriminate]. injection Hd as <-.
  apply andb_prop in E as [E1 E2]. apply Z.leb_le in E1, E2. lia.
Qed.

Lemma digits_nonneg s : forall acc v, digits s acc = Some v -> 0 <= acc -> 0 <= v.
Proof.
  induction s as [|c s IH]; intros acc v; cbn [digits].
  - intros H. injection H as <-. auto.
  - destruct (digit c) as [d|] eqn:Hd; [|discriminate].
    intros H Hacc. apply (IH _ _ H). apply digit_range in Hd. lia.
Qed.

Lemma ParseUint_range s n : ParseUint s = Some n -> 0 <= n < 2 ^ 64.
Proof.
  unfold ParseUint. destruct s as [|c s]; [discriminate|].
  destruct (digits (String c s) 0) as [v|] eqn:E; [|discriminate].
  destruct (Z.ltb_spec v (2 ^ 64)) as [Hv|_]; [|discriminate].
  intros Hn. injection Hn as <-. split; [|assumption].
  apply (digits_nonneg _ _ _ E). lia.
Qed.

(** What the signed parser accepts fits a signed 64-bit integer. *)
Lemma ParseInt_range s v : ParseInt s = Some v -> - 2 ^ 63 <= v < 2 ^ 63.
Proof.
  unfold ParseInt. destruct s as [|c s]; [discriminate|]. cbv zeta.
  destruct (ParseUint _) as [un|] eqn:E; [|discriminate].
  apply ParseUint_range in E.
  destruct (Ascii.eqb c "-").
  - destruct (Z.leb_spec un (2 ^ 63)) as [Hun|_]; [|discriminate].
    intros Hv. injection Hv as <-. lia.
  - destruct (Z.ltb_spec un (2 ^ 63)) as [Hun|_]; [|discriminate].
    intros Hv. injection Hv as <-. lia.
Qed.

Lemma digits_snoc s c : forall acc,
  digits (s +:+ String c EmptyString) acc
  = match digits s acc with
    | Some a => match digit c with
                | Some d => Some (a * 10 + d)
                | None => None
                end
    | None => None
    end.
Proof.
  induction s as [|x s IH]; intros acc.
  - change (EmptyString +:+ String c EmptyString) with (String c EmptyString).
    cbn [digits]. destruct (digit c); reflexivity.
  - change (String x s +:+ String c EmptyString)
      with (String x (s +:+ String c EmptyString)).
    cbn [digits]. destruct (digit x); [apply IH | reflexivity].
Qed.

Lemma digit_digitChar d : 0 <= d <= 9 -> digit (digitChar d) = Some d.
Proof.
  intros H.
  assert (d = 0 \/ d = 1 \/ d = 2 \/ d = 3 \/ d = 4 \/ d = 5 \/ d = 6 \/ d = 7
          \/ d = 8 \/ d = 9) as Hd by lia.
  repeat (destruct Hd as [->|Hd]; [reflexivity|]). subst d. reflexivity.
Qed.

(** The decimal digits printed for an unsigned value read back as that
    value. *)
Lemma digits_formatBits fuel : forall u,
  0 <= u < 2 ^ Z.of_nat fuel -> digits (formatBits fuel u 10) 0 = Some u.
Proof.
  induction fuel as [|fuel IH]; intros u Hu.
  - change (2 ^ Z.of_nat 0) with 1 in Hu. assert (u = 0) as -> by lia. reflexivity.
  - cbn [formatBits]. destruct (Z.leb_spec 10 u) as [Hbig|Hsmall].
    + rewrite digits_snoc, IH.
      * pose proof (Z.mod_pos_bound u 10 ltac:(lia)) as Hmod.
        rewrite digit_digitChar by lia.
        f_equal. pose proof (Z.div_mod u 10 ltac:(lia)). lia.
      * rewrite Nat2Z.inj_succ, Z.pow_succ_r in Hu by lia.
        split; [apply Z.div_pos; lia|].
        apply Z.div_lt_upper_bound; lia.
    + cbn [digits]. rewrite digit_digitChar by lia. reflexivity.
Qed.

Lemma formatBits_head fuel u base :
  exists c rest, formatBits fuel u base = String c rest.
Proof.
  revert u. induction fuel as [|fuel IH]; intros u; cbn [formatBits]; [eauto|].
  destruct (base <=? u); [|eauto].
  destruct (IH (u / base)) as (c & rest & ->). eauto.
Qed.

Lemma ParseUint_FormatUint u :
  0 <= u < 2 ^ 64 -> ParseUint (FormatUint u 10) = Some u.
Proof.
  intros Hu. unfold FormatUint, ParseUint.
  pose proof (digits_formatBits 64 u Hu) as Hd.
  destruct (formatBits_head 64 u 10) as (c & rest & E). rewrite E in *.
  rewrite Hd. replace (u <? 2 ^ 64) with true by (symmetry; apply Z.ltb_lt; lia).
  reflexivity.
Qed.

(** A signed 64-bit value printed in base 10 parses back to itself. *)
Lemma ParseInt_FormatInt i :
  - 2 ^ 63 <= i < 2 ^ 63 -> ParseInt (FormatInt i 10) = Some i.
Proof.
  intros Hi. unfold FormatInt. destruct (Z.ltb_spec i 0) as [Hneg|Hpos].
  - unfold ParseInt. cbv zeta. change (Ascii.eqb "-" "-") with true.
    change (Ascii.eqb "-" "+") with false. cbn [orb].
    rewrite ParseUint_FormatUint by lia.
    replace (- i <=? 2 ^ 63) with true by (symmetry; apply Z.leb_le; lia).
    f_equal. lia.
  - pose proof (ParseUint_FormatUint i ltac:(lia)) as Hu.
    destruct (ParseUint_head _ _ Hu) as (c & rest & d & E & Hd).
    destruct (digit_not_sign c d Hd) as [Hp Hm].
    unfold ParseInt. rewrite E in *. cbv zeta. rewrite Hp, Hm. cbn [orb].
    rewrite Hu. replace (i <? 2 ^ 63) with true by (symmetry; apply Z.ltb_lt; lia).
    reflexivity.
Qed.

(** The numbers of a row are the values of the tokens of its line. *)
Lemma Csv_row_numbers line row :
  StorageToCsv.processLine line = Ret (Some row) ->
  exists ty rc sz ssz dt,
    ParseUint ty = Some (StorageToCsv.fileType row)
    /\ Atoi rc = Some (StorageToCsv.refCount row)
    /\ ParseInt sz = Some (StorageToCsv.size row)
    /\ ParseInt ssz = Some (StorageToCsv.serverSize row)
    /\ Atoi dt = Some (StorageToCsv.date row)
    /\ StorageToCsv.decoded row
       = StorageToCsv.decodeFileType (StorageToCsv.fileType row).
Proof.
  intros Hcsv.
  destruct (passesPreFilters line) eqn:Hpre;
    [|destruct (prefilter_reject EmptyString line Hpre) as [_ H];
      rewrite H in Hcsv; discriminate].
  destruct (Z.lt_ge_cases (len (Split line " ")) 12) as [Hlen|Hlen];
    [destruct (short_line_panics EmptyString line Hpre Hlen) as [_ H];
     rewrite H in Hcsv; discriminate|].
  destruct (long_line_layout line Hpre Hlen)
    as (b & P & rev & ty & rc & dg & sz & ssz & ck & dt & last & E).
  rewrite (Csv_processLine_layout _ _ _ _ _ _ _ _ _ _ _ _ E) in Hcsv.
  destruct (ParseUint ty) eqn:H1, (Atoi rc) eqn:H2, (ParseInt sz) eqn:H3,
    (ParseInt ssz) eqn:H4, (Atoi dt) eqn:H5; try discriminate.
  injection Hcsv as <-. exists ty, rc, sz, ssz, dt. cbn. auto 7.
Qed.

End Numbers.

(** X17.  The three decimal columns of an output record read back as the
    numbers the scanner parsed: for every line the CSV tool accepts, the
    [FileSize], [FileSizeOnServer] and [LastUpdateDate] fields of the
    record handed to the writer parse, as signed 64-bit decimals, to the
    size, the server size and the date of the row. *)
Theorem decimal_columns_read_back (line : string) (row : StorageToCsv.Row) :
  StorageToCsv.processLine line = Ret (Some row) ->
  let record := CsvOutput.formatRow row in
  ParseInt (nth 10 record EmptyString) = Some (StorageToCsv.size row)
  /\ ParseInt (nth 11 record EmptyString) = Some (StorageToCsv.serverSize row)
  /\ ParseInt (nth 13 record EmptyString) = Some (StorageToCsv.date row)
  /\ length record = length CsvOutput.header.
Proof.
  intros Hcsv. cbv zeta.
  destruct (Csv_row_numbers line row Hcsv)
    as (ty & rc & sz & ssz & dt & _ & _ & Hsz & Hssz & Hdt & _).
  unfold CsvOutput.formatRow. cbn [nth].
  apply ParseInt_range in Hsz, Hssz. apply ParseInt_range in Hdt.
  rewrite !ParseInt_FormatInt by assumption. auto.
Qed.

(** An entry of 100 bytes, dated 1610000000. *)
Lemma decimal_columns_read_back_witness :
  let row := StorageToCsv.mkRow "//depot/a b.txt" "@1.1@" 0
               (StorageToCsv.mkDecoded 0 0 0 0 0) 1 "ABC123" 100 100 "XYZ"
               1610000000 in
  let record := CsvOutput.formatRow row in
  ParseInt (nth 10 record EmptyString) = Some (StorageToCsv.size row)
  /\ ParseInt (nth 11 record EmptyString) = Some (StorageToCsv.serverSize row)
  /\ ParseInt (nth 13 record EmptyString) = Some (StorageToCsv.date row)
  /\ length record = length CsvOutput.header.
Proof.
  apply (decimal_columns_read_back
           (journalLine (Samples.entry "//depot/a b.txt" "@1.1@"))).
  vm_compute. reflexivity.
Defined.

(** ** What every record satisfies *)

Section Records.

Lemma TrimRight_idempotent s c : TrimRight (TrimRight s c) c = TrimRight s c.
Proof.
  induction s as [|a s IH]; [reflexivity|]. cbn [TrimRight].
  destruct (TrimRight s c) as [|b t] eqn:E.
  - destruct (Ascii.eqb a c) eqn:Ea; [reflexivity|].
    cbn [TrimRight]. rewrite Ea. reflexivity.
  - cbn [TrimRight]. cbn [TrimRight] in IH. rewrite IH. reflexivity.
Qed.

Lemma TrimLeft_head s c :
  TrimLeft s c = EmptyString
  \/ exists a rest, TrimLeft s c = String a rest /\ Ascii.eqb a c = false.
Proof.
  induction s as [|a s IH]; [left; reflexivity|]. cbn [TrimLeft].
  destruct (Ascii.eqb a c) eqn:Ea; [exact IH|]. right. eauto.
Qed.

Lemma TrimRight_head a rest c :
  Ascii.eqb a c = false -> exists rest', TrimRight (String a rest) c = String a rest'.
Proof.
  intros Ea. cbn [TrimRight]. rewrite Ea. destruct (TrimRight rest c); eauto.
Qed.

(** Trimming twice is trimming once. *)
Lemma Trim_idempotent s c : Trim (Trim s c) c = Trim s c.
Proof.
  unfold Trim. destruct (TrimLeft_head s c) as [->|(a & rest & -> & Ea)];
    [reflexivity|].
  destruct (TrimRight_head a rest c Ea) as (rest' & E). rewrite E.
  cbn [TrimLeft]. rewrite Ea, <- E. apply TrimRight_idempotent.
Qed.

Lemma land_15_range x : 0 <= Z.land x 0xF <= 15.
Proof.
  change (Z.land x 0xF) with (Z.land x (Z.ones 4)). rewrite Z.land_ones by lia.
  change (2 ^ 4) with 16. pose proof (Z.mod_pos_bound x 16 ltac:(lia)). lia.
Qed.

End Records.

(** X18.  The file name of every record, of either tool, is free of the
    journal's delimiter at both ends: trimming [@] from it again changes
    nothing. *)
Theorem record_filename_trimmed (filter line : string) :
  (forall r, FindMissingFiles.scanLine filter line = Ret (Some r) ->
             Trim (FindMissingFiles.filename r) "@" = FindMissingFiles.filename r)
  /\ (forall row, StorageToCsv.processLine line = Ret (Some row) ->
                  Trim (StorageToCsv.filename row) "@" = StorageToCsv.filename row).
Proof.
  destruct (passesPreFilters line) eqn:Hpre;
    [|destruct (prefilter_reject filter line Hpre) as [-> ->];
      split; intros ? H; discriminate].
  destruct (Z.lt_ge_cases (len (Split line " ")) 12) as [Hlen|Hlen];
    [destruct (short_line_panics filter line Hpre Hlen) as [-> ->];
     split; intros ? H; discriminate|].
  destruct (long_line_layout line Hpre Hlen)
    as (b & P & rev & ty & rc & dg & sz & ssz & ck & dt & last & E).
  rewrite (Fmf_scanLine_layout filter _ _ _ _ _ _ _ _ _ _ _ _ E).
  rewrite (Csv_processLine_layout _ _ _ _ _ _ _ _ _ _ _ _ E). cbv zeta.
  split.
  - intros r. destruct (_ && _); [discriminate|].
    destruct (Atoi ty); [|discriminate]. intros H. injection H as <-.
    apply Trim_idempotent.
  - intros row.
    destruct (ParseUint ty), (Atoi rc), (ParseInt sz), (ParseInt ssz), (Atoi dt);
      try discriminate.
    intros H. injection H as <-. apply Trim_idempotent.
Qed.

(** X19.  Every row of the CSV export holds numbers of the widths the
    program reads: a file type below [2^64], a reference count, sizes and
    a date that fit signed 64-bit integers, the five sub-fields decoded
    from that file type, and a server storage kind between 0 and 15. *)
Theorem csv_row_ranges (line : string) (row : StorageToCsv.Row) :
  StorageToCsv.processLine line = Ret (Some row) ->
  0 <= StorageToCsv.fileType row < 2 ^ 64
  /\ - 2 ^ 63 <= StorageToCsv.refCount row < 2 ^ 63
  /\ - 2 ^ 63 <= StorageToCsv.size row < 2 ^ 63
  /\ - 2 ^ 63 <= StorageToCsv.serverSize row < 2 ^ 63
  /\ - 2 ^ 63 <= StorageToCsv.date row < 2 ^ 63
  /\ StorageToCsv.decoded row
     = StorageToCsv.decodeFileType (StorageToCsv.fileType row)
  /\ 0 <= StorageToCsv.serverFileType (StorageToCsv.decoded row) <= 15.
Proof.
  intros Hcsv.
  destruct (Csv_row_numbers line row Hcsv)
    as (ty & rc & sz & ssz & dt & Hty & Hrc & Hsz & Hssz & Hdt & Hdec).
  apply ParseUint_range in Hty. apply ParseInt_range in Hrc, Hsz.
  apply ParseInt_range in Hssz, Hdt.
  repeat (split; [assumption|]). rewrite Hdec. apply land_15_range.
Qed.

(** The entry of the samples. *)
Lemma csv_row_ranges_witness :
  let row := StorageToCsv.mkRow "//depot/a b.txt" "@1.1@" 0
               (StorageToCsv.mkDecoded 0 0 0 0 0) 1 "ABC123" 100 100 "XYZ"
               1610000000 in
  0 <= StorageToCsv.fileType row < 2 ^ 64
  /\ - 2 ^ 63 <= StorageToCsv.refCount row < 2 ^ 63
  /\ - 2 ^ 63 <= StorageToCsv.size row < 2 ^ 63
  /\ - 2 ^ 63 <= StorageToCsv.serverSize row < 2 ^ 63
  /\ - 2 ^ 63 <= StorageToCsv.date row < 2 ^ 63
  /\ StorageToCsv.decoded row
     = StorageToCsv.decodeFileType (StorageToCsv.fileType row)
  /\ 0 <= StorageToCsv.serverFileType (StorageToCsv.decoded row) <= 15.
Proof.
  apply (csv_row_ranges (journalLine (Samples.entry "//depot/a b.txt" "@1.1@"))).
  vm_compute. reflexivity.
Defined.

(** The file name of the samples, with its space. *)
Lemma record_filename_trimmed_witness :
  let r := FindMissingFiles.mkScanned "//depot/a b.txt" "@1.1@" 0 in
  Trim (FindMissingFiles.filename r) "@" = FindMissingFiles.filename r.
Proof.
  refine (proj1 (record_filename_trimmed EmptyString
                   (journalLine (Samples.entry "//depot/a b.txt" "@1.1@"))) _ _).
  vm_compute. reflexivity.
Defined.

(** ** Lines beyond the buffer of the scanner *)

(** X20.  A line of 64 KiB or more ends the reading of a file, silently:
    for a file made of lines shorter than that, then a line of 64 KiB or
    more, then anything, each of the three reading loops (the journal loop
    of either tool and the revision scan of an RCS container) returns what
    it returns on the file cut before the long line.  What follows the
    long line is never read, and no error is returned for it. *)
Theorem long_line_ends_scan (ToLower : string -> string) (fs : OnDisk.Files)
    (path path' normalizedPath : string) (filemap : gmap string Z)
    (filter : string) (caseSensitive : bool)
    (before : list string) (long rest : string) :
  Forall TextFormat.plainLine before ->
  TextFormat.countByte "010" long = 0%nat ->
  MaxScanTokenSize <= slen long ->
  OnDisk.content fs path
  = Some (TextFormat.unlines before +:+ long +:+ String "010" rest) ->
  OnDisk.content fs path' = Some (TextFormat.unlines before) ->
  FindMissingFiles.processDbStorageEntries ToLower (OnDisk.view fs) path
    filemap filter caseSensitive
  = FindMissingFiles.processDbStorageEntries ToLower (OnDisk.view fs) path'
      filemap filter caseSensitive
  /\ OnDisk.exportJournal fs path = OnDisk.exportJournal fs path'
  /\ FindMissingFiles.readVersionsFromRCS ToLower (OnDisk.view fs) path
       normalizedPath filemap caseSensitive
     = FindMissingFiles.readVersionsFromRCS ToLower (OnDisk.view fs) path'
         normalizedPath filemap caseSensitive
  /\ OnDisk.scan fs path = Some before.
Proof.
  intros Hall Hnl Hlong Hopen Hopen'.
  assert (Hscan : OnDisk.scan fs path = Some before).
  { unfold OnDisk.scan. rewrite Hopen, (scannerLines_long before long rest Hall Hnl Hlong).
    reflexivity. }
  assert (Hscan' : OnDisk.scan fs path' = Some before).
  { unfold OnDisk.scan. rewrite Hopen', (scannerLines_unlines before Hall).
    reflexivity. }
  unfold FindMissingFiles.processDbStorageEntries, OnDisk.exportJournal,
    FindMissingFiles.readVersionsFromRCS, OnDisk.view.
  cbn [FindMissingFiles.openLines]. rewrite Hscan, Hscan'. repeat split.
Qed.

(** Two records with a line of 64 KiB between them: the journal is read
    as the journal of the first record alone. *)
Lemma long_line_ends_scan_witness :
  FindMissingFiles.processDbStorageEntries Samples.lowerASCII
    (OnDisk.view FileSamples.longLineJournal) "journal" ∅ EmptyString false
  = FindMissingFiles.processDbStorageEntries Samples.lowerASCII
      (OnDisk.view FileSamples.longLineJournal) "journal.cut" ∅ EmptyString false
  /\ OnDisk.exportJournal FileSamples.longLineJournal "journal"
     = OnDisk.exportJournal FileSamples.longLineJournal "journal.cut"
  /\ FindMissingFiles.readVersionsFromRCS Samples.lowerASCII
       (OnDisk.view FileSamples.longLineJournal) "journal" "//journal" ∅ false
     = FindMissingFiles.readVersionsFromRCS Samples.lowerASCII
         (OnDisk.view FileSamples.longLineJournal) "journal.cut" "//journal" ∅ false
  /\ OnDisk.scan FileSamples.longLineJournal "journal"
     = Some [journalLine (Samples.entry "//r.txt" "@1.1@")].
Proof.
  refine (long_line_ends_scan Samples.lowerASCII FileSamples.longLineJournal
    "journal" "journal.cut" "//journal" ∅ EmptyString false
    [journalLine (Samples.entry "//r.txt" "@1.1@")] FileSamples.longLine
    (TextFormat.unlines [journalLine (Samples.entry "//r.txt" "@1.2@")]) _ _ _ _ _).
  - constructor; [|constructor]. repeat split; vm_compute; reflexivity.
  - vm_compute. reflexivity.
  - vm_compute. discriminate.
  - reflexivity.
  - reflexivity.
Defined.

(** The same journal, run: one record is counted, the second is not. *)
Example long_line_hides_records :
  FindMissingFiles.processDbStorageEntries Samples.lowerASCII
    (OnDisk.view FileSamples.longLineJournal) "journal" ∅ EmptyString false
  = Ret (inr (FindMissingFiles.mkCounters 1 1))
  /\ slen FileSamples.longLine = 65536.
Proof. split; vm_compute; reflexivity. Qed.
